(** * FocusMotion Pebble streaming engine (src/c/focusmotion.c)

    A shallow embedding of the sensor-streaming protocol engine: the global
    variables of focusmotion.c become one record, every C function becomes a
    computation in a small state monad over that record, the Pebble SDK
    (AppMessage outbox, accelerometer service, client callbacks) is an
    explicit environment: its answers are read from an oracle and the calls
    the engine makes to it are appended to a trace. *)

From Stdlib Require Import ZArith List Bool Lia.
Import ListNotations.
Open Scope Z_scope.

(** ** Machine integers

    The target is a 32-bit ARM: [int] and [time_t] are 32-bit two's
    complement, [uint32_t], [size_t] are 32-bit unsigned.  Values are kept in
    [Z]; every conversion the C code performs is written out. *)

Definition uint8 (z : Z) : Z := z mod 256.
Definition uint16 (z : Z) : Z := z mod 65536.
Definition uint32 (z : Z) : Z := z mod 4294967296.
Definition int32 (z : Z) : Z := (z + 2147483648) mod 4294967296 - 2147483648.

(** [n] little-endian bytes of [v] (two's complement for negative [v]). *)
Fixpoint le_bytes (n : nat) (v : Z) : list Z :=
  match n with
  | O => []
  | S n' => v mod 256 :: le_bytes n' (v / 256)
  end.

(** The unsigned integer stored in little-endian bytes. *)
Fixpoint le_value (bs : list Z) : Z :=
  match bs with
  | [] => 0
  | b :: bs' => b + 256 * le_value bs'
  end.

(** ** Samples *)

(** [AccelData] of the SDK; only the three axes are read by the engine. *)
Record AccelData := mkAccelData {
  ax : Z; ay : Z; az : Z; did_vibrate : bool; timestamp : Z }.

(** [Sample]: packed struct of three [int16_t]. *)
Record Sample := mkSample { x : Z; y : Z; z : Z }.

Definition sizeof_Sample : Z := 6.

Definition Sample_of_AccelData (d : AccelData) : Sample :=
  {| x := ax d; y := ay d; z := az d |}.

(** Memory image of one [Sample], as [dict_write_data] copies it. *)
Definition Sample_bytes (p : Sample) : list Z :=
  le_bytes 2 (x p) ++ le_bytes 2 (y p) ++ le_bytes 2 (z p).

Definition ACCEL_BUF_SIZE : Z := 500.
Definition RESEND_BUF_SIZE : Z := 10.
Definition DATA_TIMER_MS : Z := 100.
Definition PROTOCOL_VERSION : Z := 3.

Inductive AccelSamplingRate :=
| ACCEL_SAMPLING_10HZ | ACCEL_SAMPLING_25HZ
| ACCEL_SAMPLING_50HZ | ACCEL_SAMPLING_100HZ.

Definition rate_value (r : AccelSamplingRate) : Z :=
  match r with
  | ACCEL_SAMPLING_10HZ => 10
  | ACCEL_SAMPLING_25HZ => 25
  | ACCEL_SAMPLING_50HZ => 50
  | ACCEL_SAMPLING_100HZ => 100
  end.

Definition DEFAULT_SAMPLING_RATE := ACCEL_SAMPLING_50HZ.

(** ** Message keys *)

Definition KEYS_BEGIN : Z := 0x464d0000 - 1.
Definition KEY_START : Z := KEYS_BEGIN + 1.
Definition KEY_STOP : Z := KEYS_BEGIN + 2.
Definition KEY_SENSOR_DATA : Z := KEYS_BEGIN + 3.
Definition KEY_METADATA : Z := KEYS_BEGIN + 4.
Definition KEY_SENSOR_OFFSET : Z := KEYS_BEGIN + 5.
Definition KEY_CONNECT : Z := KEYS_BEGIN + 6.
Definition KEY_DISCONNECT : Z := KEYS_BEGIN + 7.
Definition KEY_RESEND : Z := KEYS_BEGIN + 8.
Definition KEY_SENSOR_RATE : Z := KEYS_BEGIN + 9.
Definition KEY_HEARTBEAT : Z := KEYS_BEGIN + 10.
Definition KEYS_END : Z := KEYS_BEGIN + 11.

(** ** Dictionaries

    A dictionary is the sequence of its tuples; a tuple keeps its key, its
    type tag and its payload bytes ([length] is the number of payload
    bytes).  [value_uint8] and [value_uint32] are the union reads
    [t->value[0].uint8] and [t->value[0].uint32] of a tuple whose payload
    has the bytes read.  On a shorter payload the C read takes the bytes that
    follow the payload in the buffer; a [Tuple] does not record them and the
    functions below take them as zero, so what is stated about the value read
    is stated for payloads that are long enough. *)

Inductive TupleType := TUPLE_BYTE_ARRAY | TUPLE_CSTRING | TUPLE_UINT | TUPLE_INT.

Record Tuple := mkTuple { key : Z; type : TupleType; value : list Z }.

Definition Dictionary := list Tuple.

Definition value_uint8 (t : Tuple) : Z := le_value (firstn 1 (value t)).
Definition value_uint32 (t : Tuple) : Z := le_value (firstn 4 (value t)).

Definition dict_write_data (k : Z) (data : list Z) : Tuple :=
  {| key := k; type := TUPLE_BYTE_ARRAY; value := data |}.
Definition dict_write_cstring (k : Z) (chars : list Z) : Tuple :=
  {| key := k; type := TUPLE_CSTRING; value := chars |}.
Definition dict_write_int (k : Z) (bytes : list Z) (is_signed : bool) : Tuple :=
  {| key := k; type := if is_signed then TUPLE_INT else TUPLE_UINT; value := bytes |}.
Definition dict_write_uint8 (k v : Z) : Tuple :=
  {| key := k; type := TUPLE_UINT; value := le_bytes 1 (uint8 v) |}.
Definition dict_write_uint32 (k v : Z) : Tuple :=
  {| key := k; type := TUPLE_UINT; value := le_bytes 4 (uint32 v) |}.

Definition dict_find (d : Dictionary) (k : Z) : option Tuple :=
  find (fun t => key t =? k) d.

(** In a dictionary a tuple takes its header (key, type and length, packed
    in 7 bytes) and its payload. *)
Definition sizeof_Tuple : Z := 7.

Definition tuple_size (t : Tuple) : Z := sizeof_Tuple + Z.of_nat (length (value t)).

(** A sequence of [dict_write_*] calls on an iterator with [space] bytes
    between its cursor and its end.  A tuple that fits is written and the
    cursor moves past it; for one that does not fit the call returns
    [DICT_NOT_ENOUGH_STORAGE], which the engine never looks at, and the
    dictionary and the cursor stay as they were. *)
Fixpoint dict_write_within (space : Z) (ts : list Tuple) : Dictionary :=
  match ts with
  | [] => []
  | t :: ts' =>
      if tuple_size t <=? space
      then t :: dict_write_within (space - tuple_size t) ts'
      else dict_write_within space ts'
  end.

(** Result codes of the AppMessage service (those the engine tells apart,
    and a few of the failures the service reports). *)
Inductive AppMessageResult :=
| APP_MSG_OK | APP_MSG_SEND_TIMEOUT | APP_MSG_SEND_REJECTED
| APP_MSG_NOT_CONNECTED | APP_MSG_BUSY.

Definition is_OK (r : AppMessageResult) : bool :=
  match r with APP_MSG_OK => true | _ => false end.
Definition is_SEND_REJECTED (r : AppMessageResult) : bool :=
  match r with APP_MSG_SEND_REJECTED => true | _ => false end.

(** ** Global state *)

(** A saved message to be re-sent: the bytes of the failed dictionary. *)
Definition MsgBuf := Dictionary.

(** The client's event handlers; [true] stands for a non-NULL pointer. *)
Record Handlers := mkHandlers {
  g_inbox_received_handler : bool;
  g_outbox_failed_handler : bool;
  g_accel_handler : bool;
  g_bluetooth_handler : bool;
  g_recording_handler : bool;
  g_connected_handler : bool }.

(** The globals of focusmotion.c.  [g_accel_buf] holds the
    [g_accel_buf_count] valid samples of the array, oldest first;
    [g_resend_buf] holds the [g_resend_buf_count] saved messages, in the order
    they were saved. *)
Record State := mkState {
  g_inited : bool;
  g_recording : bool;
  g_connected : bool;
  g_connection_id : Z;
  g_handlers : Handlers;
  g_accel_buf : list Sample;
  g_resend_buf : list MsgBuf;
  g_samples_sent : Z;
  g_samples_measured : Z;
  g_msg_flags : Z;
  g_metadata_buf : list Z;
  g_sampling_rate : AccelSamplingRate;
  g_next_sampling_rate : AccelSamplingRate;
  g_data_timer : bool;
  g_last_message_time : Z;
  g_app_version : Z }.

Definition g_accel_buf_count (s : State) : Z := Z.of_nat (length (g_accel_buf s)).
Definition g_resend_buf_count (s : State) : Z := Z.of_nat (length (g_resend_buf s)).

(** The static initialisers. *)
Definition initial_state : State :=
  {| g_inited := false; g_recording := false; g_connected := false;
     g_connection_id := 1;
     g_handlers := mkHandlers false false false false false false;
     g_accel_buf := []; g_resend_buf := [];
     g_samples_sent := 0; g_samples_measured := 0; g_msg_flags := 0;
     g_metadata_buf := [];
     g_sampling_rate := DEFAULT_SAMPLING_RATE;
     g_next_sampling_rate := DEFAULT_SAMPLING_RATE;
     g_data_timer := false; g_last_message_time := 0; g_app_version := 0 |}.

(** Assignments to one global. *)
Module Upd.
Definition inited (v : bool) (s : State) : State :=
  mkState v (g_recording s) (g_connected s) (g_connection_id s) (g_handlers s)
    (g_accel_buf s) (g_resend_buf s) (g_samples_sent s) (g_samples_measured s)
    (g_msg_flags s) (g_metadata_buf s) (g_sampling_rate s)
    (g_next_sampling_rate s) (g_data_timer s) (g_last_message_time s)
    (g_app_version s).
Definition recording (v : bool) (s : State) : State :=
  mkState (g_inited s) v (g_connected s) (g_connection_id s) (g_handlers s)
    (g_accel_buf s) (g_resend_buf s) (g_samples_sent s) (g_samples_measured s)
    (g_msg_flags s) (g_metadata_buf s) (g_sampling_rate s)
    (g_next_sampling_rate s) (g_data_timer s) (g_last_message_time s)
    (g_app_version s).
Definition connected (v : bool) (s : State) : State :=
  mkState (g_inited s) (g_recording s) v (g_connection_id s) (g_handlers s)
    (g_accel_buf s) (g_resend_buf s) (g_samples_sent s) (g_samples_measured s)
    (g_msg_flags s) (g_metadata_buf s) (g_sampling_rate s)
    (g_next_sampling_rate s) (g_data_timer s) (g_last_message_time s)
    (g_app_version s).
Definition connection_id (v : Z) (s : State) : State :=
  mkState (g_inited s) (g_recording s) (g_connected s) v (g_handlers s)
    (g_accel_buf s) (g_resend_buf s) (g_samples_sent s) (g_samples_measured s)
    (g_msg_flags s) (g_metadata_buf s) (g_sampling_rate s)
    (g_next_sampling_rate s) (g_data_timer s) (g_last_message_time s)
    (g_app_version s).
Definition handlers (v : Handlers) (s : State) : State :=
  mkState (g_inited s) (g_recording s) (g_connected s) (g_connection_id s) v
    (g_accel_buf s) (g_resend_buf s) (g_samples_sent s) (g_samples_measured s)
    (g_msg_flags s) (g_metadata_buf s) (g_sampling_rate s)
    (g_next_sampling_rate s) (g_data_timer s) (g_last_message_time s)
    (g_app_version s).
Definition accel_buf (v : list Sample) (s : State) : State :=
  mkState (g_inited s) (g_recording s) (g_connected s) (g_connection_id s)
    (g_handlers s) v (g_resend_buf s) (g_samples_sent s) (g_samples_measured s)
    (g_msg_flags s) (g_metadata_buf s) (g_sampling_rate s)
    (g_next_sampling_rate s) (g_data_timer s) (g_last_message_time s)
    (g_app_version s).
Definition resend_buf (v : list MsgBuf) (s : State) : State :=
  mkState (g_inited s) (g_recording s) (g_connected s) (g_connection_id s)
    (g_handlers s) (g_accel_buf s) v (g_samples_sent s) (g_samples_measured s)
    (g_msg_flags s) (g_metadata_buf s) (g_sampling_rate s)
    (g_next_sampling_rate s) (g_data_timer s) (g_last_message_time s)
    (g_app_version s).
Definition samples_sent (v : Z) (s : State) : State :=
  mkState (g_inited s) (g_recording s) (g_connected s) (g_connection_id s)
    (g_handlers s) (g_accel_buf s) (g_resend_buf s) v (g_samples_measured s)
    (g_msg_flags s) (g_metadata_buf s) (g_sampling_rate s)
    (g_next_sampling_rate s) (g_data_timer s) (g_last_message_time s)
    (g_app_version s).
Definition samples_measured (v : Z) (s : State) : State :=
  mkState (g_inited s) (g_recording s) (g_connected s) (g_connection_id s)
    (g_handlers s) (g_accel_buf s) (g_resend_buf s) (g_samples_sent s) v
    (g_msg_flags s) (g_metadata_buf s) (g_sampling_rate s)
    (g_next_sampling_rate s) (g_data_timer s) (g_last_message_time s)
    (g_app_version s).
Definition msg_flags (v : Z) (s : State) : State :=
  mkState (g_inited s) (g_recording s) (g_connected s) (g_connection_id s)
    (g_handlers s) (g_accel_buf s) (g_resend_buf s) (g_samples_sent s)
    (g_samples_measured s) v (g_metadata_buf s) (g_sampling_rate s)
    (g_next_sampling_rate s) (g_data_timer s) (g_last_message_time s)
    (g_app_version s).
Definition metadata_buf (v : list Z) (s : State) : State :=
  mkState (g_inited s) (g_recording s) (g_connected s) (g_connection_id s)
    (g_handlers s) (g_accel_buf s) (g_resend_buf s) (g_samples_sent s)
    (g_samples_measured s) (g_msg_flags s) v (g_sampling_rate s)
    (g_next_sampling_rate s) (g_data_timer s) (g_last_message_time s)
    (g_app_version s).
Definition sampling_rate (v : AccelSamplingRate) (s : State) : State :=
  mkState (g_inited s) (g_recording s) (g_connected s) (g_connection_id s)
    (g_handlers s) (g_accel_buf s) (g_resend_buf s) (g_samples_sent s)
    (g_samples_measured s) (g_msg_flags s) (g_metadata_buf s) v
    (g_next_sampling_rate s) (g_data_timer s) (g_last_message_time s)
    (g_app_version s).
Definition next_sampling_rate (v : AccelSamplingRate) (s : State) : State :=
  mkState (g_inited s) (g_recording s) (g_connected s) (g_connection_id s)
    (g_handlers s) (g_accel_buf s) (g_resend_buf s) (g_samples_sent s)
    (g_samples_measured s) (g_msg_flags s) (g_metadata_buf s)
    (g_sampling_rate s) v (g_data_timer s) (g_last_message_time s)
    (g_app_version s).
Definition data_timer (v : bool) (s : State) : State :=
  mkState (g_inited s) (g_recording s) (g_connected s) (g_connection_id s)
    (g_handlers s) (g_accel_buf s) (g_resend_buf s) (g_samples_sent s)
    (g_samples_measured s) (g_msg_flags s) (g_metadata_buf s)
    (g_sampling_rate s) (g_next_sampling_rate s) v (g_last_message_time s)
    (g_app_version s).
Definition last_message_time (v : Z) (s : State) : State :=
  mkState (g_inited s) (g_recording s) (g_connected s) (g_connection_id s)
    (g_handlers s) (g_accel_buf s) (g_resend_buf s) (g_samples_sent s)
    (g_samples_measured s) (g_msg_flags s) (g_metadata_buf s)
    (g_sampling_rate s) (g_next_sampling_rate s) (g_data_timer s) v
    (g_app_version s).
Definition app_version (v : Z) (s : State) : State :=
  mkState (g_inited s) (g_recording s) (g_connected s) (g_connection_id s)
    (g_handlers s) (g_accel_buf s) (g_resend_buf s) (g_samples_sent s)
    (g_samples_measured s) (g_msg_flags s) (g_metadata_buf s)
    (g_sampling_rate s) (g_next_sampling_rate s) (g_data_timer s)
    (g_last_message_time s) v.
End Upd.

(** ** Message flags *)

Definition flag_bit (k : Z) : Z := Z.shiftl 1 (k - KEY_START).

Definition set_flag (k : Z) (flags : Z) : Z := Z.lor flags (flag_bit k).
Definition clear_flag (k : Z) (flags : Z) : Z := Z.land flags (Z.lnot (flag_bit k)).
Definition test_flag (k : Z) (flags : Z) : bool := negb (Z.land flags (flag_bit k) =? 0).

Definition get_msg_flag (k : Z) (s : State) : bool := test_flag k (g_msg_flags s).

(** ** The environment

    One call of [send_data] asks the AppMessage service at most five things:
    whether the outbox can be begun and whether the send is accepted, for the
    message taken from the resend buffer and for the new message, and how
    many bytes are left in the new message's dictionary
    ([iter->end - iter->cursor], line 293) once the sensor header fields are
    written.  The service's answers are an oracle.  The engine reads the
    space left only when samples are buffered, and only there does the model
    know it: the fields written before line 293, and all fields of a message
    without samples, are taken to fit. *)
Record Outbox := mkOutbox {
  resend_begin : AppMessageResult;
  resend_send : AppMessageResult;
  fresh_begin : AppMessageResult;
  fresh_space : Z;
  fresh_send : AppMessageResult }.

(** What the engine does to its collaborators. *)
Inductive Output :=
| OutboxSend (msg : Dictionary) (r : AppMessageResult)
| AccelSubscribe (samples_per_update : Z)
| AccelSetSamplingRate (r : AccelSamplingRate)
| AccelUnsubscribe
| SniffInterval (reduced : bool)
| TimerRegister (ms : Z)
| TimerCancel
| Psleep (ms : Z)
| RecordingHandler (is_recording : bool)
| ConnectedHandler (is_connected : bool)
| ClientInboxReceived (msg : Dictionary)
| ClientOutboxFailed (msg : Dictionary) (reason : AppMessageResult)
| ClientAccel (data : list AccelData)
| ClientBluetooth (up : bool).

(** The globals, the oracle with the number of answers already consumed
    (one per call of [send_data]), and the calls made so far. *)
Record World := mkWorld {
  globals : State;
  outbox : nat -> Outbox;
  sends : nat;
  trace : list Output }.

Definition M (A : Type) : Type := World -> A * World.

Definition ret {A} (a : A) : M A := fun w => (a, w).
Definition bind {A B} (c : M A) (k : A -> M B) : M B :=
  fun w => k (fst (c w)) (snd (c w)).

Declare Scope fm_scope.
Delimit Scope fm_scope with fm.
Notation "v <- c ;; k" := (bind c (fun v => k))
  (at level 61, c at next level, right associativity) : fm_scope.
Notation "c ;; k" := (bind c (fun _ => k))
  (at level 61, right associativity) : fm_scope.
Open Scope fm_scope.

Definition gets {A} (f : State -> A) : M A := fun w => (f (globals w), w).
Definition modify (f : State -> State) : M unit :=
  fun w => (tt, mkWorld (f (globals w)) (outbox w) (sends w) (trace w)).
Definition emit (o : Output) : M unit :=
  fun w => (tt, mkWorld (globals w) (outbox w) (sends w) (trace w ++ [o])).
Definition when (b : bool) (c : M unit) : M unit := if b then c else ret tt.

Definition exec {A} (c : M A) (w : World) : World := snd (c w).
Definition state_after {A} (c : M A) (w : World) : State := globals (exec c w).

Definition set_msg_flag (k : Z) : M unit :=
  modify (fun s => Upd.msg_flags (set_flag k (g_msg_flags s)) s).

Definition clear_msg_flag (k : Z) : M unit :=
  modify (fun s => Upd.msg_flags (clear_flag k (g_msg_flags s)) s).

Definition clear_resend_buf : M unit := modify (Upd.resend_buf []).

(** ** send_data *)

(** The loop of the resend branch over the saved dictionary: tuples of the
    engine's key range are copied, except [KEY_RESEND], whose value is
    remembered. *)
Definition resend_copy (acc : Z * Dictionary) (t : Tuple) : Z * Dictionary :=
  let (resend, out) := acc in
  if (KEYS_BEGIN <? key t) && (key t <? KEYS_END) then
    if key t =? KEY_RESEND then (value_uint8 t, out)
    else
      match type t with
      | TUPLE_BYTE_ARRAY => (resend, out ++ [dict_write_data (key t) (value t)])
      | TUPLE_CSTRING => (resend, out ++ [dict_write_cstring (key t) (value t)])
      | TUPLE_UINT => (resend, out ++ [dict_write_int (key t) (value t) false])
      | TUPLE_INT => (resend, out ++ [dict_write_int (key t) (value t) true])
      end
  else acc.

(** The message sent in place of a saved one: the copied tuples followed
    by the incremented resend counter.  The saved message went through the
    outbox once and its tuples are taken to fit it again; the head-room of
    line 294 is what the code leaves for the counter. *)
Definition resend_message (msgbuf : MsgBuf) : Dictionary :=
  let (resend, out) := fold_left resend_copy msgbuf (-1, []) in
  out ++ [dict_write_uint8 KEY_RESEND (resend + 1)].

(** [samples_max]: [bytes_available / sizeof(Sample)] after the 32 bytes of
    head-room are taken off.  [sizeof] is a [size_t], so the division is
    unsigned. *)
Definition samples_max (space : Z) : Z :=
  let bytes_available := int32 (int32 space - 32) in
  int32 (uint32 bytes_available / sizeof_Sample).

Definition samples_to_send (space : Z) (s : State) : Z :=
  if 0 <? g_accel_buf_count s then
    if samples_max space <? g_accel_buf_count s then samples_max space
    else g_accel_buf_count s
  else 0.

Definition stop_or_disconnect_mask : Z :=
  Z.lor (Z.shiftl 1 (KEY_STOP - KEY_START)) (Z.shiftl 1 (KEY_DISCONNECT - KEY_START)).

(** The dictionary of a new message, in the order the fields are written.
    From the sensor data on the fields are written into the [space] that
    line 293 found left: the data, and after a whole drain the stop and
    disconnect fields, each only if it still fits. *)
Definition fresh_message (space : Z) (s : State) : Dictionary :=
  let n := samples_to_send space s in
  let sensor_data :=
    dict_write_data KEY_SENSOR_DATA
      (flat_map Sample_bytes (firstn (Z.to_nat n) (g_accel_buf s))) in
  let stop_and_disconnect :=
    if n =? g_accel_buf_count s then
      (if get_msg_flag KEY_STOP s then
         [dict_write_data KEY_STOP
            (le_bytes 4 (int32 (g_samples_sent s + n))
             ++ le_bytes 4 (g_samples_measured s))]
       else [])
      ++ (if get_msg_flag KEY_DISCONNECT s then
            [dict_write_uint8 KEY_DISCONNECT (g_connection_id s)]
          else [])
    else [] in
  (if get_msg_flag KEY_CONNECT s then
     let version := uint32 (Z.lor (Z.shiftl (g_app_version s) 16) PROTOCOL_VERSION) in
     dict_write_uint32 KEY_CONNECT
       (if g_connected s then uint32 (Z.shiftl (g_connection_id s) 16) else version)
     :: (if g_connected s then [dict_write_data KEY_METADATA (g_metadata_buf s)] else [])
   else [])
  ++ (if get_msg_flag KEY_START s then [dict_write_uint8 KEY_START 1] else [])
  ++ (if get_msg_flag KEY_HEARTBEAT s then [dict_write_uint8 KEY_HEARTBEAT 1] else [])
  ++ (if 0 <? g_accel_buf_count s then
        [dict_write_uint32 KEY_SENSOR_OFFSET (g_samples_sent s);
         dict_write_uint8 KEY_SENSOR_RATE (rate_value (g_sampling_rate s))]
        ++ dict_write_within space (sensor_data :: stop_and_disconnect)
      else stop_and_disconnect).

(** The flags left pending once the new message is accepted. *)
Definition new_msg_flags (space : Z) (s : State) : Z :=
  if samples_to_send space s =? g_accel_buf_count s then 0
  else Z.land (g_msg_flags s) stop_or_disconnect_mask.

(** Lines 251-363: build and send a new message. *)
Definition send_fresh (ob : Outbox) (s : State) : State * list Output :=
  if (0 <? g_accel_buf_count s) || negb (g_msg_flags s =? 0) then
    if is_OK (fresh_begin ob) then
      let n := samples_to_send (fresh_space ob) s in
      let msg := fresh_message (fresh_space ob) s in
      if is_OK (fresh_send ob) then
        let s1 := Upd.msg_flags (new_msg_flags (fresh_space ob) s) s in
        let s2 :=
          if 0 <? n then
            Upd.samples_sent (int32 (g_samples_sent s1 + n))
              (Upd.accel_buf (skipn (Z.to_nat n) (g_accel_buf s1)) s1)
          else s1 in
        (s2, [OutboxSend msg (fresh_send ob)])
      else (s, [OutboxSend msg (fresh_send ob)])
    else (s, [])
  else (s, []).

(** The whole function on one oracle answer.  When the resend buffer is not
    empty and its outbox cannot be begun the function returns at once;
    otherwise control falls through to the new message. *)
Definition send_data_on (ob : Outbox) (s : State) : State * list Output :=
  if 0 <? g_resend_buf_count s then
    if is_OK (resend_begin ob) then
      let msgbuf := last (g_resend_buf s) [] in
      let out := OutboxSend (resend_message msgbuf) (resend_send ob) in
      let s1 := if is_OK (resend_send ob)
                then Upd.resend_buf (removelast (g_resend_buf s)) s
                else s in
      let (s2, outs) := send_fresh ob s1 in
      (s2, out :: outs)
    else (s, [])
  else send_fresh ob s.

Definition send_data : M unit :=
  fun w =>
    let (s, outs) := send_data_on (outbox w (sends w)) (globals w) in
    (tt, mkWorld s (outbox w) (S (sends w)) (trace w ++ outs)).

(** ** Data timer *)

Definition register_data_timer : M unit :=
  t <- gets g_data_timer ;;
  when (negb t) (emit (TimerRegister DATA_TIMER_MS) ;; modify (Upd.data_timer true)).

Definition cancel_data_timer : M unit :=
  t <- gets g_data_timer ;;
  when t (emit TimerCancel) ;;
  modify (Upd.data_timer false).

(** ** Start and stop recording *)

Definition start_recording : M unit :=
  r <- gets g_recording ;;
  when (negb r) (
    modify (fun s => Upd.sampling_rate (g_next_sampling_rate s) s) ;;
    emit (AccelSubscribe 10) ;;
    rate <- gets g_sampling_rate ;;
    emit (AccelSetSamplingRate rate) ;;
    emit (SniffInterval true) ;;
    modify (Upd.accel_buf []) ;;
    modify (Upd.samples_sent 0) ;;
    modify (Upd.samples_measured 0) ;;
    set_msg_flag KEY_START ;;
    clear_msg_flag KEY_STOP ;;
    send_data ;;
    modify (Upd.recording true) ;;
    h <- gets (fun s => g_recording_handler (g_handlers s)) ;;
    when h (emit (RecordingHandler true))).

Definition stop_recording : M unit :=
  r <- gets g_recording ;;
  when r (
    set_msg_flag KEY_STOP ;;
    clear_msg_flag KEY_START ;;
    send_data ;;
    emit AccelUnsubscribe ;;
    emit (SniffInterval false) ;;
    modify (Upd.recording false) ;;
    h <- gets (fun s => g_recording_handler (g_handlers s)) ;;
    when h (emit (RecordingHandler false))).

(** ** Connected / disconnected *)

Definition set_connected (connected : bool) : M unit :=
  c <- gets g_connected ;;
  when (negb (eqb c connected)) (
    (if connected then
       modify (fun s => Upd.connection_id (uint32 (g_connection_id s + 1)) s) ;;
       id <- gets g_connection_id ;;
       when (1000 <? id) (modify (Upd.connection_id 1))
     else
       stop_recording ;;
       clear_resend_buf ;;
       modify (Upd.accel_buf []) ;;
       modify (Upd.msg_flags 0) ;;
       modify (Upd.last_message_time 0) ;;
       set_msg_flag KEY_DISCONNECT) ;;
    modify (Upd.connected connected) ;;
    h <- gets (fun s => g_connected_handler (g_handlers s)) ;;
    when h (emit (ConnectedHandler connected))).

(** ** Callbacks of the AppMessage service *)

(** [t && t->value[0].uint8 > 5] for [t = dict_find(in_iter, KEY_RESEND)]. *)
Definition resent_too_often (in_iter : Dictionary) : bool :=
  match dict_find in_iter KEY_RESEND with
  | Some t => 5 <? value_uint8 t
  | None => false
  end.

Definition outbox_failed_handler (in_iter : Dictionary) (reason : AppMessageResult)
  : M unit :=
  if is_SEND_REJECTED reason then ret tt
  else
    c <- gets g_connected ;;
    when c (
      if resent_too_often in_iter then set_connected false
      else
        n <- gets g_resend_buf_count ;;
        if n <? RESEND_BUF_SIZE then
          modify (fun s => Upd.resend_buf (g_resend_buf s ++ [in_iter]) s)
        else set_connected false) ;;
    h <- gets (fun s => g_outbox_failed_handler (g_handlers s)) ;;
    when h (emit (ClientOutboxFailed in_iter reason)).

(** The two halves of the version word of a received [KEY_CONNECT]. *)
Definition protocol_version_of (version : Z) : Z := uint16 (Z.land version 0xffff).
Definition app_version_of (version : Z) : Z :=
  uint16 (Z.land (Z.shiftr version 16) 0xffff).

(** The [KEY_CONNECT] case of the switch. *)
Definition inbox_connect (t : Tuple) : M unit :=
  let version := value_uint32 t in
  if 0 <? version then
    v <- gets g_app_version ;;
    if negb (protocol_version_of version =? PROTOCOL_VERSION)
       || negb (app_version_of version =? v) then
      set_connected false ;;
      set_msg_flag KEY_CONNECT
    else
      set_connected true ;;
      set_msg_flag KEY_CONNECT
  else set_connected true.

(** One turn of the loop over the received tuples; the result is the new
    value of [handled]. *)
Definition inbox_tuple (t : Tuple) (handled : bool) : M bool :=
  if key t =? KEY_START then start_recording ;; ret true
  else if key t =? KEY_STOP then stop_recording ;; ret true
  else if key t =? KEY_DISCONNECT then set_connected false ;; ret true
  else if key t =? KEY_CONNECT then inbox_connect t ;; ret true
  else ret handled.

Fixpoint inbox_loop (ts : list Tuple) (handled : bool) : M bool :=
  match ts with
  | [] => ret handled
  | t :: ts' => h <- inbox_tuple t handled ;; inbox_loop ts' h
  end.

(** [now] is the value of [time(NULL)]. *)
Definition inbox_received_handler (now : Z) (iter : Dictionary) : M unit :=
  modify (Upd.last_message_time now) ;;
  handled <- inbox_loop iter false ;;
  h <- gets (fun s => g_inbox_received_handler (g_handlers s)) ;;
  when (negb handled && h) (emit (ClientInboxReceived iter)).

Definition data_timer_callback (now : Z) : M unit :=
  modify (Upd.data_timer false) ;;
  send_data ;;
  last <- gets g_last_message_time ;;
  when (0 <? last) (
    c <- gets g_connected ;;
    when (c && (8 <? int32 (now - last))) (set_connected false)) ;;
  register_data_timer.

(** ** Accelerometer and bluetooth callbacks *)

(** [inCount] is the number of elements of [inData]. *)
Definition accel_handler (inData : list AccelData) : M unit :=
  let inCount := Z.of_nat (length inData) in
  r <- gets g_recording ;;
  when r (
    modify (fun s => Upd.samples_measured (int32 (g_samples_measured s + inCount)) s) ;;
    count <- gets g_accel_buf_count ;;
    let n := int32 inCount in
    let nBuf := ACCEL_BUF_SIZE - count in
    let n := if nBuf <? n then nBuf else n in
    when (0 <? n) (
      modify (fun s =>
        Upd.accel_buf
          (g_accel_buf s ++ map Sample_of_AccelData (firstn (Z.to_nat n) inData)) s))) ;;
  h <- gets (fun s => g_accel_handler (g_handlers s)) ;;
  when h (emit (ClientAccel inData)).

Definition bluetooth_handler (connected : bool) : M unit :=
  when (negb connected) (set_connected false) ;;
  h <- gets (fun s => g_bluetooth_handler (g_handlers s)) ;;
  when h (emit (ClientBluetooth connected)).

(** ** Public operations *)

(** [metadata] is the string [init_metadata] formats from the watch model
    and the application's process info; the buffer keeps 255 characters. *)
Definition focusmotion_startup (app_version : Z) (client : Handlers)
    (metadata : list Z) : M unit :=
  i <- gets g_inited ;;
  when (negb i) (
    modify (Upd.app_version (uint16 app_version)) ;;
    modify (Upd.handlers client) ;;
    register_data_timer ;;
    modify (Upd.metadata_buf (firstn 255 metadata)) ;;
    modify (Upd.accel_buf []) ;;
    modify (Upd.samples_sent 0) ;;
    modify (Upd.samples_measured 0) ;;
    modify (Upd.msg_flags 0) ;;
    modify (Upd.connected false) ;;
    modify (Upd.recording false) ;;
    modify (Upd.inited true)).

(** [bluetooth_up] is the answer of [bluetooth_connection_service_peek]. *)
Definition focusmotion_start_recording (bluetooth_up : bool) : M unit :=
  when bluetooth_up start_recording.

Definition focusmotion_stop_recording : M unit := stop_recording.

Definition focusmotion_is_recording : M bool := gets g_recording.
Definition focusmotion_is_connected : M bool := gets g_connected.
Definition focusmotion_get_sampling_rate : M AccelSamplingRate := gets g_sampling_rate.

Definition focusmotion_set_sampling_rate (rate : AccelSamplingRate) : M unit :=
  modify (Upd.next_sampling_rate rate) ;;
  r <- gets g_recording ;;
  when (negb r) (modify (Upd.sampling_rate rate)).

(** [while (g_msg_flags && i < 5)], [fuel] is [5 - i]. *)
Fixpoint shutdown_flush (fuel : nat) : M unit :=
  match fuel with
  | O => ret tt
  | S fuel' =>
      f <- gets g_msg_flags ;;
      when (negb (f =? 0)) (emit (Psleep 50) ;; send_data ;; shutdown_flush fuel')
  end.

Definition focusmotion_shutdown : M unit :=
  i <- gets g_inited ;;
  when i (
    modify (fun s =>
      Upd.handlers
        (mkHandlers false (g_outbox_failed_handler (g_handlers s))
           false false false false) s) ;;
    set_msg_flag KEY_DISCONNECT ;;
    stop_recording ;;
    send_data ;;
    shutdown_flush 5 ;;
    cancel_data_timer ;;
    clear_resend_buf) ;;
  modify (Upd.inited false).

(** ** Runs

    Everything that happens to the engine is one of these events: a call of
    a public operation by the application, or a callback of the SDK. *)
Inductive Event :=
| Startup (app_version : Z) (client : Handlers) (metadata : list Z)
| StartRecording (bluetooth_up : bool)
| StopRecording
| SetSamplingRate (rate : AccelSamplingRate)
| Shutdown
| TimerTick (now : Z)
| InboxReceived (now : Z) (msg : Dictionary)
| OutboxFailed (msg : Dictionary) (reason : AppMessageResult)
| AccelSamples (data : list AccelData)
| BluetoothChanged (up : bool).

Definition step (e : Event) : M unit :=
  match e with
  | Startup v client metadata => focusmotion_startup v client metadata
  | StartRecording up => focusmotion_start_recording up
  | StopRecording => focusmotion_stop_recording
  | SetSamplingRate rate => focusmotion_set_sampling_rate rate
  | Shutdown => focusmotion_shutdown
  | TimerTick now => data_timer_callback now
  | InboxReceived now msg => inbox_received_handler now msg
  | OutboxFailed msg reason => outbox_failed_handler msg reason
  | AccelSamples data => accel_handler data
  | BluetoothChanged up => bluetooth_handler up
  end.

Fixpoint run (es : list Event) : M unit :=
  match es with
  | [] => ret tt
  | e :: es' => step e ;; run es'
  end.

(** The world before anything ran, for a given oracle. *)
Definition boot (ob : nat -> Outbox) : World := mkWorld initial_state ob O [].

(** The states the engine can be in. *)
Definition reachable (s : State) : Prop :=
  exists ob es, s = state_after (run es) (boot ob).

Arguments KEYS_BEGIN : simpl never.
Arguments KEY_START : simpl never.
Arguments KEY_STOP : simpl never.
Arguments KEY_SENSOR_DATA : simpl never.
Arguments KEY_METADATA : simpl never.
Arguments KEY_SENSOR_OFFSET : simpl never.
Arguments KEY_CONNECT : simpl never.
Arguments KEY_DISCONNECT : simpl never.
Arguments KEY_RESEND : simpl never.
Arguments KEY_SENSOR_RATE : simpl never.
Arguments KEY_HEARTBEAT : simpl never.
Arguments KEYS_END : simpl never.

(** ** Scenarios *)

(** An outbox that accepts everything and leaves 656 bytes for samples. *)
Definition scen_outbox_ok : Outbox :=
  mkOutbox APP_MSG_OK APP_MSG_OK APP_MSG_OK 656 APP_MSG_OK.

Definition scen_client : Handlers := mkHandlers false true false false true true.

(** A connect request for application version 7 and protocol version 3. *)
Definition scen_connect : Dictionary := [dict_write_uint32 KEY_CONNECT (7 * 65536 + 3)].

Definition scen_sample : AccelData := mkAccelData 1 (-2) 3 false 0.

(** Started up and connected, nothing else going on. *)
Definition scen_idle : World :=
  exec (run [Startup 7 scen_client [102; 109]; InboxReceived 100 scen_connect])
    (boot (fun _ => scen_outbox_ok)).

(** Started up, not yet connected. *)
Definition scen_started : World :=
  exec (run [Startup 7 scen_client [102; 109]]) (boot (fun _ => scen_outbox_ok)).

(** Connected and recording, ten samples buffered, the start announcement
    reported as not delivered and saved for a resend. *)
Definition scen_busy : World :=
  exec (run [Startup 7 scen_client [102; 109];
             InboxReceived 100 scen_connect;
             StartRecording true;
             AccelSamples (repeat scen_sample 10);
             OutboxFailed [dict_write_uint8 KEY_START 1] APP_MSG_SEND_TIMEOUT])
    (boot (fun _ => scen_outbox_ok)).


(** An outbox that cannot be begun. *)
Definition scen_outbox_busy : Outbox :=
  mkOutbox APP_MSG_BUSY APP_MSG_BUSY APP_MSG_BUSY 656 APP_MSG_BUSY.

(** Recording was started (and announced), [n] samples arrived in one
    delivery, then recording was stopped while the outbox was busy: the stop
    flag is pending and the samples are still buffered. *)
Definition scen_stop_pending (n : nat) : World :=
  exec (run [Startup 7 scen_client [102; 109];
             InboxReceived 100 scen_connect;
             StartRecording true;
             AccelSamples (repeat scen_sample n);
             StopRecording])
    (boot (fun i => match i with O => scen_outbox_ok | _ => scen_outbox_busy end)).



(** The messages handed to [app_message_outbox_send], in order. *)
Definition sent_messages (tr : list Output) : list Dictionary :=
  flat_map (fun o => match o with OutboxSend m _ => [m] | _ => [] end) tr.


(** The connect acknowledgement, and the world once the first tick after
    the connection has sent it. *)
Definition scen_ack : Dictionary := fresh_message 656 (globals scen_idle).
Definition scen_acked : World := exec (run [TimerTick 101]) scen_idle.

(** ** Invariants

    A property [P] of the sample buffer, the two counters and the flags; it
    holds of a state, and a computation preserves it. *)
Definition holds (P : list Sample -> Z -> Z -> Z -> Prop) (s : State) : Prop :=
  P (g_accel_buf s) (g_samples_sent s) (g_samples_measured s) (g_msg_flags s).

Definition preserves (P : list Sample -> Z -> Z -> Z -> Prop) {A} (c : M A) : Prop :=
  forall w, holds P (globals w) -> holds P (globals (snd (c w))).

(** The four flags the engine arms. *)
Definition armed_key (k : Z) : Prop :=
  k = KEY_START \/ k = KEY_STOP \/ k = KEY_CONNECT \/ k = KEY_DISCONNECT.

(** Samples delivered by the accelerometer service during a run. *)
Definition samples_in (e : Event) : Z :=
  match e with AccelSamples data => Z.of_nat (length data) | _ => 0 end.

Fixpoint samples_delivered (es : list Event) : Z :=
  match es with
  | [] => 0
  | e :: es' => samples_in e + samples_delivered es'
  end.

(** The counters account for every sample measured, up to the bound [B]. *)
Definition accounted (B : Z) (buf : list Sample) (sent measured flags : Z) : Prop :=
  0 <= sent /\ sent + Z.of_nat (length buf) <= measured /\ measured <= B.

(** The counters account for every sample measured exactly: none was
    lost. *)
Definition balanced (B : Z) (buf : list Sample) (sent measured flags : Z) : Prop :=
  0 <= sent /\ measured = sent + Z.of_nat (length buf) /\ measured <= B.

Definition balanced_empty (B : Z) (buf : list Sample) (sent measured flags : Z) : Prop :=
  buf = [] /\ balanced B buf sent measured flags.

(** Whether the loop over a received message ends a session, [connected]
    being the state the loop is in and [v] the application version of the
    watch.  A disconnect tuple ends the session it finds, and so does a connect
    tuple whose version word is not zero and does not match; a connect tuple
    that matches, or whose word is zero, leaves the loop connected.  A connect
    tuple too short to hold a version word counts as ending the session,
    whatever is read past its payload. *)
Fixpoint ends_session (connected : bool) (v : Z) (msg : list Tuple) : bool :=
  match msg with
  | [] => false
  | t :: ts =>
      if key t =? KEY_START then ends_session connected v ts
      else if key t =? KEY_STOP then ends_session connected v ts
      else if key t =? KEY_DISCONNECT then connected || ends_session false v ts
      else if key t =? KEY_CONNECT then
        if (length (value t) <? 4)%nat then true
        else if 0 <? value_uint32 t then
          if negb (protocol_version_of (value_uint32 t) =? PROTOCOL_VERSION)
             || negb (app_version_of (value_uint32 t) =? v)
          then connected || ends_session false v ts
          else ends_session true v ts
        else ends_session true v ts
      else ends_session connected v ts
  end.

(** The event [e], arriving in state [s], loses samples or may: a
    delivery, while recording, of more samples than the buffer has room for,
    whose excess is shed; or, with samples buffered, an event that ends the
    session, whose end empties the buffer: the tick that finds the last message
    more than 8 units old, a received message that ends the session, a failure
    that is given up or finds the resend buffer full, the loss of the link. *)
Definition may_shed (e : Event) (s : State) : bool :=
  match e with
  | AccelSamples data =>
      g_recording s && (ACCEL_BUF_SIZE <? g_accel_buf_count s + Z.of_nat (length data))
  | TimerTick now =>
      (0 <? g_accel_buf_count s) && g_connected s
      && (0 <? g_last_message_time s) && (8 <? int32 (now - g_last_message_time s))
  | InboxReceived _ msg =>
      (0 <? g_accel_buf_count s) && ends_session (g_connected s) (g_app_version s) msg
  | OutboxFailed msg reason =>
      (0 <? g_accel_buf_count s) && g_connected s && negb (is_SEND_REJECTED reason)
      && (resent_too_often msg || negb (g_resend_buf_count s <? RESEND_BUF_SIZE))
  | BluetoothChanged up => (0 <? g_accel_buf_count s) && g_connected s && negb up
  | _ => false
  end.

(** No event of the run [es], started in [w], can lose samples. *)
Fixpoint lossless (es : list Event) (w : World) : bool :=
  match es with
  | [] => true
  | e :: es' => negb (may_shed e (globals w)) && lossless es' (exec (step e) w)
  end.

(** The heartbeat flag is not pending. *)
Definition no_heartbeat (buf : list Sample) (sent measured flags : Z) : Prop :=
  test_flag KEY_HEARTBEAT flags = false.

(** The states a run goes through, after each of its events. *)
Fixpoint states_along (es : list Event) (w : World) : list State :=
  match es with
  | [] => []
  | e :: es' => globals (exec (step e) w) :: states_along es' (exec (step e) w)
  end.

(** Eight seconds of an idle connection: ten timer ticks in each second
    after the connect request. *)
Definition scen_idle_ticks : list Event :=
  flat_map (fun t => repeat (TimerTick t) 10) [100; 101; 102; 103; 104; 105; 106; 107; 108].

(** Seven seconds of recording at 100 Hz while the outbox is busy, then a
    tick on which it accepts a message again. *)
Definition scen_congested : list Event :=
  [Startup 7 scen_client [102; 109]; InboxReceived 100 scen_connect; StartRecording true]
  ++ flat_map (fun _ => [AccelSamples (repeat scen_sample 10); TimerTick 101]) (seq 0 70)
  ++ [TimerTick 101].

Definition scen_congested_outbox (i : nat) : Outbox :=
  if (i =? 0)%nat || (70 <? i)%nat then scen_outbox_ok else scen_outbox_busy.

(** After the congested recording: recording is stopped and started
    again; then 60 samples arrive, a tick sends them, the phone repeats its
    connect request and 10 more samples arrive. *)
Definition scen_restart : list Event := scen_congested ++ [StopRecording; StartRecording true].

Definition scen_resumed : list Event :=
  [AccelSamples (repeat scen_sample 60); TimerTick 101;
   AccelSamples (repeat scen_sample 5); InboxReceived 101 scen_connect;
   AccelSamples (repeat scen_sample 5)].

(** Recording with the outbox busy: ten samples are buffered when the
    phone disconnects. *)
Definition scen_dropped : list Event :=
  [Startup 7 scen_client [102; 109]; InboxReceived 100 scen_connect; StartRecording true;
   AccelSamples (repeat scen_sample 10);
   InboxReceived 101 [dict_write_uint8 KEY_DISCONNECT 2]].

(** ** Definitions for the further properties *)

(** The keys whose flags [send_data] turns into fields of a new message. *)
Definition announced_keys : list Z :=
  [KEY_CONNECT; KEY_START; KEY_HEARTBEAT; KEY_STOP; KEY_DISCONNECT].

(** The tuples the new-message branch passes to [dict_write_*], in the
    order of the calls (lines 262-317): the dictionary it sets out to build,
    which is the one it builds when every write fits. *)
Definition fresh_fields (space : Z) (s : State) : Dictionary :=
  let n := samples_to_send space s in
  (if get_msg_flag KEY_CONNECT s then
     let version := uint32 (Z.lor (Z.shiftl (g_app_version s) 16) PROTOCOL_VERSION) in
     dict_write_uint32 KEY_CONNECT
       (if g_connected s then uint32 (Z.shiftl (g_connection_id s) 16) else version)
     :: (if g_connected s then [dict_write_data KEY_METADATA (g_metadata_buf s)] else [])
   else [])
  ++ (if get_msg_flag KEY_START s then [dict_write_uint8 KEY_START 1] else [])
  ++ (if get_msg_flag KEY_HEARTBEAT s then [dict_write_uint8 KEY_HEARTBEAT 1] else [])
  ++ (if 0 <? g_accel_buf_count s then
        [dict_write_uint32 KEY_SENSOR_OFFSET (g_samples_sent s);
         dict_write_uint8 KEY_SENSOR_RATE (rate_value (g_sampling_rate s));
         dict_write_data KEY_SENSOR_DATA
           (flat_map Sample_bytes (firstn (Z.to_nat n) (g_accel_buf s)))]
      else [])
  ++ (if n =? g_accel_buf_count s then
        (if get_msg_flag KEY_STOP s then
           [dict_write_data KEY_STOP
              (le_bytes 4 (int32 (g_samples_sent s + n))
               ++ le_bytes 4 (g_samples_measured s))]
         else [])
        ++ (if get_msg_flag KEY_DISCONNECT s then
              [dict_write_uint8 KEY_DISCONNECT (g_connection_id s)]
            else [])
      else []).

(** The bytes a sequence of tuples takes in a dictionary. *)
Definition tuples_size (ts : list Tuple) : Z :=
  fold_right (fun t acc => tuple_size t + acc) 0 ts.


(** The keys the loop over a received message acts on. *)
Definition handled_key (k : Z) : bool :=
  (k =? KEY_START) || (k =? KEY_STOP) || (k =? KEY_DISCONNECT) || (k =? KEY_CONNECT).

(** The calls made to the collaborators by a computation run from [w]. *)
Definition calls_of {A} (c : M A) (w : World) : list Output :=
  skipn (length (trace w)) (trace (exec c w)).

(** The connection id after a connection: [++g_connection_id], back to 1
    above 1000. *)
Definition next_connection_id (id : Z) : Z :=
  if 1000 <? uint32 (id + 1) then 1 else uint32 (id + 1).

(** Connected, with ten failed messages saved: the resend buffer is full. *)
Definition scen_full : World :=
  exec (run (repeat (OutboxFailed [dict_write_uint8 KEY_START 1] APP_MSG_SEND_TIMEOUT) 10))
    scen_idle.

(** Started up by a client that registered every handler, and connected. *)
Definition scen_watched : World :=
  exec (run [Startup 7 (mkHandlers true true true true true true) [102; 109];
             InboxReceived 100 scen_connect])
    (boot (fun _ => scen_outbox_ok)).

(** ** Invariants of the session

    A property [Q] of the connected state, the connection id, the resend
    buffer and the sample buffer. *)
Definition session_holds (Q : bool -> Z -> list MsgBuf -> list Sample -> Prop)
    (s : State) : Prop :=
  Q (g_connected s) (g_connection_id s) (g_resend_buf s) (g_accel_buf s).

Definition session_keeps (Q : bool -> Z -> list MsgBuf -> list Sample -> Prop)
    {A} (c : M A) : Prop :=
  forall w, session_holds Q (globals w) -> session_holds Q (globals (snd (c w))).

(** [Q] survives a connection. *)
Definition survives_connect (Q : bool -> Z -> list MsgBuf -> list Sample -> Prop) : Prop :=
  forall id q b, Q false id q b -> Q true (next_connection_id id) q b.

(** The events that carry a connect request. *)
Definition connects (e : Event) : bool :=
  match e with
  | InboxReceived _ msg => existsb (fun t => key t =? KEY_CONNECT) msg
  | _ => false
  end.

(** The bounds the engine keeps: an id between 1 and 1000, at most
    [RESEND_BUF_SIZE] saved messages, at most [ACCEL_BUF_SIZE] samples. *)
Definition within_bounds (c : bool) (id : Z) (q : list MsgBuf) (b : list Sample) : Prop :=
  1 <= id <= 1000 /\
  Z.of_nat (length q) <= RESEND_BUF_SIZE /\
  Z.of_nat (length b) <= ACCEL_BUF_SIZE.

Definition disconnected (c : bool) (id : Z) (q : list MsgBuf) (b : list Sample) : Prop :=
  c = false.

(** * Properties *)

(** ** Flags as bits *)

Lemma land_pow2 (f n : Z) : 0 <= n ->
  Z.land f (Z.shiftl 1 n) = if Z.testbit f n then 2 ^ n else 0.
Proof.
  intros Hn. rewrite Z.shiftl_1_l. apply Z.bits_inj'. intros m Hm.
  rewrite Z.land_spec, Z.pow2_bits_eqb by lia.
  destruct (Z.eqb_spec n m) as [->|Hne].
  - destruct (Z.testbit f m) eqn:E; cbn.
    + now rewrite Z.pow2_bits_true.
    + now rewrite Z.bits_0.
  - rewrite andb_false_r. destruct (Z.testbit f n).
    + now rewrite Z.pow2_bits_false.
    + now rewrite Z.bits_0.
Qed.

Lemma test_flag_testbit (k f : Z) : KEY_START <= k ->
  test_flag k f = Z.testbit f (k - KEY_START).
Proof.
  intros Hk. unfold test_flag, flag_bit. rewrite land_pow2 by lia.
  destruct (Z.testbit f (k - KEY_START)); [|reflexivity].
  assert (H : 0 < 2 ^ (k - KEY_START)) by (apply Z.pow_pos_nonneg; lia).
  apply Z.lt_neq, not_eq_sym in H. apply Z.eqb_neq in H. now rewrite H.
Qed.

Lemma test_set_flag_same (k f : Z) : KEY_START <= k -> test_flag k (set_flag k f) = true.
Proof.
  intros Hk. rewrite test_flag_testbit by assumption. unfold set_flag, flag_bit.
  rewrite Z.lor_spec, Z.shiftl_1_l, Z.pow2_bits_true by lia. apply orb_true_r.
Qed.

Lemma test_set_flag_other (k k' f : Z) :
  KEY_START <= k -> KEY_START <= k' -> k <> k' ->
  test_flag k (set_flag k' f) = test_flag k f.
Proof.
  intros Hk Hk' Hne. rewrite !test_flag_testbit by assumption. unfold set_flag, flag_bit.
  rewrite Z.lor_spec, Z.shiftl_1_l, Z.pow2_bits_false by lia. apply orb_false_r.
Qed.

Lemma test_clear_flag_other (k k' f : Z) :
  KEY_START <= k -> KEY_START <= k' -> k <> k' ->
  test_flag k (clear_flag k' f) = test_flag k f.
Proof.
  intros Hk Hk' Hne. rewrite !test_flag_testbit by assumption. unfold clear_flag, flag_bit.
  rewrite Z.land_spec, Z.lnot_spec, Z.shiftl_1_l, Z.pow2_bits_false by lia.
  apply andb_true_r.
Qed.

Lemma test_flag_0 (k : Z) : test_flag k 0 = false.
Proof. unfold test_flag. now rewrite Z.land_0_l. Qed.

Lemma test_flag_bit (k k' : Z) : KEY_START <= k -> KEY_START <= k' ->
  test_flag k (flag_bit k') = (k =? k').
Proof.
  intros Hk Hk'. rewrite test_flag_testbit by assumption. unfold flag_bit.
  rewrite Z.shiftl_1_l, Z.pow2_bits_eqb by lia.
  destruct (Z.eqb_spec (k' - KEY_START) (k - KEY_START)), (Z.eqb_spec k k'); lia || reflexivity.
Qed.

(** Closed goals are settled by evaluation, away from the context. *)
Ltac by_vm :=
  repeat match goal with H : _ |- _ => clear H end;
  vm_compute;
  first [ reflexivity | discriminate
        | left; first [reflexivity | discriminate]
        | right; first [reflexivity | discriminate]
        | split; first [reflexivity | discriminate] ].

(** Discharging the first premise of a hypothesis by evaluation. *)
Ltac feed H :=
  match type of H with
  | ?A -> _ =>
      let h := fresh "h" in
      assert (h : A) by by_vm;
      specialize (H h); clear h
  end.

(** ** Running the monad *)

Ltac mred :=
  unfold state_after, exec, set_msg_flag, clear_msg_flag, clear_resend_buf,
    bind, gets, modify, emit, when, ret in *;
  cbn [fst snd globals outbox sends trace] in *.

Lemma stop_recording_off (w : World) : g_recording (state_after stop_recording w) = false.
Proof.
  unfold stop_recording. mred.
  destruct (g_recording (globals w)) eqn:E; [|exact E].
  now destruct (g_recording_handler _).
Qed.

(** ** Disconnecting *)

(** C9. Requesting a disconnect while the session is disconnected changes
    nothing: the globals, the trace of calls made to the collaborators (so no
    handler is invoked and no message is sent) and the oracle position are all
    as before. *)
Theorem disconnect_when_disconnected (w : World) :
  g_connected (globals w) = false -> set_connected false w = (tt, w).
Proof. intros H. unfold set_connected. mred. now rewrite H. Qed.

Lemma disconnect_when_disconnected_witness :
  g_connected (globals (boot (fun _ => scen_outbox_ok))) = false /\
  set_connected false (boot (fun _ => scen_outbox_ok))
  = (tt, boot (fun _ => scen_outbox_ok)).
Proof.
  split; [reflexivity | apply disconnect_when_disconnected; reflexivity].
Defined.

Lemma set_connected_false_effect (w : World) :
  g_connected (globals w) = true ->
  let s' := state_after (set_connected false) w in
  g_connected s' = false /\ g_recording s' = false /\
  g_accel_buf s' = [] /\ g_resend_buf s' = [] /\
  g_last_message_time s' = 0 /\
  g_msg_flags s' = flag_bit KEY_DISCONNECT.
Proof.
  intros Hc s'. subst s'.
  pose proof (stop_recording_off w) as Hr.
  unfold set_connected in *. mred. rewrite Hc. cbn [eqb negb].
  destruct (g_connected_handler _); cbn [g_connected g_recording g_accel_buf
    g_resend_buf g_last_message_time g_msg_flags Upd.connected
    Upd.msg_flags Upd.last_message_time Upd.accel_buf Upd.resend_buf];
  (repeat split; try assumption).
Qed.

(** C7. Leaving the connected state turns recording off, empties the sample
    buffer and the resend buffer, resets the time of the last message to 0 and
    leaves exactly the disconnect flag pending. *)
Theorem disconnect_transition (w : World) :
  g_connected (globals w) = true ->
  let s' := state_after (set_connected false) w in
  g_connected s' = false /\ g_recording s' = false /\
  g_accel_buf s' = [] /\ g_resend_buf s' = [] /\
  g_last_message_time s' = 0 /\
  g_msg_flags s' = flag_bit KEY_DISCONNECT /\
  (forall k, KEY_START <= k -> get_msg_flag k s' = (k =? KEY_DISCONNECT)).
Proof.
  intros Hc s'. subst s'.
  destruct (set_connected_false_effect w Hc) as (H1 & H2 & H3 & H4 & H5 & H6).
  repeat split; try assumption.
  intros k Hk. unfold get_msg_flag. rewrite H6.
  apply test_flag_bit; [assumption | unfold KEY_DISCONNECT, KEY_START; lia].
Qed.

Lemma disconnect_transition_witness :
  g_connected (globals scen_busy) = true /\
  let s' := state_after (set_connected false) scen_busy in
  g_connected s' = false /\ g_recording s' = false /\
  g_accel_buf s' = [] /\ g_resend_buf s' = [] /\
  g_last_message_time s' = 0 /\
  g_msg_flags s' = flag_bit KEY_DISCONNECT /\
  (forall k, KEY_START <= k -> get_msg_flag k s' = (k =? KEY_DISCONNECT)).
Proof.
  split; [reflexivity | apply disconnect_transition; reflexivity].
Defined.

(** ** Delivery failures *)

(** C10. A failure reported with [APP_MSG_SEND_REJECTED] is ignored
    altogether: nothing is saved, no global changes and no handler runs, the
    client's included.  A failure reported while disconnected changes no
    global either, it is only passed on to the client's handler (if there is
    one). *)
Theorem outbox_failure_ignored (w : World) (msg : Dictionary) (reason : AppMessageResult) :
  (reason = APP_MSG_SEND_REJECTED -> outbox_failed_handler msg reason w = (tt, w)) /\
  (g_connected (globals w) = false ->
   let w' := exec (outbox_failed_handler msg reason) w in
   globals w' = globals w /\ sends w' = sends w /\
   trace w' = trace w ++
     (if is_SEND_REJECTED reason then []
      else if g_outbox_failed_handler (g_handlers (globals w))
           then [ClientOutboxFailed msg reason] else [])).
Proof.
  split.
  - intros ->. reflexivity.
  - intros Hc. unfold outbox_failed_handler.
    destruct (is_SEND_REJECTED reason).
    + mred. now rewrite app_nil_r.
    + mred. rewrite Hc. cbn [fst snd globals outbox sends trace].
      destruct (g_outbox_failed_handler _); cbn [fst snd globals outbox sends trace];
        now rewrite ?app_nil_r.
Qed.

Lemma outbox_failure_ignored_witness :
  outbox_failed_handler scen_connect APP_MSG_SEND_REJECTED scen_busy = (tt, scen_busy) /\
  (let w' := exec (outbox_failed_handler scen_connect APP_MSG_SEND_TIMEOUT) scen_started in
   globals w' = globals scen_started /\ sends w' = sends scen_started /\
   trace w' = trace scen_started
              ++ [ClientOutboxFailed scen_connect APP_MSG_SEND_TIMEOUT]).
Proof.
  split.
  - apply (proj1 (outbox_failure_ignored scen_busy scen_connect APP_MSG_SEND_REJECTED)).
    reflexivity.
  - apply (proj2 (outbox_failure_ignored scen_started scen_connect APP_MSG_SEND_TIMEOUT)).
    reflexivity.
Defined.

(** ** The version gate *)

Lemma set_connected_sets (b : bool) (w : World) :
  g_connected (state_after (set_connected b) w) = b.
Proof.
  unfold set_connected. mred.
  destruct (g_connected (globals w)) eqn:Hc, b; cbn [eqb negb]; try exact Hc;
    now destruct (g_connected_handler _).
Qed.

Lemma inbox_tuple_connect (t : Tuple) (handled : bool) :
  key t = KEY_CONNECT -> inbox_tuple t handled = (inbox_connect t ;; ret true).
Proof. intros H. unfold inbox_tuple. now rewrite H. Qed.

Lemma le_value_le_bytes (n : nat) (v : Z) :
  le_value (le_bytes n v) = v mod 256 ^ Z.of_nat n.
Proof.
  revert v. induction n as [|n IH]; intros v.
  - cbn. now rewrite Z.mod_1_r.
  - cbn [le_bytes le_value]. rewrite IH.
    rewrite Nat2Z.inj_succ, Z.pow_succ_r by lia.
    rewrite Z.rem_mul_r by (try apply Z.pow_pos_nonneg; lia). reflexivity.
Qed.

Lemma length_le_bytes (n : nat) (v : Z) : length (le_bytes n v) = n.
Proof. revert v. induction n as [|n IH]; intros v; cbn; [reflexivity | now rewrite IH]. Qed.

(** The union read of a payload that is the four bytes of a word. *)
Lemma value_uint32_bytes (t : Tuple) (v : Z) :
  value t = le_bytes 4 v -> 0 <= v < 4294967296 -> value_uint32 t = v.
Proof.
  intros Hv Hr. unfold value_uint32. rewrite Hv.
  rewrite (firstn_all2 (n := 4)) by (rewrite length_le_bytes; lia).
  rewrite le_value_le_bytes. change (256 ^ Z.of_nat 4) with 4294967296.
  now apply Z.mod_small.
Qed.

(** The two halves the engine takes out of a version word. *)
Lemma version_word_halves (app proto : Z) :
  0 <= proto < 65536 -> 0 <= app < 65536 ->
  protocol_version_of (app * 65536 + proto) = proto /\
  app_version_of (app * 65536 + proto) = app.
Proof.
  intros Hp Ha. unfold protocol_version_of, app_version_of, uint16.
  change 0xffff with (Z.ones 16). rewrite !Z.land_ones by lia.
  rewrite Z.shiftr_div_pow2 by lia. change (2 ^ 16) with 65536.
  rewrite Z.mod_mod by lia.
  replace ((app * 65536 + proto) mod 65536) with proto
    by (rewrite Z.add_comm, Z.mod_add by lia; symmetry; apply Z.mod_small; lia).
  replace ((app * 65536 + proto) / 65536) with app
    by (rewrite Z.add_comm, Z.div_add by lia; rewrite Z.div_small by lia; lia).
  rewrite Z.mod_mod by lia. split; [reflexivity | apply Z.mod_small; lia].
Qed.

(** C5. A received Connect whose payload is the four bytes of the version
    word [app * 2^16 + proto], the word not being zero.  When [proto] is not
    the protocol version of the watch or [app] is not the application version
    it was started up with, the session ends up disconnected with the connect
    announcement pending; when both are, it ends up connected with the connect
    announcement pending. *)
Theorem connect_version_gate (w : World) (now : Z) (t : Tuple) (proto app : Z) :
  key t = KEY_CONNECT ->
  value t = le_bytes 4 (app * 65536 + proto) ->
  0 <= proto < 65536 -> 0 <= app < 65536 -> 0 < app * 65536 + proto ->
  let s' := state_after (inbox_received_handler now [t]) w in
  (proto <> PROTOCOL_VERSION \/ app <> g_app_version (globals w) ->
   g_connected s' = false /\ get_msg_flag KEY_CONNECT s' = true) /\
  (proto = PROTOCOL_VERSION /\ app = g_app_version (globals w) ->
   g_connected s' = true /\ get_msg_flag KEY_CONNECT s' = true).
Proof.
  intros Hk Hbytes Hp Ha Hpos s'. subst s'.
  assert (Hword : value_uint32 t = app * 65536 + proto)
    by (apply value_uint32_bytes; [exact Hbytes | lia]).
  destruct (version_word_halves app proto Hp Ha) as [Hlow Hhigh].
  unfold inbox_received_handler. cbn [inbox_loop].
  rewrite (inbox_tuple_connect t false Hk). unfold inbox_connect.
  rewrite Hword, Hlow, Hhigh.
  apply Z.ltb_lt in Hpos. rewrite Hpos.
  assert (Hflag : forall f, test_flag KEY_CONNECT (set_flag KEY_CONNECT f) = true)
    by (intros f; apply test_set_flag_same; unfold KEY_CONNECT, KEY_START; lia).
  split; intros Hcmp.
  - assert (Hb : negb (proto =? PROTOCOL_VERSION)
                 || negb (app =? g_app_version (globals w)) = true).
    { destruct Hcmp as [H|H]; apply Z.eqb_neq in H; rewrite H;
        [reflexivity | apply orb_true_r]. }
    mred. cbn [g_app_version Upd.last_message_time]. rewrite Hb.
    cbn [fst snd globals outbox sends trace andb negb].
    cbn [g_connected get_msg_flag g_msg_flags Upd.msg_flags].
    split; [|apply Hflag].
    match goal with |- context [set_connected false ?w0] =>
      exact (set_connected_sets false w0) end.
  - assert (Hb : negb (proto =? PROTOCOL_VERSION)
                 || negb (app =? g_app_version (globals w)) = false).
    { destruct Hcmp as [H1 H2]. apply Z.eqb_eq in H1, H2. now rewrite H1, H2. }
    mred. cbn [g_app_version Upd.last_message_time]. rewrite Hb.
    cbn [fst snd globals outbox sends trace andb negb].
    cbn [g_connected get_msg_flag g_msg_flags Upd.msg_flags].
    split; [|apply Hflag].
    match goal with |- context [set_connected true ?w0] =>
      exact (set_connected_sets true w0) end.
Qed.

Lemma connect_version_gate_witness :
  (let s' := state_after
       (inbox_received_handler 200 [dict_write_uint32 KEY_CONNECT (7 * 65536 + 2)])
       scen_busy in
   g_connected s' = false /\ get_msg_flag KEY_CONNECT s' = true) /\
  (let s' := state_after
       (inbox_received_handler 200 [dict_write_uint32 KEY_CONNECT (8 * 65536 + 3)])
       scen_started in
   g_connected s' = false /\ get_msg_flag KEY_CONNECT s' = true) /\
  (let s' := state_after (inbox_received_handler 200 scen_connect) scen_started in
   g_connected s' = true /\ get_msg_flag KEY_CONNECT s' = true).
Proof.
  pose proof (connect_version_gate scen_busy 200
                (dict_write_uint32 KEY_CONNECT (7 * 65536 + 2)) 2 7) as H1.
  pose proof (connect_version_gate scen_started 200
                (dict_write_uint32 KEY_CONNECT (8 * 65536 + 3)) 3 8) as H2.
  pose proof (connect_version_gate scen_started 200
                (dict_write_uint32 KEY_CONNECT (7 * 65536 + 3)) 3 7) as H3.
  feed H1. feed H1. feed H1. feed H1. feed H1.
  feed H2. feed H2. feed H2. feed H2. feed H2.
  feed H3. feed H3. feed H3. feed H3. feed H3.
  cbv zeta in H1, H2, H3.
  destruct H1 as [H1 _]. destruct H2 as [H2 _]. destruct H3 as [_ H3].
  feed H1. feed H2. feed H3.
  split; [exact H1|]. split; [exact H2 | exact H3].
Defined.

(** ** The sample buffer *)

Lemma int32_small (v : Z) : -2147483648 <= v < 2147483648 -> int32 v = v.
Proof. intros H. unfold int32. rewrite Z.mod_small; lia. Qed.

(** C6. While recording, a delivery of [inCount] samples adds [inCount] to
    the measured counter ([int] arithmetic; the plain sum when it fits), and
    the buffer takes the first [500 - count] of them, the later ones being
    dropped: its count becomes [min 500 (count + inCount)]. *)
Theorem accel_overflow_shedding (w : World) (inData : list AccelData) :
  g_recording (globals w) = true ->
  Z.of_nat (length inData) < 2147483648 ->
  let inCount := Z.of_nat (length inData) in
  let s := globals w in
  let s' := state_after (accel_handler inData) w in
  g_samples_measured s' = int32 (g_samples_measured s + inCount) /\
  (-2147483648 <= g_samples_measured s + inCount < 2147483648 ->
   g_samples_measured s' = g_samples_measured s + inCount) /\
  g_accel_buf s' =
    g_accel_buf s
    ++ map Sample_of_AccelData (firstn (Z.to_nat (ACCEL_BUF_SIZE - g_accel_buf_count s)) inData) /\
  (g_accel_buf_count s <= ACCEL_BUF_SIZE ->
   g_accel_buf_count s' = Z.min ACCEL_BUF_SIZE (g_accel_buf_count s + inCount)).
Proof.
  intros Hrec Hlen inCount s s'.
  assert (Hm : g_samples_measured s' = int32 (g_samples_measured s + inCount)).
  { subst s' s inCount. unfold accel_handler. mred. rewrite Hrec.
    cbn [fst snd globals outbox sends trace].
    destruct (0 <? _); cbn [fst snd globals outbox sends trace];
      destruct (g_accel_handler _); reflexivity. }
  assert (Hb : g_accel_buf s' =
    g_accel_buf s
    ++ map Sample_of_AccelData (firstn (Z.to_nat (ACCEL_BUF_SIZE - g_accel_buf_count s)) inData)).
  { subst s' s. unfold accel_handler. mred. rewrite Hrec.
    cbn [fst snd globals outbox sends trace].
    fold inCount. rewrite (int32_small inCount) by (subst inCount; lia).
    change (g_accel_buf_count (Upd.samples_measured _ (globals w)))
      with (g_accel_buf_count (globals w)).
    set (nBuf := ACCEL_BUF_SIZE - g_accel_buf_count (globals w)).
    assert (Hgoal : forall n, (if nBuf <? inCount then nBuf else inCount) = n ->
      (if 0 <? n
       then g_accel_buf (globals w)
            ++ map Sample_of_AccelData (firstn (Z.to_nat n) inData)
       else g_accel_buf (globals w))
      = g_accel_buf (globals w)
        ++ map Sample_of_AccelData (firstn (Z.to_nat nBuf) inData)).
    { intros n Hn.
      destruct (Z.ltb_spec nBuf inCount) as [Hlt|Hge]; subst n.
      - destruct (Z.ltb_spec 0 nBuf) as [Hp|Hz]; [reflexivity|].
        replace (Z.to_nat nBuf) with O by lia. cbn. now rewrite app_nil_r.
      - rewrite (firstn_all2 (n := Z.to_nat nBuf)) by (subst inCount; lia).
        destruct (Z.ltb_spec 0 inCount) as [Hp|Hz].
        + now rewrite firstn_all2 by (subst inCount; lia).
        + destruct inData; [cbn; now rewrite app_nil_r | subst inCount; cbn in Hz; lia]. }
    specialize (Hgoal _ eq_refl).
    destruct (0 <? (if nBuf <? inCount then nBuf else inCount));
      cbn [fst snd globals outbox sends trace];
      destruct (g_accel_handler _); exact Hgoal. }
  repeat split.
  - exact Hm.
  - intros Hfit. rewrite Hm. now apply int32_small.
  - exact Hb.
  - intros Hcap. unfold g_accel_buf_count in *. rewrite Hb.
    rewrite length_app, length_map, length_firstn. fold s inCount.
    unfold ACCEL_BUF_SIZE in *. subst inCount. lia.
Qed.

Lemma accel_overflow_shedding_witness :
  let w0 := exec (run [StartRecording true]) scen_idle in
  let s' := state_after (accel_handler (repeat scen_sample 700)) w0 in
  g_recording (globals w0) = true /\ g_accel_buf_count (globals w0) = 0 /\
  g_accel_buf_count s' = 500 /\
  g_samples_measured s' = g_samples_measured (globals w0) + 700.
Proof.
  cbv zeta.
  set (w0 := exec (run [StartRecording true]) scen_idle).
  destruct (accel_overflow_shedding w0 (repeat scen_sample 700) eq_refl eq_refl)
    as (_ & Hm & _ & Hc).
  split; [reflexivity|]. split; [reflexivity|]. split.
  - rewrite Hc by (vm_compute; discriminate). reflexivity.
  - rewrite Hm by (vm_compute; split; [discriminate | reflexivity]). reflexivity.
Defined.

(** ** The send cycle *)

Lemma samples_max_nonneg (space : Z) : 0 <= samples_max space.
Proof.
  unfold samples_max, uint32, sizeof_Sample.
  set (b := int32 (int32 space - 32)).
  assert (H : 0 <= b mod 4294967296 < 4294967296) by (apply Z.mod_pos_bound; lia).
  assert (H1 : 0 <= b mod 4294967296 / 6) by (apply Z.div_pos; lia).
  assert (H2 : b mod 4294967296 / 6 < 2147483648)
    by (apply Z.div_lt_upper_bound; lia).
  rewrite int32_small; lia.
Qed.

(** With at least the 32 bytes of head-room left, [samples_max] is the
    number of whole samples that fit in the rest. *)
Lemma samples_max_fits (space : Z) :
  32 <= space < 2147483648 -> samples_max space = (space - 32) / 6.
Proof.
  intros H. unfold samples_max, uint32, sizeof_Sample.
  rewrite (int32_small space) by lia. rewrite (int32_small (space - 32)) by lia.
  rewrite (Z.mod_small (space - 32)) by lia.
  apply int32_small.
  assert (0 <= (space - 32) / 6) by (apply Z.div_pos; lia).
  assert ((space - 32) / 6 < 2147483648) by (apply Z.div_lt_upper_bound; lia).
  lia.
Qed.

Lemma samples_to_send_partial (space : Z) (s : State) :
  samples_max space < g_accel_buf_count s ->
  samples_to_send space s = samples_max space.
Proof.
  intros H. pose proof (samples_max_nonneg space). unfold samples_to_send.
  destruct (Z.ltb_spec 0 (g_accel_buf_count s)); [|lia].
  destruct (Z.ltb_spec (samples_max space) (g_accel_buf_count s)); lia.
Qed.

Lemma samples_to_send_all (space : Z) (s : State) :
  g_accel_buf_count s <= samples_max space ->
  samples_to_send space s = g_accel_buf_count s.
Proof.
  intros H. unfold samples_to_send, g_accel_buf_count in *.
  destruct (Z.ltb_spec 0 (Z.of_nat (length (g_accel_buf s)))); [|lia].
  destruct (Z.ltb_spec (samples_max space) (Z.of_nat (length (g_accel_buf s)))); lia.
Qed.

Lemma test_flag_land_mask (k f : Z) : k = KEY_STOP \/ k = KEY_DISCONNECT ->
  test_flag k (Z.land f stop_or_disconnect_mask) = test_flag k f.
Proof.
  intros Hk.
  rewrite !test_flag_testbit by (destruct Hk; subst k; unfold KEY_STOP, KEY_DISCONNECT, KEY_START; lia).
  rewrite Z.land_spec. destruct Hk; subst k; apply andb_true_r.
Qed.

(** *** Fields that fit *)

Lemma length_Sample_bytes (l : list Sample) :
  Z.of_nat (length (flat_map Sample_bytes l)) = sizeof_Sample * Z.of_nat (length l).
Proof.
  induction l as [|p l IH]; [reflexivity|].
  cbn [flat_map]. rewrite length_app. cbn [length]. unfold sizeof_Sample in *.
  replace (length (Sample_bytes p)) with 6%nat by reflexivity. lia.
Qed.

Lemma tuple_size_pos (t : Tuple) : 0 < tuple_size t.
Proof. unfold tuple_size, sizeof_Tuple. lia. Qed.

Lemma tuples_size_nonneg (ts : list Tuple) : 0 <= tuples_size ts.
Proof.
  induction ts as [|t ts IH]; unfold tuples_size in *; cbn [fold_right]; [lia|].
  pose proof (tuple_size_pos t). lia.
Qed.

(** Tuples that fit together are all written. *)
Lemma dict_write_within_all (space : Z) (ts : list Tuple) :
  tuples_size ts <= space -> dict_write_within space ts = ts.
Proof.
  revert space. induction ts as [|t ts IH]; intros space H; [reflexivity|].
  cbn [dict_write_within]. cbn [tuples_size fold_right] in H.
  pose proof (tuples_size_nonneg ts) as Hts. unfold tuples_size in Hts.
  destruct (Z.leb_spec (tuple_size t) space); [|lia].
  f_equal. apply IH. unfold tuples_size. lia.
Qed.

(** What is written is taken from what was to be written. *)
Lemma dict_write_within_find (space : Z) (ts : list Tuple) (k : Z) :
  dict_find ts k = None -> dict_find (dict_write_within space ts) k = None.
Proof.
  unfold dict_find. revert space. induction ts as [|t ts IH]; intros space H; [reflexivity|].
  cbn [find dict_write_within] in *.
  destruct (key t =? k) eqn:E; [discriminate|].
  destruct (tuple_size t <=? space); cbn [find]; rewrite ?E; now apply IH.
Qed.

(** The sensor data of [n] samples takes its header and six bytes a
    sample. *)
Lemma sensor_data_size (n : Z) (buf : list Sample) :
  0 <= n <= Z.of_nat (length buf) ->
  tuple_size (dict_write_data KEY_SENSOR_DATA (flat_map Sample_bytes (firstn (Z.to_nat n) buf)))
  = sizeof_Tuple + sizeof_Sample * n.
Proof.
  intros H. unfold tuple_size, dict_write_data. cbn [value].
  rewrite length_Sample_bytes, length_firstn. f_equal. f_equal. lia.
Qed.

Lemma samples_to_send_bounds (space : Z) (s : State) :
  0 <= samples_to_send space s <= g_accel_buf_count s.
Proof.
  pose proof (samples_max_nonneg space). unfold samples_to_send, g_accel_buf_count in *.
  destruct (Z.ltb_spec 0 (Z.of_nat (length (g_accel_buf s)))); [|lia].
  destruct (Z.ltb_spec (samples_max space) (Z.of_nat (length (g_accel_buf s)))); lia.
Qed.

Lemma samples_to_send_roomy (space : Z) (s : State) :
  32 <= space < 2147483648 ->
  sizeof_Sample * samples_to_send space s <= space - 32.
Proof.
  intros Hsp. pose proof (samples_to_send_bounds space s) as Hn.
  assert (Hmax : samples_to_send space s <= samples_max space).
  { unfold samples_to_send in *. pose proof (samples_max_nonneg space).
    destruct (Z.ltb_spec 0 (g_accel_buf_count s)); [|lia].
    destruct (Z.ltb_spec (samples_max space) (g_accel_buf_count s)); lia. }
  rewrite samples_max_fits in Hmax by exact Hsp. unfold sizeof_Sample.
  pose proof (Z.mul_div_le (space - 32) 6 ltac:(lia)). lia.
Qed.

Lemma stop_field_size (k a b : Z) :
  tuple_size (dict_write_data k (le_bytes 4 a ++ le_bytes 4 b)) = 15.
Proof. reflexivity. Qed.

Lemma uint8_field_size (k v : Z) : tuple_size (dict_write_uint8 k v) = 8.
Proof. reflexivity. Qed.

(** With the head-room left (or no sample buffered, when the space is not
    looked at) every field of the new message is written: the 32 bytes cover
    the header of the sensor data and the stop and disconnect fields. *)
Lemma fresh_message_roomy (space : Z) (s : State) :
  g_accel_buf s = [] \/ 32 <= space < 2147483648 ->
  fresh_message space s = fresh_fields space s.
Proof.
  intros Hg. unfold fresh_message, fresh_fields. cbv zeta.
  destruct (Z.ltb_spec 0 (g_accel_buf_count s)) as [Hc|Hc].
  - destruct Hg as [He|Hsp];
      [unfold g_accel_buf_count in Hc; rewrite He in Hc; cbn in Hc; lia|].
    rewrite dict_write_within_all; [reflexivity|].
    pose proof (samples_to_send_roomy space s Hsp) as Hfit.
    pose proof (samples_to_send_bounds space s) as Hn.
    cbn [tuples_size fold_right].
    rewrite sensor_data_size by (unfold g_accel_buf_count in Hn; exact Hn).
    unfold sizeof_Tuple.
    destruct (_ =? _), (get_msg_flag KEY_STOP s), (get_msg_flag KEY_DISCONNECT s);
      cbn [app fold_right]; rewrite ?stop_field_size, ?uint8_field_size; lia.
  - now rewrite app_nil_l.
Qed.

Lemma find_app_none {A} (f : A -> bool) (l l' : list A) :
  find f (l ++ l') = None <-> find f l = None /\ find f l' = None.
Proof.
  induction l as [|a l IH]; cbn; [tauto|].
  destruct (f a); [|exact IH]. split; [discriminate | intros [H _]; discriminate].
Qed.

(** Whatever the space, the message has no field that was not to be
    written. *)
Lemma fresh_message_sub (space : Z) (s : State) (k : Z) :
  dict_find (fresh_fields space s) k = None -> dict_find (fresh_message space s) k = None.
Proof.
  unfold fresh_message, fresh_fields, dict_find. cbv zeta.
  rewrite !find_app_none. intros (H1 & H2 & H3 & H4 & H5).
  repeat split; try assumption.
  destruct (0 <? g_accel_buf_count s); [|exact H5].
  cbn [app find] in H4 |- *.
  destruct (key (dict_write_uint32 KEY_SENSOR_OFFSET (g_samples_sent s)) =? k);
    [discriminate|].
  destruct (key (dict_write_uint8 KEY_SENSOR_RATE (rate_value (g_sampling_rate s))) =? k);
    [discriminate|].
  apply dict_write_within_find. unfold dict_find. cbn [find].
  destruct (key _ =? k); [discriminate | exact H5].
Qed.

(** The fields written by the new-message branch when the drain is partial
    and when it is complete. *)
Lemma fresh_message_partial (space : Z) (s : State) :
  samples_to_send space s <> g_accel_buf_count s ->
  dict_find (fresh_message space s) KEY_STOP = None /\
  dict_find (fresh_message space s) KEY_DISCONNECT = None.
Proof.
  intros H. apply Z.eqb_neq in H. unfold fresh_message. cbv zeta. rewrite H.
  cbn [dict_write_within].
  destruct (tuple_size _ <=? space), (get_msg_flag KEY_CONNECT s), (g_connected s),
    (get_msg_flag KEY_START s), (get_msg_flag KEY_HEARTBEAT s), (0 <? g_accel_buf_count s);
    split; reflexivity.
Qed.

Lemma fresh_fields_stop (space : Z) (s : State) :
  samples_to_send space s = g_accel_buf_count s ->
  get_msg_flag KEY_STOP s = true ->
  dict_find (fresh_fields space s) KEY_STOP
  = Some (dict_write_data KEY_STOP
            (le_bytes 4 (int32 (g_samples_sent s + g_accel_buf_count s))
             ++ le_bytes 4 (g_samples_measured s))).
Proof.
  intros H Hstop. unfold fresh_fields. rewrite H, Z.eqb_refl, Hstop.
  destruct (get_msg_flag KEY_CONNECT s), (g_connected s), (get_msg_flag KEY_START s),
    (get_msg_flag KEY_HEARTBEAT s), (0 <? g_accel_buf_count s); reflexivity.
Qed.

Lemma fresh_fields_disconnect (space : Z) (s : State) :
  samples_to_send space s = g_accel_buf_count s ->
  get_msg_flag KEY_DISCONNECT s = true ->
  dict_find (fresh_fields space s) KEY_DISCONNECT
  = Some (dict_write_uint8 KEY_DISCONNECT (g_connection_id s)).
Proof.
  intros H Hd. unfold fresh_fields. rewrite H, Z.eqb_refl, Hd.
  destruct (get_msg_flag KEY_CONNECT s), (g_connected s), (get_msg_flag KEY_START s),
    (get_msg_flag KEY_HEARTBEAT s), (0 <? g_accel_buf_count s), (get_msg_flag KEY_STOP s);
    reflexivity.
Qed.

Lemma test_flag_nonzero (k f : Z) : test_flag k f = true -> f <> 0.
Proof. intros H ->. now rewrite test_flag_0 in H. Qed.

Lemma send_fresh_assembled (ob : Outbox) (s : State) :
  is_OK (fresh_begin ob) = true -> g_msg_flags s <> 0 ->
  snd (send_fresh ob s) = [OutboxSend (fresh_message (fresh_space ob) s) (fresh_send ob)] /\
  g_msg_flags (fst (send_fresh ob s))
  = if is_OK (fresh_send ob) then new_msg_flags (fresh_space ob) s else g_msg_flags s.
Proof.
  intros Hb Hf. apply Z.eqb_neq in Hf. unfold send_fresh.
  rewrite Hf, Hb, orb_true_r. cbn [negb].
  destruct (is_OK (fresh_send ob)); [|split; reflexivity].
  destruct (0 <? samples_to_send (fresh_space ob) s); split; reflexivity.
Qed.

(** What the new-message branch does does not depend on the resend buffer. *)
Lemma send_fresh_resend_buf (ob : Outbox) (q : list MsgBuf) (s : State) :
  snd (send_fresh ob (Upd.resend_buf q s)) = snd (send_fresh ob s) /\
  g_msg_flags (fst (send_fresh ob (Upd.resend_buf q s))) = g_msg_flags (fst (send_fresh ob s)).
Proof.
  unfold send_fresh.
  change (g_accel_buf_count (Upd.resend_buf q s)) with (g_accel_buf_count s).
  change (g_msg_flags (Upd.resend_buf q s)) with (g_msg_flags s).
  change (fresh_message (fresh_space ob) (Upd.resend_buf q s))
    with (fresh_message (fresh_space ob) s).
  change (samples_to_send (fresh_space ob) (Upd.resend_buf q s))
    with (samples_to_send (fresh_space ob) s).
  destruct (_ || _); [|split; reflexivity].
  destruct (is_OK (fresh_begin ob)); [|split; reflexivity].
  destruct (is_OK (fresh_send ob)); [|split; reflexivity].
  destruct (0 <? samples_to_send (fresh_space ob) s); split; reflexivity.
Qed.


(** X25. The partial-drain rule, where the head-room is left.  A send
    cycle that gets to assemble a new message while stop or disconnect is
    pending, with [fit] the number of whole samples that go into the space left
    less the head-room.  If fewer samples fit than are buffered, the message
    carries [fit] samples and no stop or disconnect field, and both flags
    are as pending afterwards as before.  If all buffered samples fit, or none
    is buffered, the whole buffer is drained, a pending stop is written as the
    pair [(g_samples_sent + drained, g_samples_measured)] and a pending
    disconnect as the connection id. *)
Theorem partial_drain_rule (ob : Outbox) (s : State) :
  g_resend_buf s = [] \/ is_OK (resend_begin ob) = true ->
  is_OK (fresh_begin ob) = true ->
  get_msg_flag KEY_STOP s = true \/ get_msg_flag KEY_DISCONNECT s = true ->
  let count := g_accel_buf_count s in
  let fit := (fresh_space ob - 32) / 6 in
  let msg := fresh_message (fresh_space ob) s in
  let s' := fst (send_data_on ob s) in
  let outs := snd (send_data_on ob s) in
  (exists pre, outs = pre ++ [OutboxSend msg (fresh_send ob)]) /\
  (32 <= fresh_space ob < 2147483648 -> fit < count ->
   samples_to_send (fresh_space ob) s = fit /\
   dict_find msg KEY_STOP = None /\ dict_find msg KEY_DISCONNECT = None /\
   get_msg_flag KEY_STOP s' = get_msg_flag KEY_STOP s /\
   get_msg_flag KEY_DISCONNECT s' = get_msg_flag KEY_DISCONNECT s) /\
  (count = 0 \/ (32 <= fresh_space ob < 2147483648 /\ count <= fit) ->
   samples_to_send (fresh_space ob) s = count /\
   (get_msg_flag KEY_STOP s = true ->
    dict_find msg KEY_STOP
    = Some (dict_write_data KEY_STOP
              (le_bytes 4 (int32 (g_samples_sent s + count))
               ++ le_bytes 4 (g_samples_measured s)))) /\
   (get_msg_flag KEY_DISCONNECT s = true ->
    dict_find msg KEY_DISCONNECT
    = Some (dict_write_uint8 KEY_DISCONNECT (g_connection_id s)))).
Proof.
  intros Hq Hb Hflag count fit msg s' outs.
  assert (Hnz : g_msg_flags s <> 0)
    by (destruct Hflag as [H|H]; exact (test_flag_nonzero _ _ H)).
  destruct (send_fresh_assembled ob s Hb Hnz) as [Ho Hf].
  assert (Hrun : (exists pre, outs = pre ++ [OutboxSend msg (fresh_send ob)]) /\
                 g_msg_flags s' = g_msg_flags (fst (send_fresh ob s))).
  { subst outs s'. unfold send_data_on.
    destruct (0 <? g_resend_buf_count s) eqn:Hr.
    - destruct Hq as [Hq|Hq];
        [unfold g_resend_buf_count in Hr; rewrite Hq in Hr; discriminate|].
      rewrite Hq.
      destruct (is_OK (resend_send ob)).
      + destruct (send_fresh_resend_buf ob (removelast (g_resend_buf s)) s) as [E1 E2].
        destruct (send_fresh ob (Upd.resend_buf _ s)) as [s2 o2]. cbn [fst snd] in *.
        split; [|exact E2]. eexists [_]. cbn. now rewrite E1, Ho.
      + destruct (send_fresh ob s) as [s2 o2]. cbn [fst snd] in *.
        split; [|reflexivity]. eexists [_]. cbn. now rewrite Ho.
    - split; [|reflexivity]. exists []. exact Ho. }
  destruct Hrun as [Hpre Hs'].
  split; [exact Hpre|]. split.
  - intros Hsp Hlt.
    assert (Hmax : samples_max (fresh_space ob) = fit) by now apply samples_max_fits.
    assert (Hfit : samples_to_send (fresh_space ob) s = fit)
      by (rewrite samples_to_send_partial; [exact Hmax | rewrite Hmax; exact Hlt]).
    assert (Hn : samples_to_send (fresh_space ob) s <> count) by lia.
    destruct (fresh_message_partial _ _ Hn) as [H1 H2].
    split; [exact Hfit|].
    repeat split; try assumption;
      unfold get_msg_flag; rewrite Hs', Hf; unfold new_msg_flags;
      apply Z.eqb_neq in Hn; fold count; rewrite Hn;
      destruct (is_OK (fresh_send ob)); try reflexivity;
      apply test_flag_land_mask; auto.
  - intros Hall.
    assert (Hn : samples_to_send (fresh_space ob) s = count).
    { apply samples_to_send_all. fold count. destruct Hall as [H0|[Hsp Hle]].
      - rewrite H0. apply samples_max_nonneg.
      - rewrite samples_max_fits by exact Hsp. exact Hle. }
    assert (Hroom : fresh_message (fresh_space ob) s = fresh_fields (fresh_space ob) s).
    { apply fresh_message_roomy. destruct Hall as [H0|[Hsp _]]; [left | now right].
      unfold count, g_accel_buf_count in H0. destruct (g_accel_buf s); [reflexivity|].
      cbn in H0. lia. }
    split; [exact Hn|]. subst msg. rewrite Hroom. split; intros Hp.
    + now apply fresh_fields_stop.
    + now apply fresh_fields_disconnect.
Qed.

Lemma partial_drain_rule_witness :
  (let s := globals (scen_stop_pending 500) in
   let msg := fresh_message (fresh_space scen_outbox_ok) s in
   let s' := fst (send_data_on scen_outbox_ok s) in
   (fresh_space scen_outbox_ok - 32) / 6 = 104 /\
   g_accel_buf_count s = 500 /\
   samples_to_send (fresh_space scen_outbox_ok) s = (fresh_space scen_outbox_ok - 32) / 6 /\
   dict_find msg KEY_STOP = None /\ dict_find msg KEY_DISCONNECT = None /\
   get_msg_flag KEY_STOP s' = get_msg_flag KEY_STOP s /\
   get_msg_flag KEY_DISCONNECT s' = get_msg_flag KEY_DISCONNECT s) /\
  (let s := globals (scen_stop_pending 10) in
   let msg := fresh_message (fresh_space scen_outbox_ok) s in
   samples_to_send (fresh_space scen_outbox_ok) s = g_accel_buf_count s /\
   g_accel_buf_count s = 10 /\ g_samples_sent s = 0 /\ g_samples_measured s = 10 /\
   dict_find msg KEY_STOP
   = Some (dict_write_data KEY_STOP
             (le_bytes 4 (int32 (g_samples_sent s + g_accel_buf_count s))
              ++ le_bytes 4 (g_samples_measured s)))).
Proof.
  split.
  - pose proof (partial_drain_rule scen_outbox_ok (globals (scen_stop_pending 500))) as H.
    feed H. feed H. feed H. cbv zeta in H. destruct H as (_ & H & _). feed H. feed H.
    destruct H as (H0 & H1 & H2 & H3 & H4). cbv zeta.
    split; [vm_compute; reflexivity|]. split; [vm_compute; reflexivity|].
    split; [exact H0|].
    split; [exact H1|]. split; [exact H2|]. split; [exact H3 | exact H4].
  - pose proof (partial_drain_rule scen_outbox_ok (globals (scen_stop_pending 10))) as H.
    feed H. feed H. feed H. cbv zeta in H. destruct H as (_ & _ & H).
    assert (Hall : g_accel_buf_count (globals (scen_stop_pending 10)) = 0 \/
                   (32 <= fresh_space scen_outbox_ok < 2147483648 /\
                    g_accel_buf_count (globals (scen_stop_pending 10))
                    <= (fresh_space scen_outbox_ok - 32) / 6)).
    { right. clear H. vm_compute. split; [split|]; discriminate || reflexivity. }
    specialize (H Hall). clear Hall.
    destruct H as (H1 & H2 & _). feed H2. cbv zeta.
    split; [exact H1|]. split; [vm_compute; reflexivity|].
    split; [vm_compute; reflexivity|]. split; [vm_compute; reflexivity | exact H2].
Defined.

(** C4, as claimed, fails.  With one message saved for a resend and ten
    samples buffered, one call of [send_data] on an outbox that accepts
    everything attempts two messages: the resend, and then a new message
    carrying the ten samples, which leave the buffer. *)
Lemma resend_tick_also_sends_fresh :
  let s := globals scen_busy in
  let s' := fst (send_data_on scen_outbox_ok s) in
  g_resend_buf s <> [] /\
  snd (send_data_on scen_outbox_ok s)
  = [OutboxSend (resend_message (last (g_resend_buf s) [])) APP_MSG_OK;
     OutboxSend (fresh_message 656 s) APP_MSG_OK] /\
  dict_find (fresh_message 656 s) KEY_RESEND = None /\
  g_accel_buf_count s = 10 /\ g_accel_buf_count s' = 0 /\ g_samples_sent s' = 10.
Proof. vm_compute. repeat split; discriminate || reflexivity. Qed.

(** C4, amended.  With a non-empty resend buffer the resend comes first; if
    its outbox cannot be begun the call ends there, with nothing sent and
    nothing changed.  Otherwise the last saved message is attempted
    (re-wrapped with its resend counter) and the call goes on to the
    new-message branch, which sends exactly what it would send from the same
    samples and flags with an empty resend buffer: one more message whenever
    samples are buffered or flags are pending and its outbox can be begun.
    With an empty resend buffer only the new-message branch runs. *)
Theorem send_cycle_phases (ob : Outbox) (s : State) :
  (g_resend_buf s <> [] -> is_OK (resend_begin ob) = false ->
   send_data_on ob s = (s, [])) /\
  (g_resend_buf s <> [] -> is_OK (resend_begin ob) = true ->
   snd (send_data_on ob s)
   = OutboxSend (resend_message (last (g_resend_buf s) [])) (resend_send ob)
     :: snd (send_fresh ob s)) /\
  (g_resend_buf s = [] -> send_data_on ob s = send_fresh ob s) /\
  (is_OK (fresh_begin ob) = true ->
   0 < g_accel_buf_count s \/ g_msg_flags s <> 0 ->
   snd (send_fresh ob s) = [OutboxSend (fresh_message (fresh_space ob) s) (fresh_send ob)]).
Proof.
  assert (Hne : g_resend_buf s <> [] -> (0 <? g_resend_buf_count s) = true).
  { intros H. unfold g_resend_buf_count. destruct (g_resend_buf s); [easy|reflexivity]. }
  repeat split.
  - intros H Hb. unfold send_data_on. now rewrite (Hne H), Hb.
  - intros H Hb. unfold send_data_on. rewrite (Hne H), Hb.
    destruct (is_OK (resend_send ob)).
    + destruct (send_fresh_resend_buf ob (removelast (g_resend_buf s)) s) as [E _].
      destruct (send_fresh ob (Upd.resend_buf _ s)). cbn [snd] in *. now rewrite E.
    + now destruct (send_fresh ob s).
  - intros H. unfold send_data_on, g_resend_buf_count. now rewrite H.
  - intros Hb Hp. unfold send_fresh. rewrite Hb.
    assert (Hg : (0 <? g_accel_buf_count s) || negb (g_msg_flags s =? 0) = true).
    { destruct Hp as [Hp|Hp].
      - apply Z.ltb_lt in Hp. now rewrite Hp.
      - apply Z.eqb_neq in Hp. rewrite Hp. apply orb_true_r. }
    rewrite Hg. destruct (is_OK (fresh_send ob)); [|reflexivity].
    now destruct (0 <? samples_to_send (fresh_space ob) s).
Qed.

Lemma send_cycle_phases_witness :
  send_data_on scen_outbox_busy (globals scen_busy) = (globals scen_busy, []) /\
  snd (send_data_on scen_outbox_ok (globals scen_busy))
  = OutboxSend (resend_message (last (g_resend_buf (globals scen_busy)) []))
      (resend_send scen_outbox_ok)
    :: snd (send_fresh scen_outbox_ok (globals scen_busy)) /\
  send_data_on scen_outbox_ok (globals (scen_stop_pending 10))
  = send_fresh scen_outbox_ok (globals (scen_stop_pending 10)) /\
  snd (send_fresh scen_outbox_ok (globals scen_busy))
  = [OutboxSend (fresh_message (fresh_space scen_outbox_ok) (globals scen_busy))
       (fresh_send scen_outbox_ok)].
Proof.
  destruct (send_cycle_phases scen_outbox_busy (globals scen_busy)) as (H1 & _).
  destruct (send_cycle_phases scen_outbox_ok (globals scen_busy)) as (_ & H2 & _ & H4).
  destruct (send_cycle_phases scen_outbox_ok (globals (scen_stop_pending 10)))
    as (_ & _ & H3 & _).
  feed H1. feed H1. feed H2. feed H2. feed H3. feed H4. feed H4.
  split; [exact H1|]. split; [exact H2|]. split; [exact H3 | exact H4].
Defined.

(** ** Resends *)












Lemma outbox_failed_requeues (w : World) (m : Dictionary) (reason : AppMessageResult) :
  g_connected (globals w) = true -> is_SEND_REJECTED reason = false ->
  resent_too_often m = false ->
  g_resend_buf_count (globals w) < RESEND_BUF_SIZE ->
  state_after (outbox_failed_handler m reason) w
  = Upd.resend_buf (g_resend_buf (globals w) ++ [m]) (globals w).
Proof.
  intros Hc Hr Ht Hn. apply Z.ltb_lt in Hn.
  unfold outbox_failed_handler. rewrite Hr. mred. rewrite Hc, Ht, Hn.
  cbn [fst snd globals outbox sends trace].
  now destruct (g_outbox_failed_handler _).
Qed.

Lemma outbox_failed_gives_up (w : World) (m : Dictionary) (reason : AppMessageResult) :
  g_connected (globals w) = true -> is_SEND_REJECTED reason = false ->
  resent_too_often m = true ->
  state_after (outbox_failed_handler m reason) w = state_after (set_connected false) w.
Proof.
  intros Hc Hr Ht.
  unfold outbox_failed_handler. rewrite Hr. mred. rewrite Hc, Ht.
  now destruct (g_outbox_failed_handler _).
Qed.




(** ** Invariants of the engine *)

Section Preservation.
Variable P : list Sample -> Z -> Z -> Z -> Prop.

Hypothesis P_init : P [] 0 0 0.
Hypothesis P_send : forall ob s, holds P s -> holds P (fst (send_data_on ob s)).
Hypothesis P_set : forall k b s m f, armed_key k -> P b s m f -> P b s m (set_flag k f).
Hypothesis P_clear : forall k b s m f, P b s m f -> P b s m (clear_flag k f).
Hypothesis P_reset : forall b s m f, P b s m f -> P [] 0 0 f.
Hypothesis P_drop : forall b s m f, P b s m f -> P [] s m 0.

Lemma preserves_ret {A} (a : A) : preserves P (ret a).
Proof. intros w H. exact H. Qed.

Lemma preserves_bind {A B} (c : M A) (k : A -> M B) :
  preserves P c -> (forall a, preserves P (k a)) -> preserves P (bind c k).
Proof. intros Hc Hk w H. unfold bind. apply Hk, Hc, H. Qed.

Lemma preserves_gets {A} (f : State -> A) : preserves P (gets f).
Proof. intros w H. exact H. Qed.

Lemma preserves_emit (o : Output) : preserves P (emit o).
Proof. intros w H. exact H. Qed.

Lemma preserves_modify (f : State -> State) :
  (forall s, holds P s -> holds P (f s)) -> preserves P (modify f).
Proof. intros Hf w H. apply Hf, H. Qed.

Lemma preserves_when (b : bool) (c : M unit) : preserves P c -> preserves P (when b c).
Proof. intros Hc. destruct b; [exact Hc | apply preserves_ret]. Qed.

Lemma preserves_set_msg_flag (k : Z) : armed_key k -> preserves P (set_msg_flag k).
Proof. intros Hk. apply preserves_modify. intros s H. now apply P_set. Qed.

Lemma preserves_clear_msg_flag (k : Z) : preserves P (clear_msg_flag k).
Proof. apply preserves_modify. intros s H. now apply P_clear. Qed.

Lemma preserves_send_data : preserves P send_data.
Proof.
  intros w H. unfold send_data.
  pose proof (P_send (outbox w (sends w)) (globals w) H) as H'.
  now destruct (send_data_on _ _).
Qed.

Lemma preserves_fuse {B} (f g : State -> State) (k : unit -> M B) :
  preserves P (bind (modify (fun s => g (f s))) k) ->
  preserves P (bind (modify f) (fun _ => bind (modify g) k)).
Proof. intros H w Hw. exact (H w Hw). Qed.

Lemma preserves_fuse_last (f g : State -> State) :
  preserves P (modify (fun s => g (f s))) ->
  preserves P (bind (modify f) (fun _ => modify g)).
Proof. intros H w Hw. exact (H w Hw). Qed.

(** An assignment is accepted when it is to a global [P] does not look
      at, or when it completes a reset of the counters or a drop of the
      buffer. *)
Ltac pres_modify :=
  apply preserves_modify; intros ? Hframe;
  first [ exact Hframe
        | unfold holds in *; cbn;
          first [ exact P_init | eapply P_reset; exact Hframe
                | eapply P_drop; exact Hframe ] ].

(** One step through a computation, by the shape of its head. *)
Ltac pres1 :=
  lazymatch goal with
  | |- preserves _ (bind (modify _) (fun _ => bind (modify _) _)) =>
      apply preserves_fuse
  | |- preserves _ (bind (modify _) (fun _ => modify _)) =>
      apply preserves_fuse_last
  | |- preserves _ (bind _ _) => apply preserves_bind; [|intros ?]
  | |- preserves _ (ret _) => apply preserves_ret
  | |- preserves _ (gets _) => apply preserves_gets
  | |- preserves _ (emit _) => apply preserves_emit
  | |- preserves _ (when _ _) => apply preserves_when
  | |- preserves _ (modify _) => pres_modify
  | |- preserves _ send_data => apply preserves_send_data
  | |- preserves _ (set_msg_flag _) =>
      apply preserves_set_msg_flag; unfold armed_key; tauto
  | |- preserves _ (clear_msg_flag _) => apply preserves_clear_msg_flag
  | |- preserves _ (if ?b then _ else _) => destruct b
  end.

Lemma preserves_register_data_timer : preserves P register_data_timer.
Proof. unfold register_data_timer. repeat pres1. Qed.

Lemma preserves_stop_recording : preserves P stop_recording.
Proof. unfold stop_recording. repeat pres1. Qed.

Lemma preserves_start_recording : preserves P start_recording.
Proof. unfold start_recording. repeat pres1. Qed.

Lemma preserves_set_connected (b : bool) : preserves P (set_connected b).
Proof.
  unfold set_connected, clear_resend_buf.
  apply preserves_bind; [apply preserves_gets|]. intros c. apply preserves_when.
  apply preserves_bind; [|intros ?; repeat pres1].
  destruct b; [repeat pres1|].
  apply preserves_bind; [apply preserves_stop_recording|]. intros _.
  repeat pres1.
Qed.

Ltac pres :=
  repeat first
    [ pres1
    | lazymatch goal with
      | |- preserves _ (set_connected _) => apply preserves_set_connected
      | |- preserves _ stop_recording => apply preserves_stop_recording
      | |- preserves _ start_recording => apply preserves_start_recording
      | |- preserves _ register_data_timer => apply preserves_register_data_timer
      end ].

Lemma preserves_outbox_failed_handler (m : Dictionary) (reason : AppMessageResult) :
  preserves P (outbox_failed_handler m reason).
Proof. unfold outbox_failed_handler. pres. Qed.

Lemma preserves_inbox_loop (ts : list Tuple) (handled : bool) :
  preserves P (inbox_loop ts handled).
Proof.
  revert handled. induction ts as [|t ts IH]; intros handled; cbn [inbox_loop].
  - apply preserves_ret.
  - apply preserves_bind; [|intros h; apply IH].
    unfold inbox_tuple, inbox_connect. pres.
Qed.

Lemma preserves_inbox_received_handler (now : Z) (iter : Dictionary) :
  preserves P (inbox_received_handler now iter).
Proof.
  unfold inbox_received_handler.
  apply preserves_bind; [pres|]. intros _.
  apply preserves_bind; [apply preserves_inbox_loop|]. intros h. pres.
Qed.

Lemma preserves_data_timer_callback (now : Z) : preserves P (data_timer_callback now).
Proof. unfold data_timer_callback. pres. Qed.

Lemma preserves_bluetooth_handler (up : bool) : preserves P (bluetooth_handler up).
Proof. unfold bluetooth_handler. pres. Qed.

Lemma preserves_focusmotion_startup (v : Z) (client : Handlers) (metadata : list Z) :
  preserves P (focusmotion_startup v client metadata).
Proof. unfold focusmotion_startup. pres. Qed.

Lemma preserves_shutdown_flush (fuel : nat) : preserves P (shutdown_flush fuel).
Proof.
  induction fuel as [|fuel IH]; cbn [shutdown_flush]; [apply preserves_ret|].
  apply preserves_bind; [apply preserves_gets|]. intros f. apply preserves_when.
  apply preserves_bind; [apply preserves_emit|]. intros _.
  apply preserves_bind; [apply preserves_send_data|]. intros _. exact IH.
Qed.

Lemma preserves_focusmotion_shutdown : preserves P focusmotion_shutdown.
Proof.
  unfold focusmotion_shutdown, cancel_data_timer, clear_resend_buf.
  apply preserves_bind; [apply preserves_gets|]. intros i.
  apply preserves_bind; [|intros _; pres].
  apply preserves_when.
  apply preserves_bind; [pres|]. intros _.
  apply preserves_bind; [pres|]. intros _.
  apply preserves_bind; [pres|]. intros _.
  apply preserves_bind; [pres|]. intros _.
  apply preserves_bind; [apply preserves_shutdown_flush|]. intros _.
  pres.
Qed.

(** Every event but a delivery of samples preserves [P]. *)
Lemma preserves_step (e : Event) :
  (forall data, e = AccelSamples data -> preserves P (accel_handler data)) ->
  preserves P (step e).
Proof.
  intros Haccel. destruct e; cbn [step].
  - apply preserves_focusmotion_startup.
  - unfold focusmotion_start_recording. apply preserves_when, preserves_start_recording.
  - apply preserves_stop_recording.
  - unfold focusmotion_set_sampling_rate. pres.
  - apply preserves_focusmotion_shutdown.
  - apply preserves_data_timer_callback.
  - apply preserves_inbox_received_handler.
  - apply preserves_outbox_failed_handler.
  - now apply Haccel.
  - apply preserves_bluetooth_handler.
Qed.

End Preservation.

Lemma run_app (es1 es2 : list Event) (w : World) :
  exec (run (es1 ++ es2)) w = exec (run es2) (exec (run es1) w).
Proof.
  revert w. induction es1 as [|e es1 IH]; intros w; [reflexivity|].
  cbn [run app]. unfold exec, bind in *. cbn [snd]. apply IH.
Qed.

(** ** The heartbeat flag *)

Lemma send_data_on_flags (ob : Outbox) (s : State) :
  g_msg_flags (fst (send_data_on ob s)) = g_msg_flags s \/
  g_msg_flags (fst (send_data_on ob s)) = 0 \/
  g_msg_flags (fst (send_data_on ob s)) = Z.land (g_msg_flags s) stop_or_disconnect_mask.
Proof.
  assert (Hf : forall s0, g_msg_flags (fst (send_fresh ob s0)) = g_msg_flags s0 \/
                     g_msg_flags (fst (send_fresh ob s0)) = 0 \/
                     g_msg_flags (fst (send_fresh ob s0))
                     = Z.land (g_msg_flags s0) stop_or_disconnect_mask).
  { intros s0. unfold send_fresh.
    destruct (_ || _); [|now left].
    destruct (is_OK (fresh_begin ob)); [|now left].
    destruct (is_OK (fresh_send ob)); [|now left].
    unfold new_msg_flags.
    destruct (0 <? samples_to_send (fresh_space ob) s0),
      (samples_to_send (fresh_space ob) s0 =? g_accel_buf_count s0); cbn; tauto. }
  unfold send_data_on.
  destruct (0 <? g_resend_buf_count s); [|apply Hf].
  destruct (is_OK (resend_begin ob)); [|now left].
  destruct (is_OK (resend_send ob)).
  - specialize (Hf (Upd.resend_buf (removelast (g_resend_buf s)) s)).
    destruct (send_fresh ob (Upd.resend_buf _ s)). exact Hf.
  - specialize (Hf s). destruct (send_fresh ob s). exact Hf.
Qed.

Lemma no_heartbeat_step (e : Event) : preserves no_heartbeat (step e).
Proof.
  assert (Hhb : KEY_START <= KEY_HEARTBEAT) by (unfold KEY_HEARTBEAT, KEY_START; lia).
  apply preserves_step.
  - apply test_flag_0.
  - intros ob s H. unfold holds, no_heartbeat in *.
    destruct (send_data_on_flags ob s) as [E|[E|E]]; rewrite E.
    + exact H.
    + apply test_flag_0.
    + rewrite test_flag_testbit in * by exact Hhb. now rewrite Z.land_spec, H.
  - intros k b s m f Hk H. unfold no_heartbeat in *.
    rewrite test_set_flag_other; [exact H | exact Hhb | |];
      destruct Hk as [->|[->|[->| ->]]];
      unfold KEY_HEARTBEAT, KEY_START, KEY_STOP, KEY_CONNECT, KEY_DISCONNECT; lia.
  - intros k b s m f H. unfold no_heartbeat, clear_flag in *.
    rewrite test_flag_testbit in * by exact Hhb. now rewrite Z.land_spec, H.
  - intros b s m f H. exact H.
  - intros b s m f H. apply test_flag_0.
  - intros data _ w H. unfold accel_handler. mred.
    destruct (g_recording (globals w)); cbn [fst snd globals outbox sends trace].
    + destruct (0 <? _); cbn [fst snd globals outbox sends trace];
        destruct (g_accel_handler _); exact H.
    + destruct (g_accel_handler _); exact H.
Qed.

Lemma no_heartbeat_run (es : list Event) (w : World) :
  holds no_heartbeat (globals w) -> holds no_heartbeat (globals (exec (run es) w)).
Proof.
  revert w. induction es as [|e es IH]; intros w H; [exact H|].
  cbn [run]. unfold exec, bind in *. cbn [snd]. apply IH. now apply no_heartbeat_step.
Qed.

(** C8, as claimed, fails.  Through eight seconds of an idle connection,
    ninety timer ticks, the heartbeat flag is never pending and no message is
    sent but the connect acknowledgement, which has no heartbeat field; in the
    ninth second the session times out. *)
Lemma idle_connection_sends_no_heartbeat :
  let w := exec (run scen_idle_ticks) scen_idle in
  g_connected (globals scen_idle) = true /\
  forallb (fun s => negb (get_msg_flag KEY_HEARTBEAT s))
    (states_along scen_idle_ticks scen_idle) = true /\
  sent_messages (trace w) = [scen_ack] /\
  dict_find scen_ack KEY_HEARTBEAT = None /\
  g_connected (globals w) = true /\
  g_connected (state_after (run [TimerTick 109]) w) = false.
Proof. vm_compute. repeat split; reflexivity. Qed.

Lemma fresh_message_no_heartbeat (space : Z) (s : State) :
  get_msg_flag KEY_HEARTBEAT s = false ->
  dict_find (fresh_message space s) KEY_HEARTBEAT = None.
Proof.
  intros H.
  assert (Hf : dict_find (fresh_fields space s) KEY_HEARTBEAT = None).
  { unfold fresh_fields. rewrite H.
    destruct (get_msg_flag KEY_CONNECT s), (g_connected s), (get_msg_flag KEY_START s),
      (0 <? g_accel_buf_count s), (samples_to_send space s =? g_accel_buf_count s),
      (get_msg_flag KEY_STOP s), (get_msg_flag KEY_DISCONNECT s); reflexivity. }
  now apply fresh_message_sub.
Qed.

(** C8, amended.  No operation of the engine arms the heartbeat flag: it
    is clear in every reachable state, every event leaves it clear, and a new
    message built in a reachable state has no heartbeat field. *)
Theorem heartbeat_never_armed (s : State) :
  reachable s ->
  get_msg_flag KEY_HEARTBEAT s = false /\
  (forall (e : Event) (ob : nat -> Outbox) (n : nat) (tr : list Output),
     get_msg_flag KEY_HEARTBEAT (state_after (step e) (mkWorld s ob n tr)) = false) /\
  (forall space, dict_find (fresh_message space s) KEY_HEARTBEAT = None).
Proof.
  intros (ob & es & ->).
  assert (H : holds no_heartbeat (state_after (run es) (boot ob)))
    by (apply no_heartbeat_run; apply test_flag_0).
  repeat split.
  - exact H.
  - intros e ob' n tr. exact (no_heartbeat_step e (mkWorld _ ob' n tr) H).
  - intros space. now apply fresh_message_no_heartbeat.
Qed.

Lemma reachable_run (ob : nat -> Outbox) (es : list Event) :
  reachable (state_after (run es) (boot ob)).
Proof. exists ob, es. reflexivity. Qed.

Lemma heartbeat_never_armed_witness :
  let s := state_after (run scen_congested) (boot scen_congested_outbox) in
  get_msg_flag KEY_HEARTBEAT s = false /\
  (forall (e : Event) (ob : nat -> Outbox) (n : nat) (tr : list Output),
     get_msg_flag KEY_HEARTBEAT (state_after (step e) (mkWorld s ob n tr)) = false) /\
  (forall space, dict_find (fresh_message space s) KEY_HEARTBEAT = None).
Proof.
  intros s.
  exact (heartbeat_never_armed s (reachable_run scen_congested_outbox scen_congested)).
Defined.

(** ** Accounting for samples *)

Lemma send_fresh_accounted (B : Z) (ob : Outbox) (s : State) :
  B < 2147483648 ->
  holds (accounted B) s -> holds (accounted B) (fst (send_fresh ob s)).
Proof.
  intros HB H. unfold send_fresh.
  destruct (_ || _); [|exact H].
  destruct (is_OK (fresh_begin ob)); [|exact H].
  destruct (is_OK (fresh_send ob)); [|exact H].
  pose proof (samples_to_send_bounds (fresh_space ob) s) as Hn.
  destruct (0 <? samples_to_send (fresh_space ob) s); [|exact H].
  unfold holds, accounted, g_accel_buf_count in *. cbn.
  rewrite length_skipn. rewrite int32_small by lia. lia.
Qed.

Lemma send_data_on_accounted (B : Z) (ob : Outbox) (s : State) :
  B < 2147483648 ->
  holds (accounted B) s -> holds (accounted B) (fst (send_data_on ob s)).
Proof.
  intros HB H. unfold send_data_on.
  destruct (0 <? g_resend_buf_count s); [|now apply send_fresh_accounted].
  destruct (is_OK (resend_begin ob)); [|exact H].
  destruct (is_OK (resend_send ob)).
  - pose proof (send_fresh_accounted B ob (Upd.resend_buf (removelast (g_resend_buf s)) s) HB H) as H'.
    now destruct (send_fresh ob (Upd.resend_buf _ s)).
  - pose proof (send_fresh_accounted B ob s HB H) as H'. now destruct (send_fresh ob s).
Qed.

Lemma accounted_other_step (B : Z) (e : Event) :
  0 <= B < 2147483648 -> samples_in e = 0 ->
  preserves (accounted B) (step e).
Proof.
  intros HB He. apply preserves_step.
  - unfold accounted. cbn. lia.
  - intros ob s. now apply send_data_on_accounted.
  - intros k b s m f _ H. exact H.
  - intros k b s m f H. exact H.
  - intros b s m f H. unfold accounted in *. cbn. lia.
  - intros b s m f H. unfold accounted in *. cbn. lia.
  - intros data -> w H. cbn in He.
    destruct data; [|cbn in He; lia].
    unfold accel_handler. mred. cbn [length Z.of_nat].
    destruct (g_recording (globals w)); cbn [fst snd globals outbox sends trace].
    + replace (0 <? _) with false.
      * destruct (g_accel_handler _); cbn; unfold holds, accounted in *; cbn;
          rewrite Z.add_0_r, int32_small; lia.
      * symmetry. apply Z.ltb_ge. change (int32 0) with 0.
        destruct (_ <? 0) eqn:E; [apply Z.ltb_lt in E|]; lia.
    + destruct (g_accel_handler _); exact H.
Qed.

Lemma accounted_accel (B : Z) (data : list AccelData) (w : World) :
  0 <= B -> B + Z.of_nat (length data) < 2147483648 ->
  holds (accounted B) (globals w) ->
  holds (accounted (B + Z.of_nat (length data))) (globals (snd (accel_handler data w))).
Proof.
  intros HB Hfit H. unfold accel_handler. mred.
  set (inCount := Z.of_nat (length data)) in *.
  assert (Hn : forall nBuf, (if nBuf <? int32 inCount then nBuf else int32 inCount) <= inCount).
  { intros nBuf. rewrite int32_small by lia. destruct (Z.ltb_spec nBuf inCount); lia. }
  destruct (g_recording (globals w)); cbn [fst snd globals outbox sends trace].
  - match goal with |- context [0 <? ?n] => specialize (Hn (ACCEL_BUF_SIZE - g_accel_buf_count
        (Upd.samples_measured (int32 (g_samples_measured (globals w) + inCount)) (globals w))));
      destruct (Z.ltb_spec 0 n) as [Hp|Hp] end;
    cbn [fst snd globals outbox sends trace];
    destruct (g_accel_handler _); unfold holds, accounted in *; cbn;
      rewrite ?length_app, ?length_map, ?length_firstn;
      rewrite int32_small by lia; lia.
  - destruct (g_accel_handler _); unfold holds, accounted in *; cbn in *; lia.
Qed.

Lemma accounted_run (es : list Event) (B : Z) (w : World) :
  0 <= B -> B + samples_delivered es < 2147483648 ->
  holds (accounted B) (globals w) ->
  holds (accounted (B + samples_delivered es)) (globals (exec (run es) w)).
Proof.
  revert B w. induction es as [|e es IH]; intros B w HB Hfit H.
  - cbn. now rewrite Z.add_0_r.
  - assert (He : 0 <= samples_in e) by (destruct e; cbn; lia).
    assert (Hes : 0 <= samples_delivered es).
    { clear. induction es as [|e es IH]; cbn; [lia|]. destruct e; cbn; lia. }
    cbn [run samples_delivered] in *. unfold exec, bind in *. cbn [snd].
    rewrite Z.add_assoc. apply IH; [lia | lia |].
    destruct e; try (rewrite Z.add_0_r; apply accounted_other_step; (lia || reflexivity || assumption)).
    cbn [step samples_in]. apply accounted_accel; cbn in *; (lia || assumption).
Qed.

(** C3, as claimed, fails in its second half.  Seven seconds of recording
    at 100 Hz against a busy outbox fill the buffer (500 of the 700 samples
    measured are kept); the next accepted message takes 104 samples.  The
    state reached has a buffer that is not full, and its measured counter is
    not the sent counter plus the buffered count. *)
Lemma overflow_breaks_accounting :
  let s := state_after (run scen_congested) (boot scen_congested_outbox) in
  reachable s /\
  g_accel_buf_count s = 396 /\ g_accel_buf_count s < ACCEL_BUF_SIZE /\
  g_samples_sent s = 104 /\ g_samples_measured s = 700 /\
  g_samples_measured s <> g_samples_sent s + g_accel_buf_count s.
Proof.
  split; [apply reachable_run|].
  vm_compute. repeat split; reflexivity || discriminate.
Qed.

(** * Further properties of the engine *)

(** ** Message flags (lines 166-179) *)

Lemma test_clear_flag_same (k f : Z) : KEY_START <= k -> test_flag k (clear_flag k f) = false.
Proof.
  intros Hk. rewrite test_flag_testbit by assumption. unfold clear_flag, flag_bit.
  rewrite Z.land_spec, Z.lnot_spec, Z.shiftl_1_l, Z.pow2_bits_true by lia.
  apply andb_false_r.
Qed.

(** X1. The flag word behaves as a set of keys: after [set_msg_flag k] the
    flag [k] is pending, after [clear_msg_flag k] it is not, and in both cases
    every other flag of the engine's key range is as before. *)
Theorem msg_flag_set_clear (k k' : Z) (w : World) :
  KEYS_BEGIN < k < KEYS_END -> KEYS_BEGIN < k' < KEYS_END ->
  get_msg_flag k' (state_after (set_msg_flag k) w)
  = (if k' =? k then true else get_msg_flag k' (globals w)) /\
  get_msg_flag k' (state_after (clear_msg_flag k) w)
  = (if k' =? k then false else get_msg_flag k' (globals w)).
Proof.
  intros Hk Hk'. unfold KEYS_END in *.
  assert (H1 : KEY_START <= k) by (unfold KEY_START; lia).
  assert (H2 : KEY_START <= k') by (unfold KEY_START; lia).
  unfold get_msg_flag. mred. cbn [g_msg_flags Upd.msg_flags].
  destruct (Z.eqb_spec k' k) as [->|Hne]; split.
  - now apply test_set_flag_same.
  - now apply test_clear_flag_same.
  - now apply test_set_flag_other.
  - now apply test_clear_flag_other.
Qed.

Lemma msg_flag_set_clear_witness :
  get_msg_flag KEY_STOP (state_after (set_msg_flag KEY_DISCONNECT) scen_busy)
  = (if KEY_STOP =? KEY_DISCONNECT then true else get_msg_flag KEY_STOP (globals scen_busy)) /\
  get_msg_flag KEY_STOP (state_after (clear_msg_flag KEY_DISCONNECT) scen_busy)
  = (if KEY_STOP =? KEY_DISCONNECT then false else get_msg_flag KEY_STOP (globals scen_busy)).
Proof.
  pose proof (msg_flag_set_clear KEY_DISCONNECT KEY_STOP scen_busy) as H.
  feed H. feed H. exact H.
Defined.

(** ** What one call of send_data can change (lines 193-364) *)

Lemma send_fresh_frame (ob : Outbox) (s : State) :
  let s' := fst (send_fresh ob s) in
  g_inited s' = g_inited s /\ g_recording s' = g_recording s /\
  g_connected s' = g_connected s /\ g_connection_id s' = g_connection_id s /\
  g_handlers s' = g_handlers s /\ g_resend_buf s' = g_resend_buf s /\
  g_samples_measured s' = g_samples_measured s /\
  g_metadata_buf s' = g_metadata_buf s /\
  g_sampling_rate s' = g_sampling_rate s /\
  g_next_sampling_rate s' = g_next_sampling_rate s /\
  g_data_timer s' = g_data_timer s /\
  g_last_message_time s' = g_last_message_time s /\
  g_app_version s' = g_app_version s.
Proof.
  unfold send_fresh.
  destruct (_ || _); [|cbn; tauto].
  destruct (is_OK (fresh_begin ob)); [|cbn; tauto].
  destruct (is_OK (fresh_send ob)); [|cbn; tauto].
  destruct (0 <? samples_to_send (fresh_space ob) s); cbn; tauto.
Qed.

Lemma test_flag_land (k f m : Z) :
  test_flag k (Z.land f m) = true -> test_flag k f = true.
Proof.
  unfold test_flag. intros H.
  destruct (Z.eqb_spec (Z.land f (flag_bit k)) 0) as [E|]; [|reflexivity].
  rewrite <- Z.land_assoc, (Z.land_comm m), Z.land_assoc, E, Z.land_0_l in H.
  discriminate H.
Qed.

Lemma send_fresh_shrinks (ob : Outbox) (s : State) :
  let s' := fst (send_fresh ob s) in
  (forall k, get_msg_flag k s' = true -> get_msg_flag k s = true) /\
  (exists n, g_accel_buf s' = skipn n (g_accel_buf s)).
Proof.
  assert (Hsame : (forall k, get_msg_flag k s = true -> get_msg_flag k s = true) /\
                  (exists n, g_accel_buf s = skipn n (g_accel_buf s)))
    by (split; [auto | now exists O]).
  unfold send_fresh.
  destruct (_ || _); [|exact Hsame].
  destruct (is_OK (fresh_begin ob)); [|exact Hsame].
  destruct (is_OK (fresh_send ob)); [|exact Hsame].
  assert (Hflags : forall k, test_flag k (new_msg_flags (fresh_space ob) s) = true ->
                        get_msg_flag k s = true).
  { intros k. unfold new_msg_flags.
    destruct (_ =? _); [now rewrite test_flag_0 | apply test_flag_land]. }
  destruct (0 <? samples_to_send (fresh_space ob) s); cbn; (split; [exact Hflags|]).
  - now exists (Z.to_nat (samples_to_send (fresh_space ob) s)).
  - now exists O.
Qed.

Lemma send_data_on_frame (ob : Outbox) (s : State) :
  let s' := fst (send_data_on ob s) in
  g_connected s' = g_connected s /\ g_recording s' = g_recording s /\
  g_connection_id s' = g_connection_id s /\
  g_last_message_time s' = g_last_message_time s /\
  g_samples_measured s' = g_samples_measured s /\
  g_app_version s' = g_app_version s /\
  g_sampling_rate s' = g_sampling_rate s /\
  (forall k, get_msg_flag k s' = true -> get_msg_flag k s = true) /\
  (exists n, g_accel_buf s' = skipn n (g_accel_buf s)) /\
  (g_resend_buf s' = g_resend_buf s \/ g_resend_buf s' = removelast (g_resend_buf s)).
Proof.
  assert (Hf : forall s0,
    let s' := fst (send_fresh ob s0) in
    g_connected s' = g_connected s0 /\ g_recording s' = g_recording s0 /\
    g_connection_id s' = g_connection_id s0 /\
    g_last_message_time s' = g_last_message_time s0 /\
    g_samples_measured s' = g_samples_measured s0 /\
    g_app_version s' = g_app_version s0 /\
    g_sampling_rate s' = g_sampling_rate s0 /\
    (forall k, get_msg_flag k s' = true -> get_msg_flag k s0 = true) /\
    (exists n, g_accel_buf s' = skipn n (g_accel_buf s0)) /\
    g_resend_buf s' = g_resend_buf s0).
  { intros s0. pose proof (send_fresh_frame ob s0) as F.
    pose proof (send_fresh_shrinks ob s0) as G. cbv zeta in *. tauto. }
  unfold send_data_on.
  destruct (0 <? g_resend_buf_count s).
  - destruct (is_OK (resend_begin ob)).
    + destruct (is_OK (resend_send ob)).
      * specialize (Hf (Upd.resend_buf (removelast (g_resend_buf s)) s)).
        destruct (send_fresh ob (Upd.resend_buf _ s)) as [s2 o2].
        cbn [fst snd] in *. cbn in Hf. intuition.
      * specialize (Hf s). destruct (send_fresh ob s) as [s2 o2].
        cbn [fst snd] in *. intuition.
    + cbn. intuition. now exists O.
  - specialize (Hf s). cbv zeta in Hf. intuition.
Qed.

(** X2. One call of [send_data] changes nothing of the session: the
    connected and recording states, the connection id, the time of the last
    message, the measured counter, the application version and the sampling
    rate are as before.  It arms no flag (a flag pending afterwards was
    pending before), the sample buffer afterwards is what is left of it after
    dropping a prefix, and the resend buffer is as before or has lost its
    last entry. *)
Theorem send_data_frame (ob : Outbox) (s : State) :
  let s' := fst (send_data_on ob s) in
  g_connected s' = g_connected s /\ g_recording s' = g_recording s /\
  g_connection_id s' = g_connection_id s /\
  g_last_message_time s' = g_last_message_time s /\
  g_samples_measured s' = g_samples_measured s /\
  g_app_version s' = g_app_version s /\
  g_sampling_rate s' = g_sampling_rate s /\
  (forall k, get_msg_flag k s' = true -> get_msg_flag k s = true) /\
  (exists n, g_accel_buf s' = skipn n (g_accel_buf s)) /\
  (g_resend_buf s' = g_resend_buf s \/ g_resend_buf s' = removelast (g_resend_buf s)).
Proof. exact (send_data_on_frame ob s). Qed.

Lemma send_data_frame_witness :
  let s := globals (scen_stop_pending 500) in
  let s' := fst (send_data_on scen_outbox_ok s) in
  g_samples_measured s' = g_samples_measured s /\
  get_msg_flag KEY_STOP s' = true /\ get_msg_flag KEY_STOP s = true.
Proof.
  intros s s'.
  destruct (send_data_frame scen_outbox_ok s) as (_ & _ & _ & _ & Hm & _ & _ & Hfl & _).
  assert (Hp : get_msg_flag KEY_STOP s' = true) by by_vm.
  split; [exact Hm|]. split; [exact Hp | exact (Hfl KEY_STOP Hp)].
Defined.

(** X3. A call of [send_data] that cannot begin its outbox, or that has
    nothing to send (no saved message, no buffered sample, no pending flag),
    sends nothing and changes nothing. *)
Theorem send_data_idle (ob : Outbox) (s : State) :
  (is_OK (resend_begin ob) = false -> is_OK (fresh_begin ob) = false ->
   send_data_on ob s = (s, [])) /\
  (g_resend_buf s = [] -> g_accel_buf s = [] -> g_msg_flags s = 0 ->
   send_data_on ob s = (s, [])).
Proof.
  split.
  - intros Hr Hf. unfold send_data_on, send_fresh. rewrite Hr, Hf.
    destruct (0 <? g_resend_buf_count s); [reflexivity|].
    now destruct (_ || _).
  - intros Hq Hb Hfl. unfold send_data_on, send_fresh, g_resend_buf_count, g_accel_buf_count.
    now rewrite Hq, Hb, Hfl.
Qed.

Lemma send_data_idle_witness :
  send_data_on scen_outbox_busy (globals scen_busy) = (globals scen_busy, []) /\
  send_data_on scen_outbox_ok (globals scen_acked) = (globals scen_acked, []).
Proof.
  pose proof (send_data_idle scen_outbox_busy (globals scen_busy)) as [H1 _].
  pose proof (send_data_idle scen_outbox_ok (globals scen_acked)) as [_ H2].
  feed H1. feed H1. feed H2. feed H2. feed H2.
  split; [exact H1 | exact H2].
Defined.

(** X4. A message that is not accepted consumes nothing.  When the send of
    the new message fails, the sample buffer, the sent counter and the flags
    are as before, so the same samples and fields are offered again; when the
    send of a saved message fails, the resend buffer is as before. *)
Theorem send_failure_consumes_nothing (ob : Outbox) (s : State) :
  let s' := fst (send_data_on ob s) in
  (is_OK (fresh_send ob) = false ->
   g_accel_buf s' = g_accel_buf s /\ g_samples_sent s' = g_samples_sent s /\
   g_msg_flags s' = g_msg_flags s) /\
  (is_OK (resend_send ob) = false -> g_resend_buf s' = g_resend_buf s).
Proof.
  assert (Hf : forall s0, is_OK (fresh_send ob) = false -> fst (send_fresh ob s0) = s0).
  { intros s0 H. unfold send_fresh. rewrite H.
    destruct (_ || _); [|reflexivity]. now destruct (is_OK (fresh_begin ob)). }
  cbv zeta. unfold send_data_on.
  destruct (0 <? g_resend_buf_count s).
  - destruct (is_OK (resend_begin ob)); [|cbn; tauto].
    destruct (is_OK (resend_send ob)).
    + split; [|discriminate]. intros H.
      specialize (Hf (Upd.resend_buf (removelast (g_resend_buf s)) s) H).
      destruct (send_fresh ob (Upd.resend_buf _ s)) as [s2 o2].
      cbn [fst] in *. subst s2. cbn. tauto.
    + pose proof (send_fresh_frame ob s) as F. specialize (Hf s).
      destruct (send_fresh ob s) as [s2 o2]. cbn [fst] in *.
      split; [intros H; rewrite (Hf H); tauto | intros _; tauto].
  - pose proof (send_fresh_frame ob s) as F. specialize (Hf s).
    split; [intros H; rewrite (Hf H); tauto | intros _; cbv zeta in F; tauto].
Qed.

Lemma send_failure_consumes_nothing_witness :
  let ob := mkOutbox APP_MSG_OK APP_MSG_BUSY APP_MSG_OK 656 APP_MSG_BUSY in
  let s := globals scen_busy in
  let s' := fst (send_data_on ob s) in
  (g_accel_buf s' = g_accel_buf s /\ g_samples_sent s' = g_samples_sent s /\
   g_msg_flags s' = g_msg_flags s) /\
  g_resend_buf s' = g_resend_buf s.
Proof.
  intros ob s.
  pose proof (send_failure_consumes_nothing ob s) as [H1 H2].
  feed H1. feed H2. split; [exact H1 | exact H2].
Defined.

(** ** A delivered batch (lines 282-302, 343-357) *)

Lemma fresh_fields_sensor (space : Z) (s : State) :
  0 < g_accel_buf_count s ->
  dict_find (fresh_fields space s) KEY_SENSOR_OFFSET
  = Some (dict_write_uint32 KEY_SENSOR_OFFSET (g_samples_sent s)) /\
  dict_find (fresh_fields space s) KEY_SENSOR_DATA
  = Some (dict_write_data KEY_SENSOR_DATA
            (flat_map Sample_bytes
               (firstn (Z.to_nat (samples_to_send space s)) (g_accel_buf s)))).
Proof.
  intros H. apply Z.ltb_lt in H. unfold fresh_fields. rewrite H.
  destruct (get_msg_flag KEY_CONNECT s), (g_connected s), (get_msg_flag KEY_START s),
    (get_msg_flag KEY_HEARTBEAT s); split; reflexivity.
Qed.

(** X5. A batch that is accepted.  With samples buffered (no more than
    the buffer's 500, so that the size of the data is one the write can be
    given), at least the head-room of 32 bytes left in the dictionary and the
    outbox taking the new message, the message carries the sent counter as its
    offset and the oldest [n] buffered samples as its data, [n] being the
    smaller of the buffered count and the number of whole samples that go into
    the space left less the head-room; afterwards the buffer holds the
    remaining samples in their order, and the sent counter has grown by [n],
    so that the next batch starts where this one ended. *)
Theorem batch_delivered (ob : Outbox) (s : State) :
  g_resend_buf s = [] ->
  is_OK (fresh_begin ob) = true -> is_OK (fresh_send ob) = true ->
  0 < g_accel_buf_count s <= ACCEL_BUF_SIZE ->
  32 <= fresh_space ob < 2147483648 ->
  -2147483648 <= g_samples_sent s < 2147483648 ->
  let n := samples_to_send (fresh_space ob) s in
  let msg := fresh_message (fresh_space ob) s in
  let s' := fst (send_data_on ob s) in
  n = Z.min (g_accel_buf_count s) ((fresh_space ob - 32) / 6) /\
  snd (send_data_on ob s) = [OutboxSend msg (fresh_send ob)] /\
  dict_find msg KEY_SENSOR_OFFSET
  = Some (dict_write_uint32 KEY_SENSOR_OFFSET (g_samples_sent s)) /\
  dict_find msg KEY_SENSOR_DATA
  = Some (dict_write_data KEY_SENSOR_DATA
            (flat_map Sample_bytes (firstn (Z.to_nat n) (g_accel_buf s)))) /\
  firstn (Z.to_nat n) (g_accel_buf s) ++ g_accel_buf s' = g_accel_buf s /\
  g_accel_buf_count s' = g_accel_buf_count s - n /\
  g_samples_sent s' = int32 (g_samples_sent s + n) /\
  g_samples_measured s' = g_samples_measured s.
Proof.
  intros Hq Hb Hs [Hc _] Hsp Hint n msg s'.
  assert (Hroom : msg = fresh_fields (fresh_space ob) s)
    by (apply fresh_message_roomy; now right).
  destruct (fresh_fields_sensor (fresh_space ob) s Hc) as [Ho Hd].
  rewrite <- Hroom in Ho, Hd.
  pose proof (samples_to_send_bounds (fresh_space ob) s) as Hn. fold n in Hn.
  assert (Hmin : n = Z.min (g_accel_buf_count s) ((fresh_space ob - 32) / 6)).
  { rewrite <- (samples_max_fits (fresh_space ob) Hsp).
    subst n. unfold samples_to_send. apply Z.ltb_lt in Hc. rewrite Hc.
    destruct (Z.ltb_spec (samples_max (fresh_space ob)) (g_accel_buf_count s)); lia. }
  assert (Hrun : send_data_on ob s
                 = (if 0 <? n
                    then Upd.samples_sent (int32 (g_samples_sent s + n))
                           (Upd.accel_buf (skipn (Z.to_nat n) (g_accel_buf s))
                              (Upd.msg_flags (new_msg_flags (fresh_space ob) s) s))
                    else Upd.msg_flags (new_msg_flags (fresh_space ob) s) s,
                    [OutboxSend msg (fresh_send ob)])).
  { unfold send_data_on, g_resend_buf_count. rewrite Hq. cbn [length Z.of_nat Z.ltb Z.compare].
    unfold send_fresh. apply Z.ltb_lt in Hc. rewrite Hc, Hb, Hs. cbn [orb].
    fold n. now destruct (0 <? n). }
  subst s'. rewrite Hrun. cbn [fst snd].
  split; [exact Hmin|]. split; [reflexivity|]. split; [exact Ho|]. split; [exact Hd|].
  destruct (Z.ltb_spec 0 n) as [Hp|Hz];
    unfold g_accel_buf_count in *;
    cbn [g_accel_buf g_samples_sent g_samples_measured Upd.samples_sent Upd.accel_buf
         Upd.msg_flags].
  - rewrite firstn_skipn, length_skipn. repeat split; lia.
  - assert (E : n = 0) by lia. rewrite E in *. cbn [Z.to_nat firstn app].
    rewrite Z.add_0_r, int32_small by lia. repeat split; lia.
Qed.

Lemma batch_delivered_witness :
  let s := globals (scen_stop_pending 500) in
  let n := samples_to_send (fresh_space scen_outbox_ok) s in
  let msg := fresh_message (fresh_space scen_outbox_ok) s in
  let s' := fst (send_data_on scen_outbox_ok s) in
  n = Z.min (g_accel_buf_count s) ((fresh_space scen_outbox_ok - 32) / 6) /\
  snd (send_data_on scen_outbox_ok s) = [OutboxSend msg (fresh_send scen_outbox_ok)] /\
  dict_find msg KEY_SENSOR_OFFSET
  = Some (dict_write_uint32 KEY_SENSOR_OFFSET (g_samples_sent s)) /\
  dict_find msg KEY_SENSOR_DATA
  = Some (dict_write_data KEY_SENSOR_DATA
            (flat_map Sample_bytes (firstn (Z.to_nat n) (g_accel_buf s)))) /\
  firstn (Z.to_nat n) (g_accel_buf s) ++ g_accel_buf s' = g_accel_buf s /\
  g_accel_buf_count s' = g_accel_buf_count s - n /\
  g_samples_sent s' = int32 (g_samples_sent s + n) /\
  g_samples_measured s' = g_samples_measured s.
Proof.
  pose proof (batch_delivered scen_outbox_ok (globals (scen_stop_pending 500))) as H.
  feed H. feed H. feed H. feed H. feed H. feed H. exact H.
Defined.

(** X6. The sensor data of a message stays within the byte budget: with
    at least the 32 bytes of head-room left in the dictionary, the data field
    holds six bytes per sample sent and no more than the space left minus the
    head-room. *)
Theorem batch_within_budget (space : Z) (s : State) :
  32 <= space < 2147483648 ->
  let n := samples_to_send space s in
  let data := flat_map Sample_bytes (firstn (Z.to_nat n) (g_accel_buf s)) in
  Z.of_nat (length data) = sizeof_Sample * n /\
  Z.of_nat (length data) <= space - 32.
Proof.
  intros Hsp n data.
  pose proof (samples_to_send_bounds space s) as Hn. fold n in Hn.
  assert (Hmax : n <= samples_max space).
  { subst n. unfold samples_to_send.
    pose proof (samples_max_nonneg space).
    destruct (Z.ltb_spec 0 (g_accel_buf_count s)); [|lia].
    destruct (Z.ltb_spec (samples_max space) (g_accel_buf_count s)); lia. }
  rewrite samples_max_fits in Hmax by exact Hsp.
  assert (Hlen : Z.of_nat (length data) = sizeof_Sample * n).
  { subst data. rewrite length_Sample_bytes, length_firstn.
    unfold g_accel_buf_count in Hn. f_equal. lia. }
  split; [exact Hlen|]. rewrite Hlen. unfold sizeof_Sample.
  pose proof (Z.mul_div_le (space - 32) 6 ltac:(lia)). lia.
Qed.

Lemma batch_within_budget_witness :
  let s := globals (scen_stop_pending 500) in
  let n := samples_to_send 656 s in
  let data := flat_map Sample_bytes (firstn (Z.to_nat n) (g_accel_buf s)) in
  Z.of_nat (length data) = sizeof_Sample * n /\
  Z.of_nat (length data) <= 656 - 32.
Proof.
  pose proof (batch_within_budget 656 (globals (scen_stop_pending 500))) as H.
  feed H. exact H.
Defined.

(** ** Flags are cleared by a delivery only (lines 262-321, 343-346) *)

(** The fields written before the space is looked at are in the message
    whatever the space. *)
Lemma fresh_message_head (space : Z) (s : State) (k : Z) :
  In k [KEY_CONNECT; KEY_METADATA; KEY_START; KEY_HEARTBEAT; KEY_SENSOR_OFFSET] ->
  dict_find (fresh_message space s) k = dict_find (fresh_fields space s) k.
Proof.
  intros Hk. unfold fresh_message, fresh_fields. cbv zeta.
  destruct (0 <? g_accel_buf_count s); [|now rewrite app_nil_l].
  cbn [dict_write_within].
  destruct (tuple_size _ <=? space);
    destruct (samples_to_send space s =? g_accel_buf_count s),
      (get_msg_flag KEY_STOP s), (get_msg_flag KEY_DISCONNECT s);
    cbn [app dict_write_within];
    repeat match goal with |- context [tuple_size ?t <=? ?x] =>
             destruct (tuple_size t <=? x) end;
    destruct (get_msg_flag KEY_CONNECT s), (g_connected s), (get_msg_flag KEY_START s),
      (get_msg_flag KEY_HEARTBEAT s);
    destruct Hk as [<-|[<-|[<-|[<-|[<-|[]]]]]]; reflexivity.
Qed.

Lemma fresh_fields_announces (space : Z) (s : State) (k : Z) :
  In k announced_keys -> get_msg_flag k s = true ->
  (k = KEY_STOP \/ k = KEY_DISCONNECT -> samples_to_send space s = g_accel_buf_count s) ->
  dict_find (fresh_fields space s) k <> None.
Proof.
  intros Hk Hf Hfull. unfold fresh_fields.
  destruct Hk as [<-|[<-|[<-|[<-|[<-|[]]]]]]; rewrite ?Hf.
  - now destruct (g_connected s).
  - destruct (get_msg_flag KEY_CONNECT s), (g_connected s); discriminate.
  - destruct (get_msg_flag KEY_CONNECT s), (g_connected s), (get_msg_flag KEY_START s);
      discriminate.
  - rewrite Hfull, Z.eqb_refl by auto.
    destruct (get_msg_flag KEY_CONNECT s), (g_connected s), (get_msg_flag KEY_START s),
      (get_msg_flag KEY_HEARTBEAT s), (0 <? g_accel_buf_count s); discriminate.
  - rewrite Hfull, Z.eqb_refl by auto.
    destruct (get_msg_flag KEY_CONNECT s), (g_connected s), (get_msg_flag KEY_START s),
      (get_msg_flag KEY_HEARTBEAT s), (0 <? g_accel_buf_count s), (get_msg_flag KEY_STOP s);
      discriminate.
Qed.

(** The stop and disconnect fields are written when no sample is buffered
    or the head-room is left; the other announced fields always. *)
Lemma fresh_message_announces (space : Z) (s : State) (k : Z) :
  In k announced_keys -> get_msg_flag k s = true ->
  (k = KEY_STOP \/ k = KEY_DISCONNECT ->
   samples_to_send space s = g_accel_buf_count s /\
   (g_accel_buf s = [] \/ 32 <= space < 2147483648)) ->
  dict_find (fresh_message space s) k <> None.
Proof.
  intros Hk Hf Hfull.
  assert (Hfields : dict_find (fresh_fields space s) k <> None).
  { apply fresh_fields_announces; try assumption. intros H. now apply Hfull. }
  assert (Hcase : In k [KEY_CONNECT; KEY_START; KEY_HEARTBEAT] \/
                  (k = KEY_STOP \/ k = KEY_DISCONNECT))
    by (cbn in Hk |- *; intuition).
  destruct Hcase as [Hh|Ht].
  - rewrite fresh_message_head; [exact Hfields|]. cbn in Hh |- *. intuition.
  - rewrite fresh_message_roomy; [exact Hfields|]. now apply Hfull.
Qed.

Lemma send_fresh_clears (ob : Outbox) (s : State) (k : Z) :
  In k announced_keys -> get_msg_flag k s = true ->
  (k = KEY_STOP \/ k = KEY_DISCONNECT ->
   g_accel_buf s = [] \/ 32 <= fresh_space ob < 2147483648) ->
  get_msg_flag k (fst (send_fresh ob s)) = false ->
  fresh_send ob = APP_MSG_OK /\
  snd (send_fresh ob s) = [OutboxSend (fresh_message (fresh_space ob) s) APP_MSG_OK] /\
  dict_find (fresh_message (fresh_space ob) s) k <> None.
Proof.
  intros Hk Hf Hroom Hc. unfold send_fresh in *.
  rewrite (proj2 (Z.eqb_neq _ _) (test_flag_nonzero _ _ Hf)), orb_true_r in *.
  cbn [negb] in *.
  destruct (is_OK (fresh_begin ob)); [|cbn in Hc; congruence].
  destruct (is_OK (fresh_send ob)) eqn:Hs; [|cbn in Hc; congruence].
  assert (Hok : fresh_send ob = APP_MSG_OK) by (destruct (fresh_send ob); easy).
  assert (Hfl : test_flag k (new_msg_flags (fresh_space ob) s) = false)
    by (destruct (0 <? samples_to_send (fresh_space ob) s); exact Hc).
  split; [exact Hok|]. rewrite Hok.
  split; [now destruct (0 <? samples_to_send (fresh_space ob) s)|].
  apply fresh_message_announces; try assumption.
  intros Hsd. split; [|now apply Hroom]. unfold new_msg_flags in Hfl.
  destruct (Z.eqb_spec (samples_to_send (fresh_space ob) s) (g_accel_buf_count s));
    [assumption|].
  rewrite test_flag_land_mask in Hfl by exact Hsd. unfold get_msg_flag in Hf. congruence.
Qed.

Lemma send_data_on_clears (ob : Outbox) (s : State) (k : Z) :
  In k announced_keys ->
  get_msg_flag k s = true ->
  (k = KEY_STOP \/ k = KEY_DISCONNECT ->
   g_accel_buf s = [] \/ 32 <= fresh_space ob < 2147483648) ->
  get_msg_flag k (fst (send_data_on ob s)) = false ->
  exists msg, In (OutboxSend msg APP_MSG_OK) (snd (send_data_on ob s)) /\
              dict_find msg k <> None.
Proof.
  intros Hk Hf Hroom Hc. exists (fresh_message (fresh_space ob) s).
  unfold send_data_on in *.
  destruct (0 <? g_resend_buf_count s).
  - destruct (is_OK (resend_begin ob)); [|cbn in Hc; congruence].
    destruct (is_OK (resend_send ob)).
    + pose proof (send_fresh_clears ob (Upd.resend_buf (removelast (g_resend_buf s)) s) k
                    Hk Hf Hroom) as H.
      destruct (send_fresh ob (Upd.resend_buf _ s)) as [s2 o2]. cbn [fst snd] in *.
      destruct (H Hc) as (_ & -> & Hd). split; [right; left; reflexivity | exact Hd].
    + pose proof (send_fresh_clears ob s k Hk Hf Hroom) as H.
      destruct (send_fresh ob s) as [s2 o2]. cbn [fst snd] in *.
      destruct (H Hc) as (_ & -> & Hd). split; [right; left; reflexivity | exact Hd].
  - destruct (send_fresh_clears ob s k Hk Hf Hroom Hc) as (_ & -> & Hd).
    split; [left; reflexivity | exact Hd].
Qed.

(** X7. A pending flag is cleared by [send_data] only by being delivered:
    if one of the five announced flags is pending before a call and not after
    it, the call sent a new message that the outbox accepted, and that message
    has the flag's field.  For the stop and the disconnect this is so when no
    sample is buffered or the dictionary has the head-room of 32 bytes left;
    for the connect, start and heartbeat fields whatever space is left. *)
Theorem flag_cleared_only_when_sent (ob : Outbox) (s : State) (k : Z) :
  In k announced_keys ->
  get_msg_flag k s = true ->
  (k = KEY_STOP \/ k = KEY_DISCONNECT ->
   g_accel_buf s = [] \/ 32 <= fresh_space ob < 2147483648) ->
  get_msg_flag k (fst (send_data_on ob s)) = false ->
  exists msg, In (OutboxSend msg APP_MSG_OK) (snd (send_data_on ob s)) /\
              dict_find msg k <> None.
Proof. exact (send_data_on_clears ob s k). Qed.

Lemma flag_cleared_only_when_sent_witness :
  exists msg,
    In (OutboxSend msg APP_MSG_OK)
       (snd (send_data_on scen_outbox_ok (globals (scen_stop_pending 10)))) /\
    dict_find msg KEY_STOP <> None.
Proof.
  pose proof (flag_cleared_only_when_sent scen_outbox_ok
                (globals (scen_stop_pending 10)) KEY_STOP) as H.
  assert (Hk : In KEY_STOP announced_keys) by (cbn; tauto).
  specialize (H Hk). feed H.
  assert (Hroom : KEY_STOP = KEY_STOP \/ KEY_STOP = KEY_DISCONNECT ->
                  g_accel_buf (globals (scen_stop_pending 10)) = [] \/
                  32 <= fresh_space scen_outbox_ok < 2147483648).
  { intros _. right. clear H. vm_compute. split; discriminate || reflexivity. }
  specialize (H Hroom). clear Hroom. feed H. exact H.
Defined.

(** ** The resend of a saved message (lines 195-249) *)





(** X9. The resend buffer is used as a stack.  When it is not empty and
    the outbox can be begun, the message attempted first is the re-wrapping of
    the entry saved last; if the outbox accepts it, that entry and no other is
    removed, and if not the buffer is as before. *)
Theorem resend_takes_last (ob : Outbox) (s : State) (q : list MsgBuf) (m : MsgBuf) :
  g_resend_buf s = q ++ [m] -> is_OK (resend_begin ob) = true ->
  hd_error (snd (send_data_on ob s))
  = Some (OutboxSend (resend_message m) (resend_send ob)) /\
  g_resend_buf (fst (send_data_on ob s))
  = (if is_OK (resend_send ob) then q else q ++ [m]).
Proof.
  intros Hq Hb. unfold send_data_on, g_resend_buf_count.
  rewrite Hq, length_app, Hb. cbn [length].
  replace (0 <? Z.of_nat (length q + 1)) with true by (symmetry; apply Z.ltb_lt; lia).
  rewrite last_last, removelast_last.
  destruct (is_OK (resend_send ob)).
  - pose proof (send_fresh_frame ob (Upd.resend_buf q s)) as F.
    destruct (send_fresh ob (Upd.resend_buf q s)) as [s2 o2]. cbn [fst snd] in *.
    split; [reflexivity | apply F].
  - pose proof (send_fresh_frame ob s) as F.
    destruct (send_fresh ob s) as [s2 o2]. cbn [fst snd] in *.
    split; [reflexivity|]. rewrite <- Hq. apply F.
Qed.

Lemma resend_takes_last_witness :
  hd_error (snd (send_data_on scen_outbox_ok (globals scen_busy)))
  = Some (OutboxSend (resend_message [dict_write_uint8 KEY_START 1])
            (resend_send scen_outbox_ok)) /\
  g_resend_buf (fst (send_data_on scen_outbox_ok (globals scen_busy)))
  = (if is_OK (resend_send scen_outbox_ok) then [] else [] ++ [[dict_write_uint8 KEY_START 1]]).
Proof.
  pose proof (resend_takes_last scen_outbox_ok (globals scen_busy) []
                [dict_write_uint8 KEY_START 1]) as H.
  feed H. feed H. exact H.
Defined.

(** ** The connect field (lines 262-270) and the version word (lines 580-587) *)

Lemma value_uint32_written (k v : Z) : value_uint32 (dict_write_uint32 k v) = uint32 v.
Proof.
  unfold value_uint32, dict_write_uint32.
  change (value {| key := k; type := TUPLE_UINT; value := le_bytes 4 (uint32 v) |})
    with (le_bytes 4 (uint32 v)).
  rewrite (firstn_all2 (n := 4)) by (cbn; lia).
  rewrite le_value_le_bytes. unfold uint32.
  change (256 ^ Z.of_nat 4) with 4294967296. now rewrite Z.mod_mod.
Qed.

Lemma version_word (app : Z) :
  0 <= app < 65536 ->
  uint32 (Z.lor (Z.shiftl app 16) PROTOCOL_VERSION) = app * 65536 + PROTOCOL_VERSION.
Proof.
  intros H. unfold PROTOCOL_VERSION, uint32.
  assert (E : Z.lor (Z.shiftl app 16) 3 = app * 65536 + 3).
  { rewrite Z.shiftl_mul_pow2 by lia. change (2 ^ 16) with 65536.
    rewrite <- Z.lxor_lor, <- Z.add_nocarry_lxor; try reflexivity;
      apply Z.bits_inj'; intros n Hn; rewrite Z.land_spec, Z.bits_0;
      destruct (Z.ltb_spec n 16) as [Hlt|Hge].
    - change 65536 with (2 ^ 16). rewrite Z.mul_pow2_bits_low by lia. reflexivity.
    - replace (Z.testbit 3 n) with false; [apply andb_false_r|].
      symmetry. apply (Z.bits_above_log2 3 n); [lia | cbn; lia].
    - change 65536 with (2 ^ 16). rewrite Z.mul_pow2_bits_low by lia. reflexivity.
    - replace (Z.testbit 3 n) with false; [apply andb_false_r|].
      symmetry. apply (Z.bits_above_log2 3 n); [lia | cbn; lia]. }
  rewrite E. apply Z.mod_small. lia.
Qed.

Lemma version_word_decode (app : Z) :
  0 <= app < 65536 ->
  protocol_version_of (app * 65536 + PROTOCOL_VERSION) = PROTOCOL_VERSION /\
  app_version_of (app * 65536 + PROTOCOL_VERSION) = app.
Proof.
  intros H. unfold protocol_version_of, app_version_of, uint16, PROTOCOL_VERSION.
  change 0xffff with (Z.ones 16). rewrite !Z.land_ones by lia.
  rewrite Z.shiftr_div_pow2 by lia. change (2 ^ 16) with 65536.
  rewrite Z.mod_mod by lia.
  replace ((app * 65536 + 3) mod 65536) with 3
    by (rewrite Z.add_comm, Z.mod_add by lia; reflexivity).
  replace ((app * 65536 + 3) / 65536) with app
    by (rewrite Z.add_comm, Z.div_add by lia; reflexivity).
  rewrite Z.mod_mod by lia. split; [reflexivity | apply Z.mod_small; lia].
Qed.

Lemma fresh_message_connect (space : Z) (s : State) :
  get_msg_flag KEY_CONNECT s = true ->
  dict_find (fresh_message space s) KEY_CONNECT
  = Some (dict_write_uint32 KEY_CONNECT
            (if g_connected s then uint32 (Z.shiftl (g_connection_id s) 16)
             else uint32 (Z.lor (Z.shiftl (g_app_version s) 16) PROTOCOL_VERSION))) /\
  dict_find (fresh_message space s) KEY_METADATA
  = (if g_connected s then Some (dict_write_data KEY_METADATA (g_metadata_buf s))
     else None).
Proof.
  intros H. rewrite !fresh_message_head by (cbn; tauto).
  unfold fresh_fields. rewrite H.
  destruct (g_connected s), (get_msg_flag KEY_START s), (get_msg_flag KEY_HEARTBEAT s),
    (0 <? g_accel_buf_count s), (samples_to_send space s =? g_accel_buf_count s),
    (get_msg_flag KEY_STOP s), (get_msg_flag KEY_DISCONNECT s); split; reflexivity.
Qed.

(** X10. The connect field of a new message.  While disconnected it is the
    version word of the watch, which the watch's own decoding of a received
    connect reads back as the protocol version and the application version
    (the latter being 16 bits wide, as startup stores it), and no metadata is
    attached.  While connected its high half is the connection id (an id of
    less than 16 bits), its low half is zero, and the metadata is attached. *)
Theorem connect_field (space : Z) (s : State) :
  get_msg_flag KEY_CONNECT s = true ->
  exists t, dict_find (fresh_message space s) KEY_CONNECT = Some t /\
    (g_connected s = false -> 0 <= g_app_version s < 65536 ->
     protocol_version_of (value_uint32 t) = PROTOCOL_VERSION /\
     app_version_of (value_uint32 t) = g_app_version s /\
     dict_find (fresh_message space s) KEY_METADATA = None) /\
    (g_connected s = true -> 0 <= g_connection_id s < 65536 ->
     Z.shiftr (value_uint32 t) 16 = g_connection_id s /\
     Z.land (value_uint32 t) 0xffff = 0 /\
     dict_find (fresh_message space s) KEY_METADATA
     = Some (dict_write_data KEY_METADATA (g_metadata_buf s))).
Proof.
  intros Hf. destruct (fresh_message_connect space s Hf) as [Hc Hm].
  assert (Hidem : forall v, uint32 (uint32 v) = uint32 v)
    by (intros v; unfold uint32; apply Z.mod_mod; lia).
  eexists. split; [exact Hc|]. rewrite value_uint32_written. split.
  - intros Hd Happ. rewrite Hd in *. rewrite Hidem, version_word by exact Happ.
    destruct (version_word_decode _ Happ) as [H1 H2]. now repeat split.
  - intros Hd Hid. rewrite Hd in *. rewrite Hidem. unfold uint32.
    rewrite Z.shiftl_mul_pow2 by lia. change (2 ^ 16) with 65536.
    rewrite (Z.mod_small (g_connection_id s * 65536)) by lia.
    rewrite Z.shiftr_div_pow2 by lia. change (2 ^ 16) with 65536.
    rewrite Z.div_mul by lia.
    change 0xffff with (Z.ones 16). rewrite Z.land_ones by lia.
    change (2 ^ 16) with 65536. rewrite Z.mod_mul by lia. now repeat split.
Qed.

Lemma connect_field_witness :
  exists t, dict_find (fresh_message 656 (globals scen_idle)) KEY_CONNECT = Some t /\
    Z.shiftr (value_uint32 t) 16 = g_connection_id (globals scen_idle) /\
    Z.land (value_uint32 t) 0xffff = 0 /\
    dict_find (fresh_message 656 (globals scen_idle)) KEY_METADATA
    = Some (dict_write_data KEY_METADATA (g_metadata_buf (globals scen_idle))).
Proof.
  pose proof (connect_field 656 (globals scen_idle)) as H.
  feed H. destruct H as (t & Ht & _ & H). feed H. feed H.
  exists t. split; [exact Ht | exact H].
Defined.

(** ** The timer tick and the liveness check (lines 390-406) *)

Lemma send_data_run (w : World) :
  send_data w
  = (tt, mkWorld (fst (send_data_on (outbox w (sends w)) (globals w))) (outbox w)
           (S (sends w))
           (trace w ++ snd (send_data_on (outbox w (sends w)) (globals w)))).
Proof. unfold send_data. now destruct (send_data_on _ _). Qed.

Lemma register_data_timer_on (w : World) :
  g_data_timer (state_after register_data_timer w) = true /\
  g_connected (state_after register_data_timer w) = g_connected (globals w) /\
  g_last_message_time (state_after register_data_timer w)
  = g_last_message_time (globals w).
Proof.
  unfold register_data_timer. mred.
  destruct (g_data_timer (globals w)) eqn:E; cbn; auto.
Qed.

Lemma data_timer_callback_run (now : Z) (w : World) :
  exec (data_timer_callback now) w
  = let w1 := exec send_data (exec (modify (Upd.data_timer false)) w) in
    let last := g_last_message_time (globals w1) in
    exec register_data_timer
      (if (0 <? last) && (g_connected (globals w1) && (8 <? int32 (now - last)))
       then exec (set_connected false) w1 else w1).
Proof.
  unfold data_timer_callback, exec, bind, gets, when. cbn [fst snd]. cbv zeta.
  destruct (0 <? _); cbn [andb]; [|reflexivity].
  destruct (g_connected _ && _); reflexivity.
Qed.

(** X11. The timer tick.  After its send cycle the tick checks liveness:
    a connected session whose last message was received more than 8 time
    units before [now] is disconnected (and its liveness timer reset); a
    session that has not yet received a message ([g_last_message_time] is 0),
    or whose last message is at most 8 units old, keeps its connected state.
    In every case the timer is registered again. *)
Theorem tick_liveness (now : Z) (w : World) :
  let last := g_last_message_time (globals w) in
  let s' := state_after (data_timer_callback now) w in
  g_data_timer s' = true /\
  (g_connected (globals w) = true -> 0 < last -> 8 < int32 (now - last) ->
   g_connected s' = false /\ g_last_message_time s' = 0) /\
  (last <= 0 \/ int32 (now - last) <= 8 ->
   g_connected s' = g_connected (globals w) /\ g_last_message_time s' = last).
Proof.
  intros last s'. subst s'. unfold state_after. rewrite data_timer_callback_run.
  set (w1 := exec send_data (exec (modify (Upd.data_timer false)) w)). cbv zeta.
  assert (Hc1 : g_connected (globals w1) = g_connected (globals w)).
  { subst w1. unfold exec at 1. rewrite send_data_run. cbn [snd globals].
    now rewrite (proj1 (send_data_on_frame _ _)). }
  assert (Hl1 : g_last_message_time (globals w1) = last).
  { subst w1. unfold exec at 1. rewrite send_data_run. cbn [snd globals].
    match goal with |- context [send_data_on ?ob ?s0] =>
      destruct (send_data_on_frame ob s0) as (_ & _ & _ & H & _) end.
    now rewrite H. }
  rewrite Hl1, Hc1.
  match goal with |- context [exec register_data_timer ?w2] =>
    destruct (register_data_timer_on w2) as (Ht & Hc2 & Hl2) end.
  unfold state_after in *.
  split; [exact Ht|]. rewrite Hc2, Hl2. clear Ht Hc2 Hl2.
  destruct (Z.ltb_spec 0 last) as [Hpos|Hnp]; cbn [andb].
  - destruct (g_connected (globals w)) eqn:Hc; cbn [andb].
    + destruct (Z.ltb_spec 8 (int32 (now - last))) as [Hold|Hyoung].
      * assert (Hw1 : g_connected (globals w1) = true) by congruence.
        destruct (set_connected_false_effect w1 Hw1) as (E1 & _ & _ & _ & E5 & _).
        unfold state_after in *.
        split; [intros _ _ _; split; assumption|]. intros [H|H]; lia.
      * split; [intros; lia|]. intros _. split; congruence.
    + split; [intros; discriminate|]. intros _. split; congruence.
  - split; [intros; lia|]. intros _. split; congruence.
Qed.

Lemma tick_liveness_witness :
  let w := scen_idle in
  let s' := state_after (data_timer_callback 109) w in
  g_connected s' = false /\ g_last_message_time s' = 0.
Proof.
  pose proof (tick_liveness 109 scen_idle) as H. cbv zeta in H.
  destruct H as (_ & H & _). feed H. feed H. feed H. exact H.
Defined.

(** ** Received messages (lines 548-619) *)

Lemma inbox_tuple_unhandled (t : Tuple) (handled : bool) (w : World) :
  handled_key (key t) = false -> inbox_tuple t handled w = (handled, w).
Proof.
  unfold handled_key, inbox_tuple. intros H.
  destruct (key t =? KEY_START); [discriminate|].
  destruct (key t =? KEY_STOP); [discriminate|].
  destruct (key t =? KEY_DISCONNECT); [discriminate|].
  destruct (key t =? KEY_CONNECT); [discriminate|]. reflexivity.
Qed.

Lemma inbox_tuple_handled (t : Tuple) (handled : bool) (w : World) :
  handled_key (key t) = true -> fst (inbox_tuple t handled w) = true.
Proof.
  unfold handled_key, inbox_tuple. intros H.
  destruct (key t =? KEY_START); [reflexivity|].
  destruct (key t =? KEY_STOP); [reflexivity|].
  destruct (key t =? KEY_DISCONNECT); [reflexivity|].
  destruct (key t =? KEY_CONNECT); [reflexivity | discriminate].
Qed.

Lemma inbox_loop_handled (ts : list Tuple) (handled : bool) (w : World) :
  fst (inbox_loop ts handled w) = handled || existsb (fun t => handled_key (key t)) ts.
Proof.
  revert handled w. induction ts as [|t ts IH]; intros handled w; cbn [inbox_loop existsb].
  - unfold ret. cbn. now rewrite orb_false_r.
  - unfold bind. rewrite IH.
    destruct (handled_key (key t)) eqn:E.
    + rewrite inbox_tuple_handled by exact E. now rewrite orb_true_r.
    + now rewrite inbox_tuple_unhandled by exact E.
Qed.

Lemma inbox_loop_unhandled (ts : list Tuple) (handled : bool) (w : World) :
  existsb (fun t => handled_key (key t)) ts = false ->
  inbox_loop ts handled w = (handled, w).
Proof.
  revert w. induction ts as [|t ts IH]; intros w H; cbn [inbox_loop existsb] in *.
  - reflexivity.
  - apply orb_false_iff in H as [H1 H2]. unfold bind.
    rewrite inbox_tuple_unhandled by exact H1. cbn [fst snd]. now apply IH.
Qed.

(** X12. A received message none of whose keys is start, stop, disconnect
    or connect (a heartbeat of the peer, for one) only refreshes the time of
    the last message and is passed on to the client's handler, when there is
    one.  A message with one of these keys is never passed on: the handler
    does what the loop over its tuples does. *)
Theorem inbound_forwarding (now : Z) (iter : Dictionary) (w : World) :
  (existsb (fun t => handled_key (key t)) iter = false ->
   inbox_received_handler now iter w
   = (tt, mkWorld (Upd.last_message_time now (globals w)) (outbox w) (sends w)
            (trace w ++ (if g_inbox_received_handler (g_handlers (globals w))
                         then [ClientInboxReceived iter] else [])))) /\
  (existsb (fun t => handled_key (key t)) iter = true ->
   exec (inbox_received_handler now iter) w
   = exec (inbox_loop iter false) (exec (modify (Upd.last_message_time now)) w)).
Proof.
  split; intros H.
  - unfold inbox_received_handler, bind.
    rewrite (inbox_loop_unhandled iter false _ H). mred.
    destruct (g_inbox_received_handler _); cbn; [reflexivity|].
    now rewrite app_nil_r.
  - unfold inbox_received_handler, exec, bind. rewrite inbox_loop_handled, H.
    unfold gets, when, ret. cbn [fst snd negb andb]. reflexivity.
Qed.

Lemma inbound_forwarding_witness :
  inbox_received_handler 105 [dict_write_uint8 KEY_HEARTBEAT 1] scen_idle
  = (tt, mkWorld (Upd.last_message_time 105 (globals scen_idle)) (outbox scen_idle)
           (sends scen_idle)
           (trace scen_idle ++ (if g_inbox_received_handler (g_handlers (globals scen_idle))
                                then [ClientInboxReceived [dict_write_uint8 KEY_HEARTBEAT 1]]
                                else []))) /\
  exec (inbox_received_handler 105 scen_connect) scen_idle
  = exec (inbox_loop scen_connect false) (exec (modify (Upd.last_message_time 105)) scen_idle).
Proof.
  destruct (inbound_forwarding 105 [dict_write_uint8 KEY_HEARTBEAT 1] scen_idle) as [H1 _].
  destruct (inbound_forwarding 105 scen_connect scen_idle) as [_ H2].
  feed H1. feed H2. split; [exact H1 | exact H2].
Defined.

(** ** Symbolic runs *)

Lemma exec_bind {A B} (c : M A) (k : A -> M B) (w : World) :
  exec (bind c k) w = exec (k (fst (c w))) (exec c w).
Proof. reflexivity. Qed.

Lemma exec_modify (f : State -> State) s ob n tr :
  exec (modify f) (mkWorld s ob n tr) = mkWorld (f s) ob n tr.
Proof. reflexivity. Qed.

Lemma exec_emit (o : Output) s ob n tr :
  exec (emit o) (mkWorld s ob n tr) = mkWorld s ob n (tr ++ [o]).
Proof. reflexivity. Qed.

Lemma exec_gets {A} (f : State -> A) (w : World) : exec (gets f) w = w.
Proof. reflexivity. Qed.

Lemma fst_gets {A} (f : State -> A) s ob n tr : fst (gets f (mkWorld s ob n tr)) = f s.
Proof. reflexivity. Qed.

Lemma exec_ret {A} (a : A) (w : World) : exec (ret a) w = w.
Proof. reflexivity. Qed.

Lemma exec_when (b : bool) (c : M unit) (w : World) :
  exec (when b c) w = if b then exec c w else w.
Proof. now destruct b. Qed.

Lemma exec_send_data s ob n tr :
  exec send_data (mkWorld s ob n tr)
  = mkWorld (fst (send_data_on (ob n) s)) ob (S n) (tr ++ snd (send_data_on (ob n) s)).
Proof. unfold exec. now rewrite send_data_run. Qed.

Lemma exec_set_msg_flag (k : Z) s ob n tr :
  exec (set_msg_flag k) (mkWorld s ob n tr)
  = mkWorld (Upd.msg_flags (set_flag k (g_msg_flags s)) s) ob n tr.
Proof. reflexivity. Qed.

Lemma exec_clear_msg_flag (k : Z) s ob n tr :
  exec (clear_msg_flag k) (mkWorld s ob n tr)
  = mkWorld (Upd.msg_flags (clear_flag k (g_msg_flags s)) s) ob n tr.
Proof. reflexivity. Qed.

(** One statement of a sequence, run on a world given by its parts. *)
Ltac run1 :=
  rewrite exec_bind; cbv beta;
  rewrite ?fst_gets;
  first [ rewrite exec_modify | rewrite exec_emit | rewrite exec_gets
        | rewrite exec_send_data | rewrite exec_set_msg_flag
        | rewrite exec_clear_msg_flag ].

Ltac run_last :=
  first [ rewrite exec_modify | rewrite exec_emit | rewrite exec_gets
        | rewrite exec_send_data | rewrite exec_set_msg_flag
        | rewrite exec_clear_msg_flag | rewrite exec_ret ].

(** Projections of updated states. *)
Ltac simpl_state :=
  cbn [g_inited g_recording g_connected g_connection_id g_handlers g_accel_buf
       g_resend_buf g_samples_sent g_samples_measured g_msg_flags g_metadata_buf
       g_sampling_rate g_next_sampling_rate g_data_timer g_last_message_time
       g_app_version
       Upd.inited Upd.recording Upd.connected Upd.connection_id Upd.handlers
       Upd.accel_buf Upd.resend_buf Upd.samples_sent Upd.samples_measured
       Upd.msg_flags Upd.metadata_buf Upd.sampling_rate Upd.next_sampling_rate
       Upd.data_timer Upd.last_message_time Upd.app_version] in *.

Lemma msg_flags_twice (a b : Z) (s : State) :
  Upd.msg_flags a (Upd.msg_flags b s) = Upd.msg_flags a s.
Proof. reflexivity. Qed.

Lemma skipn_own {A} (l r : list A) : skipn (length l) (l ++ r) = r.
Proof. induction l as [|a l IH]; [reflexivity | exact IH]. Qed.

(** Everything [send_data] leaves alone. *)
Lemma send_data_on_untouched (ob : Outbox) (s : State) :
  let s' := fst (send_data_on ob s) in
  g_inited s' = g_inited s /\ g_recording s' = g_recording s /\
  g_connected s' = g_connected s /\ g_connection_id s' = g_connection_id s /\
  g_handlers s' = g_handlers s /\
  g_samples_measured s' = g_samples_measured s /\
  g_metadata_buf s' = g_metadata_buf s /\
  g_sampling_rate s' = g_sampling_rate s /\
  g_next_sampling_rate s' = g_next_sampling_rate s /\
  g_data_timer s' = g_data_timer s /\
  g_last_message_time s' = g_last_message_time s /\
  g_app_version s' = g_app_version s.
Proof.
  assert (Hf : forall s0, let s' := fst (send_fresh ob s0) in
    g_inited s' = g_inited s0 /\ g_recording s' = g_recording s0 /\
    g_connected s' = g_connected s0 /\ g_connection_id s' = g_connection_id s0 /\
    g_handlers s' = g_handlers s0 /\
    g_samples_measured s' = g_samples_measured s0 /\
    g_metadata_buf s' = g_metadata_buf s0 /\
    g_sampling_rate s' = g_sampling_rate s0 /\
    g_next_sampling_rate s' = g_next_sampling_rate s0 /\
    g_data_timer s' = g_data_timer s0 /\
    g_last_message_time s' = g_last_message_time s0 /\
    g_app_version s' = g_app_version s0).
  { intros s0. pose proof (send_fresh_frame ob s0) as F. cbv zeta in *. tauto. }
  unfold send_data_on.
  destruct (0 <? g_resend_buf_count s); [|apply Hf].
  destruct (is_OK (resend_begin ob)); [|cbn; tauto].
  destruct (is_OK (resend_send ob)).
  - specialize (Hf (Upd.resend_buf (removelast (g_resend_buf s)) s)).
    destruct (send_fresh ob (Upd.resend_buf _ s)) as [s2 o2]. exact Hf.
  - specialize (Hf s). destruct (send_fresh ob s) as [s2 o2]. exact Hf.
Qed.

Lemma send_data_on_empty (ob : Outbox) (s : State) :
  g_accel_buf s = [] ->
  g_accel_buf (fst (send_data_on ob s)) = [] /\
  g_samples_sent (fst (send_data_on ob s)) = g_samples_sent s.
Proof.
  intros He.
  assert (Hf : forall s0, g_accel_buf s0 = [] ->
             g_accel_buf (fst (send_fresh ob s0)) = [] /\
             g_samples_sent (fst (send_fresh ob s0)) = g_samples_sent s0).
  { intros s0 H0.
    pose proof (samples_to_send_bounds (fresh_space ob) s0) as Hn.
    unfold g_accel_buf_count in Hn. rewrite H0 in Hn. cbn in Hn.
    unfold send_fresh.
    destruct (_ || _); [|now split].
    destruct (is_OK (fresh_begin ob)); [|now split].
    destruct (is_OK (fresh_send ob)); [|now split].
    destruct (Z.ltb_spec 0 (samples_to_send (fresh_space ob) s0)); [lia|]. now split. }
  unfold send_data_on.
  destruct (0 <? g_resend_buf_count s); [|now apply Hf].
  destruct (is_OK (resend_begin ob)); [|now split].
  destruct (is_OK (resend_send ob)).
  - specialize (Hf (Upd.resend_buf (removelast (g_resend_buf s)) s) He).
    destruct (send_fresh ob (Upd.resend_buf _ s)) as [s2 o2]. exact Hf.
  - specialize (Hf s He). destruct (send_fresh ob s) as [s2 o2]. exact Hf.
Qed.

(** ** Start and stop recording (lines 412-456) *)

(** The state in which [start_recording] calls [send_data], and the world
    it leaves. *)
Lemma start_recording_run s ob n tr :
  g_recording s = false ->
  let s1 := Upd.msg_flags (clear_flag KEY_STOP (set_flag KEY_START (g_msg_flags s)))
              (Upd.samples_measured 0 (Upd.samples_sent 0
                 (Upd.accel_buf [] (Upd.sampling_rate (g_next_sampling_rate s) s)))) in
  exec start_recording (mkWorld s ob n tr)
  = mkWorld (Upd.recording true (fst (send_data_on (ob n) s1))) ob (S n)
      ((((tr ++ [AccelSubscribe 10]) ++ [AccelSetSamplingRate (g_next_sampling_rate s)])
         ++ [SniffInterval true]) ++ snd (send_data_on (ob n) s1)
       ++ (if g_recording_handler (g_handlers s) then [RecordingHandler true] else [])).
Proof.
  intros Hr s1. unfold start_recording.
  run1. rewrite Hr. cbn [negb]. rewrite exec_when.
  repeat run1. rewrite ?fst_gets, exec_when. simpl_state. rewrite msg_flags_twice.
  fold s1.
  replace (g_handlers (fst (send_data_on (ob n) s1))) with (g_handlers s)
    by (symmetry; apply (send_data_on_untouched (ob n) s1)).
  destruct (g_recording_handler (g_handlers s)).
  - rewrite exec_emit. now rewrite <- !app_assoc.
  - now rewrite app_nil_r.
Qed.

(** X13. Starting to record.  When already recording nothing happens.
    Otherwise recording is on afterwards, on a fresh count: the sample buffer
    is empty, the sent and measured counters are 0, the sampling rate is the
    one last asked for, and no stop is pending.  The start is announced: its
    field went out in a message the outbox accepted during the call, or the
    start flag is still pending. *)
Theorem start_recording_effect (w : World) :
  (g_recording (globals w) = true -> start_recording w = (tt, w)) /\
  (g_recording (globals w) = false ->
   let s' := state_after start_recording w in
   g_recording s' = true /\ g_accel_buf s' = [] /\
   g_samples_sent s' = 0 /\ g_samples_measured s' = 0 /\
   g_sampling_rate s' = g_next_sampling_rate (globals w) /\
   get_msg_flag KEY_STOP s' = false /\
   (get_msg_flag KEY_START s' = true \/
    exists msg, In (OutboxSend msg APP_MSG_OK) (calls_of start_recording w) /\
                dict_find msg KEY_START <> None)).
Proof.
  split.
  - intros H. unfold start_recording, bind, gets, when. cbn [fst snd]. now rewrite H.
  - intros Hr s'. subst s'. unfold state_after, calls_of. destruct w as [s ob n tr].
    cbn [globals trace] in *. rewrite (start_recording_run s ob n tr Hr). cbv zeta.
    set (s1 := Upd.msg_flags _ _). cbn [globals trace].
    destruct (send_data_on_untouched (ob n) s1)
      as (_ & _ & _ & _ & _ & Hm & _ & Hrate & _).
    destruct (send_data_on_empty (ob n) s1 eq_refl) as [Hb Hs].
    destruct (send_data_on_frame (ob n) s1) as (_ & _ & _ & _ & _ & _ & _ & Hfl & _).
    assert (Hk1 : KEY_START <= KEY_STOP) by (unfold KEY_STOP, KEY_START; lia).
    assert (Hk2 : KEY_START <= KEY_START) by lia.
    assert (Hstop : get_msg_flag KEY_STOP s1 = false)
      by (apply test_clear_flag_same; exact Hk1).
    assert (Hstart : get_msg_flag KEY_START s1 = true).
    { unfold get_msg_flag, s1. simpl_state.
      rewrite test_clear_flag_other by (assumption || (unfold KEY_STOP, KEY_START; lia)).
      now apply test_set_flag_same. }
    simpl_state. unfold get_msg_flag in *. simpl_state.
    repeat (split; [assumption || reflexivity|]).
    split.
    { destruct (test_flag KEY_STOP (g_msg_flags (fst (send_data_on (ob n) s1)))) eqn:E;
        [|reflexivity]. rewrite (Hfl _ E) in Hstop. discriminate. }
    destruct (test_flag KEY_START (g_msg_flags (fst (send_data_on (ob n) s1)))) eqn:E;
      [now left | right].
    destruct (send_data_on_clears (ob n) s1 KEY_START) as (msg & Hin & Hd);
      [cbn; tauto | exact Hstart | intros _; now left | exact E |].
    exists msg. split; [|exact Hd].
    rewrite <- !app_assoc, skipn_own. cbn [app].
    right. right. right. apply in_or_app. now left.
Qed.

Lemma start_recording_effect_witness :
  start_recording scen_busy = (tt, scen_busy) /\
  (let s' := state_after start_recording scen_idle in
   g_recording s' = true /\ g_accel_buf s' = [] /\
   g_samples_sent s' = 0 /\ g_samples_measured s' = 0 /\
   g_sampling_rate s' = g_next_sampling_rate (globals scen_idle) /\
   get_msg_flag KEY_STOP s' = false /\
   (get_msg_flag KEY_START s' = true \/
    exists msg, In (OutboxSend msg APP_MSG_OK) (calls_of start_recording scen_idle) /\
                dict_find msg KEY_START <> None)).
Proof.
  destruct (start_recording_effect scen_busy) as [H1 _].
  destruct (start_recording_effect scen_idle) as [_ H2].
  feed H1. feed H2. split; [exact H1 | exact H2].
Defined.

Lemma stop_recording_run s ob n tr :
  g_recording s = true ->
  let s1 := Upd.msg_flags (clear_flag KEY_START (set_flag KEY_STOP (g_msg_flags s))) s in
  exec stop_recording (mkWorld s ob n tr)
  = mkWorld (Upd.recording false (fst (send_data_on (ob n) s1))) ob (S n)
      (tr ++ snd (send_data_on (ob n) s1) ++ [AccelUnsubscribe] ++ [SniffInterval false]
       ++ (if g_recording_handler (g_handlers s) then [RecordingHandler false] else [])).
Proof.
  intros Hr s1. unfold stop_recording.
  run1. rewrite Hr. rewrite exec_when.
  repeat run1. rewrite ?fst_gets, exec_when. simpl_state. rewrite msg_flags_twice.
  fold s1.
  replace (g_handlers (fst (send_data_on (ob n) s1))) with (g_handlers s)
    by (symmetry; apply (send_data_on_untouched (ob n) s1)).
  destruct (g_recording_handler (g_handlers s)).
  - rewrite exec_emit. now rewrite <- !app_assoc.
  - now rewrite <- !app_assoc.
Qed.

(** X14. Stopping.  When not recording nothing happens.  Otherwise
    recording is off afterwards, the measured counter is as before and no
    start is pending.  When no sample is buffered, or the dictionary of the
    call's send cycle has the head-room of 32 bytes left, the stop is not
    lost: its field went out in a message the outbox accepted during the call,
    or the stop flag is still pending for a later send cycle. *)
Theorem stop_recording_effect (w : World) :
  (g_recording (globals w) = false -> stop_recording w = (tt, w)) /\
  (g_recording (globals w) = true ->
   let s' := state_after stop_recording w in
   g_recording s' = false /\
   g_samples_measured s' = g_samples_measured (globals w) /\
   get_msg_flag KEY_START s' = false /\
   (g_accel_buf (globals w) = [] \/
    32 <= fresh_space (outbox w (sends w)) < 2147483648 ->
    get_msg_flag KEY_STOP s' = true \/
    exists msg, In (OutboxSend msg APP_MSG_OK) (calls_of stop_recording w) /\
                dict_find msg KEY_STOP <> None)).
Proof.
  split.
  - intros H. unfold stop_recording, bind, gets, when. cbn [fst snd]. now rewrite H.
  - intros Hr s'. subst s'. unfold state_after, calls_of. destruct w as [s ob n tr].
    cbn [globals trace outbox sends] in *. rewrite (stop_recording_run s ob n tr Hr). cbv zeta.
    set (s1 := Upd.msg_flags _ _). cbn [globals trace].
    destruct (send_data_on_untouched (ob n) s1)
      as (_ & _ & _ & _ & _ & Hm & _).
    destruct (send_data_on_frame (ob n) s1) as (_ & _ & _ & _ & _ & _ & _ & Hfl & _).
    assert (Hk1 : KEY_START <= KEY_STOP) by (unfold KEY_STOP, KEY_START; lia).
    assert (Hk2 : KEY_START <= KEY_START) by lia.
    assert (Hstart : get_msg_flag KEY_START s1 = false)
      by (apply test_clear_flag_same; exact Hk2).
    assert (Hstop : get_msg_flag KEY_STOP s1 = true).
    { unfold get_msg_flag, s1. simpl_state.
      rewrite test_clear_flag_other by (assumption || (unfold KEY_STOP, KEY_START; lia)).
      now apply test_set_flag_same. }
    simpl_state. unfold get_msg_flag in *. simpl_state.
    split; [reflexivity|]. split; [exact Hm|]. split.
    { destruct (test_flag KEY_START (g_msg_flags (fst (send_data_on (ob n) s1)))) eqn:E;
        [|reflexivity]. rewrite (Hfl _ E) in Hstart. discriminate. }
    intros Hroom.
    destruct (test_flag KEY_STOP (g_msg_flags (fst (send_data_on (ob n) s1)))) eqn:E;
      [now left | right].
    destruct (send_data_on_clears (ob n) s1 KEY_STOP) as (msg & Hin & Hd);
      [cbn; tauto | exact Hstop | intros _; exact Hroom | exact E |].
    exists msg. split; [|exact Hd].
    rewrite skipn_own. apply in_or_app. now left.
Qed.

Lemma stop_recording_effect_witness :
  stop_recording scen_idle = (tt, scen_idle) /\
  (let s' := state_after stop_recording scen_busy in
   g_recording s' = false /\
   g_samples_measured s' = g_samples_measured (globals scen_busy) /\
   get_msg_flag KEY_START s' = false /\
   (get_msg_flag KEY_STOP s' = true \/
    exists msg, In (OutboxSend msg APP_MSG_OK) (calls_of stop_recording scen_busy) /\
                dict_find msg KEY_STOP <> None)).
Proof.
  destruct (stop_recording_effect scen_idle) as [H1 _].
  destruct (stop_recording_effect scen_busy) as [_ H2].
  feed H1. feed H2. cbv zeta in H2. destruct H2 as (A & B & C & D).
  assert (Hroom : g_accel_buf (globals scen_busy) = [] \/
                  32 <= fresh_space (outbox scen_busy (sends scen_busy)) < 2147483648).
  { right. clear. vm_compute. split; discriminate || reflexivity. }
  specialize (D Hroom). clear Hroom.
  split; [exact H1|]. cbv zeta.
  split; [exact A|]. split; [exact B|]. split; [exact C | exact D].
Defined.
Lemma set_sampling_rate_run (rate : AccelSamplingRate) s ob n tr :
  exec (focusmotion_set_sampling_rate rate) (mkWorld s ob n tr)
  = mkWorld (if g_recording s
             then Upd.next_sampling_rate rate s
             else Upd.sampling_rate rate (Upd.next_sampling_rate rate s))
      ob n tr.
Proof.
  unfold focusmotion_set_sampling_rate.
  run1. run1. rewrite ?fst_gets, exec_when.
  simpl_state. destruct (g_recording s); [reflexivity | now rewrite exec_modify].
Qed.

Lemma start_recording_rate (w : World) :
  g_recording (globals w) = false ->
  g_sampling_rate (state_after start_recording w) = g_next_sampling_rate (globals w).
Proof.
  intros Hr. destruct w as [s ob n tr]. cbn [globals] in *. unfold state_after.
  rewrite (start_recording_run s ob n tr Hr). cbv zeta. cbn [globals].
  set (s1 := Upd.msg_flags _ _).
  destruct (send_data_on_untouched (ob n) s1) as (_ & _ & _ & _ & _ & _ & _ & H & _).
  simpl_state. exact H.
Qed.

Lemma stop_recording_next_rate (w : World) :
  g_next_sampling_rate (state_after stop_recording w) = g_next_sampling_rate (globals w).
Proof.
  destruct w as [s ob n tr]. cbn [globals]. unfold state_after.
  destruct (g_recording s) eqn:Hr.
  - rewrite (stop_recording_run s ob n tr Hr). cbv zeta. cbn [globals].
    set (s1 := Upd.msg_flags _ _).
    destruct (send_data_on_untouched (ob n) s1) as (_ & _ & _ & _ & _ & _ & _ & _ & H & _).
    simpl_state. exact H.
  - unfold stop_recording. rewrite exec_bind. cbv beta. rewrite fst_gets, Hr.
    now rewrite exec_when.
Qed.

(** X15. The sampling rate.  Setting it always records the rate asked
    for; the rate in use changes at once only when not recording.  In both
    cases the rate asked for is the one in use once recording has been stopped
    and started again. *)
Theorem sampling_rate_deferred (rate : AccelSamplingRate) (w : World) :
  let s1 := state_after (focusmotion_set_sampling_rate rate) w in
  g_next_sampling_rate s1 = rate /\
  g_sampling_rate s1
  = (if g_recording (globals w) then g_sampling_rate (globals w) else rate) /\
  g_sampling_rate
    (state_after (focusmotion_set_sampling_rate rate ;; stop_recording ;; start_recording) w)
  = rate.
Proof.
  cbv zeta. unfold state_after at 3. rewrite exec_bind. cbv beta.
  rewrite exec_bind. cbv beta.
  set (w1 := exec (focusmotion_set_sampling_rate rate) w).
  assert (H1 : g_next_sampling_rate (globals w1) = rate /\
               g_sampling_rate (globals w1)
               = (if g_recording (globals w) then g_sampling_rate (globals w) else rate)).
  { subst w1. destruct w as [s ob n tr]. rewrite set_sampling_rate_run. cbn [globals].
    now destruct (g_recording s). }
  split; [apply H1|]. split; [apply H1|].
  pose proof (start_recording_rate (exec stop_recording w1) (stop_recording_off w1)) as H3.
  unfold state_after in *. rewrite H3.
  pose proof (stop_recording_next_rate w1) as H2. unfold state_after in H2.
  rewrite H2. apply H1.
Qed.
(** ** A failure with the resend buffer full (lines 520-537) *)

(** X17. A failed message that may still be retried is saved on top of
    the resend buffer while the buffer has room; when the buffer already holds
    ten messages the failure ends the session instead, and the buffer is
    emptied: at no time does it hold more than ten. *)
Theorem resend_buffer_full (w : World) (m : Dictionary) (reason : AppMessageResult) :
  g_connected (globals w) = true -> reason <> APP_MSG_SEND_REJECTED ->
  resent_too_often m = false ->
  let s' := state_after (outbox_failed_handler m reason) w in
  (g_resend_buf_count (globals w) < RESEND_BUF_SIZE ->
   g_connected s' = true /\ g_resend_buf s' = g_resend_buf (globals w) ++ [m]) /\
  (RESEND_BUF_SIZE <= g_resend_buf_count (globals w) ->
   g_connected s' = false /\ g_resend_buf s' = []).
Proof.
  intros Hc Hreason Ht s'. subst s'.
  assert (Hr : is_SEND_REJECTED reason = false) by (destruct reason; easy).
  split.
  - intros Hroom. rewrite (outbox_failed_requeues w m reason Hc Hr Ht Hroom).
    split; [exact Hc | reflexivity].
  - intros Hfull. apply Z.ltb_ge in Hfull.
    assert (E : state_after (outbox_failed_handler m reason) w
                = state_after (set_connected false) w).
    { unfold outbox_failed_handler. rewrite Hr. mred. rewrite Hc, Ht, Hfull.
      now destruct (g_outbox_failed_handler _). }
    rewrite E. split; [apply set_connected_sets | now apply set_connected_false_effect].
Qed.

Lemma resend_buffer_full_witness :
  g_resend_buf_count (globals scen_full) = 10 /\
  (let s' := state_after (outbox_failed_handler scen_ack APP_MSG_SEND_TIMEOUT) scen_full in
   g_connected s' = false /\ g_resend_buf s' = []) /\
  (let s' := state_after (outbox_failed_handler scen_ack APP_MSG_SEND_TIMEOUT) scen_busy in
   g_connected s' = true /\ g_resend_buf s' = g_resend_buf (globals scen_busy) ++ [scen_ack]).
Proof.
  pose proof (resend_buffer_full scen_full scen_ack APP_MSG_SEND_TIMEOUT) as H1.
  pose proof (resend_buffer_full scen_busy scen_ack APP_MSG_SEND_TIMEOUT) as H2.
  feed H1. feed H1. feed H1. feed H2. feed H2. feed H2. cbv zeta in H1, H2.
  destruct H1 as [_ H1]. destruct H2 as [H2 _]. feed H1. feed H2.
  split; [by_vm|]. split; [exact H1 | exact H2].
Defined.

(** ** Becoming connected (lines 463-475, 487-494) *)

Lemma set_connected_true_run s ob n tr :
  g_connected s = false ->
  exec (set_connected true) (mkWorld s ob n tr)
  = mkWorld (Upd.connected true
               (Upd.connection_id (next_connection_id (g_connection_id s)) s))
      ob n (tr ++ (if g_connected_handler (g_handlers s)
                   then [ConnectedHandler true] else [])).
Proof.
  intros Hc. unfold set_connected, next_connection_id, exec, bind, gets, when, modify, ret.
  cbn [fst snd globals outbox sends trace]. rewrite Hc. cbn [eqb negb fst snd].
  simpl_state. cbn [fst snd globals outbox sends trace].
  destruct (1000 <? uint32 (g_connection_id s + 1));
    cbn [fst snd globals outbox sends trace]; simpl_state;
    destruct (g_connected_handler (g_handlers s)); cbn; rewrite ?app_nil_r; reflexivity.
Qed.

(** X18. The connection id.  Connecting while connected changes nothing.
    Connecting from the disconnected state makes the session connected under
    the next id, [id + 1] or 1 after 1000: from an id between 1 and 1000 the
    new id is again between 1 and 1000 and differs from the old one.  Flags,
    buffers and counters are not touched. *)
Theorem connect_takes_next_id (w : World) :
  (g_connected (globals w) = true -> set_connected true w = (tt, w)) /\
  (g_connected (globals w) = false ->
   let s := globals w in
   let s' := state_after (set_connected true) w in
   s' = Upd.connected true (Upd.connection_id (next_connection_id (g_connection_id s)) s) /\
   (1 <= g_connection_id s <= 1000 ->
    1 <= g_connection_id s' <= 1000 /\ g_connection_id s' <> g_connection_id s)).
Proof.
  split.
  - intros H. unfold set_connected, bind, gets, when. cbn [fst snd]. now rewrite H.
  - intros Hc s s'. subst s s'. destruct w as [s ob n tr]. cbn [globals] in *.
    unfold state_after. rewrite (set_connected_true_run s ob n tr Hc). cbn [globals].
    split; [reflexivity|]. intros Hid. simpl_state. unfold next_connection_id, uint32.
    rewrite Z.mod_small by lia.
    destruct (Z.ltb_spec 1000 (g_connection_id s + 1)); lia.
Qed.

Lemma connect_takes_next_id_witness :
  set_connected true scen_idle = (tt, scen_idle) /\
  (let s := globals scen_started in
   let s' := state_after (set_connected true) scen_started in
   s' = Upd.connected true (Upd.connection_id (next_connection_id (g_connection_id s)) s) /\
   1 <= g_connection_id s' <= 1000 /\ g_connection_id s' <> g_connection_id s).
Proof.
  destruct (connect_takes_next_id scen_idle) as [H1 _].
  destruct (connect_takes_next_id scen_started) as [_ H2].
  feed H1. feed H2. cbv zeta in H2. destruct H2 as [H2 H3]. feed H3.
  split; [exact H1|]. cbv zeta. split; [exact H2 | exact H3].
Defined.

Lemma inbox_connect_only (now : Z) (t : Tuple) (w : World) :
  key t = KEY_CONNECT ->
  exec (inbox_received_handler now [t]) w
  = exec (inbox_connect t) (exec (modify (Upd.last_message_time now)) w).
Proof.
  intros Hk. unfold inbox_received_handler, exec, bind. cbn [inbox_loop].
  rewrite (inbox_tuple_connect t false Hk).
  unfold bind, ret, gets, when. cbn [fst snd negb andb]. reflexivity.
Qed.

(** X19. A received connect whose payload is the four bytes of the
    version word 0 is a bare handshake: the session is connected afterwards
    (under the next id when it was not connected, under its id when it was),
    the time of the last message is the time of reception, and no
    acknowledgement is armed: the flags are as before. *)
Theorem bare_connect (now : Z) (t : Tuple) (w : World) :
  key t = KEY_CONNECT -> value t = le_bytes 4 0 ->
  let s := globals w in
  let s' := state_after (inbox_received_handler now [t]) w in
  g_connected s' = true /\
  g_connection_id s'
  = (if g_connected s then g_connection_id s else next_connection_id (g_connection_id s)) /\
  g_last_message_time s' = now /\
  g_msg_flags s' = g_msg_flags s.
Proof.
  intros Hk Hbytes s s'. subst s s'.
  assert (Hv : (0 <? value_uint32 t) = false)
    by (rewrite (value_uint32_bytes t 0 Hbytes); [reflexivity | lia]).
  unfold state_after. rewrite (inbox_connect_only now t w Hk).
  unfold inbox_connect. rewrite Hv.
  destruct w as [s ob n tr]. rewrite exec_modify. cbn [globals].
  destruct (g_connected s) eqn:Hc.
  - assert (E : set_connected true (mkWorld (Upd.last_message_time now s) ob n tr)
                = (tt, mkWorld (Upd.last_message_time now s) ob n tr)).
    { unfold set_connected, bind, gets, when. cbn [fst snd globals]. simpl_state.
      now rewrite Hc. }
    unfold exec. rewrite E. cbn [snd globals]. simpl_state. auto.
  - rewrite (set_connected_true_run (Upd.last_message_time now s) ob n tr Hc).
    cbn [globals]. simpl_state. auto.
Qed.

Lemma bare_connect_witness :
  let t := dict_write_uint32 KEY_CONNECT 0 in
  let s := globals scen_started in
  let s' := state_after (inbox_received_handler 100 [t]) scen_started in
  g_connected s' = true /\
  g_connection_id s'
  = (if g_connected s then g_connection_id s else next_connection_id (g_connection_id s)) /\
  g_last_message_time s' = 100 /\
  g_msg_flags s' = g_msg_flags s.
Proof.
  pose proof (bare_connect 100 (dict_write_uint32 KEY_CONNECT 0) scen_started) as H.
  feed H. feed H. exact H.
Defined.

(** ** Samples outside a recording (lines 621-669) *)

(** X20. Every delivery of samples is passed on to the client's handler,
    when there is one, whole and whatever the engine keeps of it; the engine
    calls nothing else and starts no send cycle.  While not recording the
    delivery changes no global: nothing is counted and nothing is buffered. *)
Theorem accel_forwarding (inData : list AccelData) (w : World) :
  let w' := exec (accel_handler inData) w in
  trace w' = trace w ++ (if g_accel_handler (g_handlers (globals w))
                         then [ClientAccel inData] else []) /\
  sends w' = sends w /\
  (g_recording (globals w) = false -> globals w' = globals w).
Proof.
  destruct w as [s ob n tr]. cbv zeta.
  unfold accel_handler, exec, bind, gets, when, modify, emit, ret.
  cbn [fst snd globals outbox sends trace].
  destruct (g_recording s); cbn [fst snd globals outbox sends trace].
  - destruct (0 <? _); cbn [fst snd globals outbox sends trace]; simpl_state;
      destruct (g_accel_handler (g_handlers s)); cbn [fst snd globals outbox sends trace];
      rewrite ?app_nil_r; (split; [reflexivity|]); (split; [reflexivity|]);
      intros H; discriminate H.
  - destruct (g_accel_handler (g_handlers s)); cbn [fst snd globals outbox sends trace];
      rewrite ?app_nil_r; auto.
Qed.

Lemma accel_forwarding_witness :
  globals (exec (accel_handler (repeat scen_sample 10)) scen_idle) = globals scen_idle.
Proof.
  destruct (accel_forwarding (repeat scen_sample 10) scen_idle) as (_ & _ & H).
  exact (H eq_refl).
Defined.

(** ** Invariants of the session *)

Lemma set_connected_false_run (w : World) :
  g_connected (globals w) = true ->
  let w1 := exec stop_recording w in
  exec (set_connected false) w
  = mkWorld (Upd.connected false
               (Upd.msg_flags (set_flag KEY_DISCONNECT 0)
                  (Upd.last_message_time 0
                     (Upd.msg_flags 0
                        (Upd.accel_buf [] (Upd.resend_buf [] (globals w1)))))))
      (outbox w1) (sends w1)
      (trace w1 ++ (if g_connected_handler (g_handlers (globals w1))
                    then [ConnectedHandler false] else [])).
Proof.
  intros Hc. cbv zeta.
  unfold set_connected, exec, bind, gets, when, modify, emit, ret, set_msg_flag,
    clear_resend_buf.
  cbn [fst snd globals outbox sends trace]. rewrite Hc. cbn [eqb negb fst snd].
  cbn [fst snd globals outbox sends trace]. simpl_state.
  destruct (g_connected_handler _); cbn [fst snd globals outbox sends trace];
    rewrite ?app_nil_r; reflexivity.
Qed.

Lemma outbox_failed_disconnected (w : World) (m : Dictionary) (reason : AppMessageResult) :
  is_SEND_REJECTED reason = true \/ g_connected (globals w) = false ->
  state_after (outbox_failed_handler m reason) w = globals w.
Proof.
  intros H. unfold outbox_failed_handler.
  destruct (is_SEND_REJECTED reason); [reflexivity|].
  destruct H as [H|H]; [discriminate|]. mred. rewrite H.
  now destruct (g_outbox_failed_handler _).
Qed.

Lemma outbox_failed_full (w : World) (m : Dictionary) (reason : AppMessageResult) :
  g_connected (globals w) = true -> is_SEND_REJECTED reason = false ->
  resent_too_often m = false ->
  RESEND_BUF_SIZE <= g_resend_buf_count (globals w) ->
  state_after (outbox_failed_handler m reason) w = state_after (set_connected false) w.
Proof.
  intros Hc Hr Ht Hfull. apply Z.ltb_ge in Hfull.
  unfold outbox_failed_handler. rewrite Hr. mred. rewrite Hc, Ht, Hfull.
  now destruct (g_outbox_failed_handler _).
Qed.

Section Session.
Variable Q : bool -> Z -> list MsgBuf -> list Sample -> Prop.

Hypothesis Q_send : forall ob s, session_holds Q s -> session_holds Q (fst (send_data_on ob s)).
Hypothesis Q_disconnect : forall c id q b, Q c id q b -> Q false id [] [].
Hypothesis Q_startup : forall c id q b, Q c id q b -> Q false id q [].
Hypothesis Q_clear_buf : forall c id q b, Q c id q b -> Q c id q [].
Hypothesis Q_clear_resend : forall c id q b, Q c id q b -> Q c id [] b.
Hypothesis Q_requeue : forall id q b m,
  Q true id q b -> Z.of_nat (length q) < RESEND_BUF_SIZE -> Q true id (q ++ [m]) b.
Hypothesis Q_accel : forall c id q b l,
  Q c id q b -> Z.of_nat (length b) + Z.of_nat (length l) <= ACCEL_BUF_SIZE ->
  Q c id q (b ++ l).

Lemma session_ret {A} (a : A) : session_keeps Q (ret a).
Proof. intros w H. exact H. Qed.

Lemma session_bind {A B} (c : M A) (k : A -> M B) :
  session_keeps Q c -> (forall a, session_keeps Q (k a)) -> session_keeps Q (bind c k).
Proof. intros Hc Hk w H. unfold bind. apply Hk, Hc, H. Qed.

Lemma session_gets {A} (f : State -> A) : session_keeps Q (gets f).
Proof. intros w H. exact H. Qed.

Lemma session_emit (o : Output) : session_keeps Q (emit o).
Proof. intros w H. exact H. Qed.

Lemma session_modify (f : State -> State) :
  (forall s, session_holds Q s -> session_holds Q (f s)) -> session_keeps Q (modify f).
Proof. intros Hf w H. apply Hf, H. Qed.

Lemma session_when (b : bool) (c : M unit) :
  session_keeps Q c -> session_keeps Q (when b c).
Proof. intros Hc. destruct b; [exact Hc | apply session_ret]. Qed.

Lemma session_fuse {B} (f g : State -> State) (k : unit -> M B) :
  session_keeps Q (bind (modify (fun s => g (f s))) k) ->
  session_keeps Q (bind (modify f) (fun _ => bind (modify g) k)).
Proof. intros H w Hw. exact (H w Hw). Qed.

Lemma session_fuse_last (f g : State -> State) :
  session_keeps Q (modify (fun s => g (f s))) ->
  session_keeps Q (bind (modify f) (fun _ => modify g)).
Proof. intros H w Hw. exact (H w Hw). Qed.

Lemma session_send_data : session_keeps Q send_data.
Proof.
  intros w H. rewrite send_data_run. cbn [snd globals]. now apply Q_send.
Qed.

Ltac sess_modify :=
  apply session_modify; intros ? Hframe;
  first [ exact Hframe
        | unfold session_holds in *; cbn;
          first [ eapply Q_startup; exact Hframe | eapply Q_clear_buf; exact Hframe
                | eapply Q_clear_resend; exact Hframe ] ].

Ltac sess1 :=
  lazymatch goal with
  | |- session_keeps _ (bind (modify _) (fun _ => bind (modify _) _)) =>
      apply session_fuse
  | |- session_keeps _ (bind (modify _) (fun _ => modify _)) =>
      apply session_fuse_last
  | |- session_keeps _ (bind _ _) => apply session_bind; [|intros ?]
  | |- session_keeps _ (ret _) => apply session_ret
  | |- session_keeps _ (gets _) => apply session_gets
  | |- session_keeps _ (emit _) => apply session_emit
  | |- session_keeps _ (when _ _) => apply session_when
  | |- session_keeps _ (modify _) => sess_modify
  | |- session_keeps _ send_data => apply session_send_data
  | |- session_keeps _ (if ?b then _ else _) => destruct b
  end.

Lemma session_register_data_timer : session_keeps Q register_data_timer.
Proof. unfold register_data_timer. repeat sess1. Qed.

Lemma session_stop_recording : session_keeps Q stop_recording.
Proof. unfold stop_recording, set_msg_flag, clear_msg_flag. repeat sess1. Qed.

Lemma session_start_recording : session_keeps Q start_recording.
Proof. unfold start_recording, set_msg_flag, clear_msg_flag. repeat sess1. Qed.

Lemma session_set_connected (b : bool) :
  b = false \/ survives_connect Q -> session_keeps Q (set_connected b).
Proof.
  intros Hb w H. destruct (g_connected (globals w)) eqn:Hc; destruct b.
  - unfold set_connected, bind, gets, when. cbn [fst snd]. now rewrite Hc.
  - change (snd (set_connected false w)) with (exec (set_connected false) w).
    rewrite (set_connected_false_run w Hc). cbn [globals].
    unfold session_holds. simpl_state. eapply Q_disconnect.
    exact (session_stop_recording w H).
  - destruct Hb as [Hb|Hb]; [discriminate|].
    destruct w as [s ob n tr]. cbn [globals] in *.
    change (snd (set_connected true (mkWorld s ob n tr)))
      with (exec (set_connected true) (mkWorld s ob n tr)).
    rewrite (set_connected_true_run s ob n tr Hc). cbn [globals].
    unfold session_holds in *. simpl_state. rewrite Hc in H. now apply Hb.
  - unfold set_connected, bind, gets, when. cbn [fst snd]. now rewrite Hc.
Qed.

Lemma session_outbox_failed_handler (m : Dictionary) (reason : AppMessageResult) :
  session_keeps Q (outbox_failed_handler m reason).
Proof.
  intros w H.
  change (globals (snd (outbox_failed_handler m reason w)))
    with (state_after (outbox_failed_handler m reason) w).
  destruct (is_SEND_REJECTED reason) eqn:Hr;
    [rewrite outbox_failed_disconnected by (now left); exact H|].
  destruct (g_connected (globals w)) eqn:Hc;
    [|rewrite outbox_failed_disconnected by (now right); exact H].
  assert (Hoff : session_holds Q (state_after (set_connected false) w))
    by (apply (session_set_connected false); [now left | exact H]).
  destruct (resent_too_often m) eqn:Ht;
    [rewrite outbox_failed_gives_up by assumption; exact Hoff|].
  destruct (Z.ltb_spec (g_resend_buf_count (globals w)) RESEND_BUF_SIZE) as [Hroom|Hfull].
  - rewrite outbox_failed_requeues by assumption.
    unfold session_holds in *. simpl_state. rewrite Hc in *. now apply Q_requeue.
  - rewrite outbox_failed_full by assumption. exact Hoff.
Qed.

Lemma session_accel_handler (data : list AccelData) : session_keeps Q (accel_handler data).
Proof.
  intros w H. destruct w as [s ob n tr].
  unfold accel_handler, bind, gets, when, modify, emit, ret.
  cbn [fst snd globals outbox sends trace] in *.
  destruct (g_recording s); cbn [fst snd globals outbox sends trace].
  - match goal with |- context [0 <? ?k] => destruct (Z.ltb_spec 0 k) as [Hp|Hp] end;
      cbn [fst snd globals outbox sends trace];
      destruct (g_accel_handler _); cbn [fst snd globals outbox sends trace];
      unfold session_holds in *; simpl_state; try exact H;
      apply Q_accel; try exact H;
      rewrite length_map, length_firstn;
      unfold g_accel_buf_count, ACCEL_BUF_SIZE in *; simpl_state;
      match type of Hp with
      | context [?a <? ?c] => destruct (Z.ltb_spec a c)
      end; lia.
  - destruct (g_accel_handler _); exact H.
Qed.

Ltac sess :=
  repeat first
    [ sess1
    | lazymatch goal with
      | |- session_keeps _ (set_connected false) =>
          apply session_set_connected; left; reflexivity
      | |- session_keeps _ stop_recording => apply session_stop_recording
      | |- session_keeps _ start_recording => apply session_start_recording
      | |- session_keeps _ register_data_timer => apply session_register_data_timer
      | |- session_keeps _ (set_msg_flag _) => unfold set_msg_flag
      | |- session_keeps _ (clear_msg_flag _) => unfold clear_msg_flag
      | |- session_keeps _ clear_resend_buf => unfold clear_resend_buf
      end ].

Lemma session_inbox_loop (ts : list Tuple) (handled : bool) :
  existsb (fun t => key t =? KEY_CONNECT) ts = false \/ survives_connect Q ->
  session_keeps Q (inbox_loop ts handled).
Proof.
  revert handled. induction ts as [|t ts IH]; intros handled Hc; cbn [inbox_loop].
  - apply session_ret.
  - assert (Hts : existsb (fun t => key t =? KEY_CONNECT) ts = false \/ survives_connect Q).
    { destruct Hc as [Hc|Hc]; [left | now right].
      cbn [existsb] in Hc. now apply orb_false_iff in Hc. }
    apply session_bind; [|intros h; now apply IH].
    unfold inbox_tuple.
    destruct (key t =? KEY_START); [sess|].
    destruct (key t =? KEY_STOP); [sess|].
    destruct (key t =? KEY_DISCONNECT); [sess|].
    destruct (key t =? KEY_CONNECT) eqn:Hk; [|sess].
    assert (HQ : survives_connect Q).
    { destruct Hc as [Hc|Hc]; [|exact Hc]. cbn [existsb] in Hc. now rewrite Hk in Hc. }
    apply session_bind; [|intros ?; sess]. unfold inbox_connect.
    destruct (0 <? value_uint32 t); [|apply session_set_connected; now right].
    apply session_bind; [apply session_gets|]. intros v.
    destruct (_ || _); (apply session_bind; [|intros ?; sess]).
    + apply session_set_connected. now left.
    + apply session_set_connected. now right.
Qed.

Lemma session_shutdown_flush (fuel : nat) : session_keeps Q (shutdown_flush fuel).
Proof.
  induction fuel as [|fuel IH]; cbn [shutdown_flush]; [apply session_ret|].
  apply session_bind; [apply session_gets|]. intros f. apply session_when.
  apply session_bind; [apply session_emit|]. intros _.
  apply session_bind; [apply session_send_data|]. intros _. exact IH.
Qed.

Lemma session_focusmotion_shutdown : session_keeps Q focusmotion_shutdown.
Proof.
  unfold focusmotion_shutdown, cancel_data_timer.
  apply session_bind; [apply session_gets|]. intros i.
  apply session_bind; [|intros _; sess].
  apply session_when.
  apply session_bind; [sess|]. intros _.
  apply session_bind; [sess|]. intros _.
  apply session_bind; [sess|]. intros _.
  apply session_bind; [sess|]. intros _.
  apply session_bind; [apply session_shutdown_flush|]. intros _.
  sess.
Qed.

(** Every event keeps [Q], provided [Q] survives a connection or the event
    carries no connect request. *)
Lemma session_step (e : Event) :
  connects e = false \/ survives_connect Q -> session_keeps Q (step e).
Proof.
  intros Hc. destruct e; cbn [step].
  - unfold focusmotion_startup. sess.
  - unfold focusmotion_start_recording. sess.
  - unfold focusmotion_stop_recording. sess.
  - unfold focusmotion_set_sampling_rate. sess.
  - apply session_focusmotion_shutdown.
  - unfold data_timer_callback. sess.
  - unfold inbox_received_handler.
    apply session_bind; [sess|]. intros _.
    apply session_bind; [now apply session_inbox_loop|]. intros h. sess.
  - apply session_outbox_failed_handler.
  - apply session_accel_handler.
  - unfold bluetooth_handler. sess.
Qed.

Lemma session_run (es : list Event) (w : World) :
  survives_connect Q ->
  session_holds Q (globals w) -> session_holds Q (globals (exec (run es) w)).
Proof.
  intros HQ. revert w. induction es as [|e es IH]; intros w H; [exact H|].
  cbn [run]. rewrite exec_bind. cbv beta. apply IH.
  apply session_step; [now right | exact H].
Qed.

End Session.

Lemma length_removelast_le {A} (l : list A) : (length (removelast l) <= length l)%nat.
Proof. rewrite removelast_firstn_len, length_firstn. lia. Qed.

Lemma within_bounds_send (ob : Outbox) (s : State) :
  session_holds within_bounds s -> session_holds within_bounds (fst (send_data_on ob s)).
Proof.
  unfold session_holds, within_bounds. intros (Hid & Hq & Hb).
  destruct (send_data_on_frame ob s) as (_ & _ & Eid & _ & _ & _ & _ & _ & (n & En) & Eq).
  rewrite Eid, En, length_skipn. split; [exact Hid|]. split; [|lia].
  destruct Eq as [-> | ->]; [exact Hq|].
  pose proof (length_removelast_le (g_resend_buf s)). lia.
Qed.

Lemma within_bounds_connect : survives_connect within_bounds.
Proof.
  unfold survives_connect, within_bounds, next_connection_id, uint32.
  intros id q b (Hid & Hq & Hb). split; [|now split].
  rewrite Z.mod_small by lia. destruct (Z.ltb_spec 1000 (id + 1)); lia.
Qed.

Lemma within_bounds_run (es : list Event) (w : World) :
  session_holds within_bounds (globals w) ->
  session_holds within_bounds (globals (exec (run es) w)).
Proof.
  apply session_run; try exact within_bounds_connect; try exact within_bounds_send;
    unfold within_bounds, RESEND_BUF_SIZE, ACCEL_BUF_SIZE; intros; cbn [length];
    rewrite ?length_app; cbn [length]; intuition lia.
Qed.

(** X21. The bounds of the engine hold in every state it can reach: the
    connection id is between 1 and 1000, the resend buffer holds at most 10
    messages and the sample buffer at most 500 samples. *)
Theorem bounds_kept (s : State) :
  reachable s ->
  1 <= g_connection_id s <= 1000 /\
  g_resend_buf_count s <= RESEND_BUF_SIZE /\
  g_accel_buf_count s <= ACCEL_BUF_SIZE.
Proof.
  intros (ob & es & ->).
  apply (within_bounds_run es (boot ob)).
  unfold session_holds, within_bounds, RESEND_BUF_SIZE, ACCEL_BUF_SIZE. cbn. lia.
Qed.

Lemma bounds_kept_witness :
  let s := state_after (run scen_congested) (boot scen_congested_outbox) in
  1 <= g_connection_id s <= 1000 /\
  g_resend_buf_count s <= RESEND_BUF_SIZE /\
  g_accel_buf_count s <= ACCEL_BUF_SIZE.
Proof.
  intros s. exact (bounds_kept s (reachable_run scen_congested_outbox scen_congested)).
Defined.

Lemma disconnected_send (ob : Outbox) (s : State) :
  session_holds disconnected s -> session_holds disconnected (fst (send_data_on ob s)).
Proof.
  unfold session_holds, disconnected. intros H.
  now rewrite (proj1 (send_data_on_frame ob s)).
Qed.

(** X22. Only a received connect request connects.  An event that is not
    a received message with a connect tuple leaves a disconnected session
    disconnected: not a message with other fields, not the link coming up, not
    starting to record, not a timer tick, not a delivery failure. *)
Theorem only_connect_connects (e : Event) (w : World) :
  connects e = false ->
  g_connected (globals w) = false ->
  g_connected (state_after (step e) w) = false.
Proof.
  intros He Hc.
  apply (session_step disconnected); try exact disconnected_send;
    unfold disconnected; intros; try reflexivity; try assumption; try discriminate;
    auto.
Qed.

Lemma only_connect_connects_witness :
  g_connected (state_after (step (BluetoothChanged true)) scen_started) = false /\
  g_connected
    (state_after (step (InboxReceived 50 [dict_write_uint8 KEY_START 1])) scen_started)
  = false.
Proof.
  pose proof (only_connect_connects (BluetoothChanged true) scen_started) as H1.
  pose proof (only_connect_connects (InboxReceived 50 [dict_write_uint8 KEY_START 1])
                scen_started) as H2.
  feed H1. feed H1. feed H2. feed H2. split; [exact H1 | exact H2].
Defined.

(** ** After the disconnect (lines 476-485, then 251-358) *)

Lemma stop_recording_connection_id (w : World) :
  g_connection_id (state_after stop_recording w) = g_connection_id (globals w).
Proof.
  destruct w as [s ob n tr]. cbn [globals]. unfold state_after.
  destruct (g_recording s) eqn:Hr.
  - rewrite (stop_recording_run s ob n tr Hr). cbv zeta. cbn [globals].
    set (s1 := Upd.msg_flags _ _).
    destruct (send_data_on_untouched (ob n) s1) as (_ & _ & _ & H & _).
    simpl_state. exact H.
  - unfold stop_recording. rewrite exec_bind. cbv beta. rewrite fst_gets, Hr.
    now rewrite exec_when.
Qed.

(** X23. The disconnect is announced.  In the state a session is left in
    when it ends, with an outbox that takes the message, the next send cycle
    sends one message whose only field is the disconnect with the id of the
    session that ended (its low byte), and leaves no flag pending. *)
Theorem disconnect_announced (w : World) (ob : Outbox) :
  g_connected (globals w) = true ->
  is_OK (fresh_begin ob) = true -> is_OK (fresh_send ob) = true ->
  let s1 := state_after (set_connected false) w in
  send_data_on ob s1
  = (Upd.msg_flags 0 s1,
     [OutboxSend [dict_write_uint8 KEY_DISCONNECT (g_connection_id (globals w))]
        (fresh_send ob)]).
Proof.
  intros Hc Hb Hs s1.
  assert (Hid : g_connection_id s1 = g_connection_id (globals w)).
  { subst s1. unfold state_after. rewrite (set_connected_false_run w Hc). cbn [globals].
    simpl_state. apply stop_recording_connection_id. }
  destruct (set_connected_false_effect w Hc) as (_ & _ & Hbuf & Hq & _ & Hfl).
  fold s1 in Hbuf, Hq, Hfl.
  assert (Hn : samples_to_send (fresh_space ob) s1 = 0).
  { unfold samples_to_send, g_accel_buf_count. now rewrite Hbuf. }
  assert (Hmsg : fresh_message (fresh_space ob) s1
                 = [dict_write_uint8 KEY_DISCONNECT (g_connection_id s1)]).
  { unfold fresh_message, get_msg_flag, g_accel_buf_count.
    rewrite Hn, Hbuf, Hfl. reflexivity. }
  unfold send_data_on, g_resend_buf_count. rewrite Hq. cbn [length Z.of_nat].
  change (0 <? 0) with false. cbv iota.
  unfold send_fresh, new_msg_flags. rewrite Hmsg, Hn, Hb, Hs, Hid.
  unfold g_accel_buf_count. rewrite Hbuf, Hfl. reflexivity.
Qed.

Lemma disconnect_announced_witness :
  let s1 := state_after (set_connected false) scen_idle in
  send_data_on scen_outbox_ok s1
  = (Upd.msg_flags 0 s1,
     [OutboxSend [dict_write_uint8 KEY_DISCONNECT (g_connection_id (globals scen_idle))]
        (fresh_send scen_outbox_ok)]).
Proof.
  pose proof (disconnect_announced scen_idle scen_outbox_ok) as H.
  feed H. feed H. feed H. exact H.
Defined.

(** ** Shutting down (lines 810-840) *)

Lemma send_data_quiet (w : World) :
  let w' := exec send_data w in
  g_handlers (globals w') = g_handlers (globals w) /\
  g_recording (globals w') = g_recording (globals w) /\
  g_data_timer (globals w') = g_data_timer (globals w) /\
  sends w' = S (sends w).
Proof.
  destruct w as [s ob n tr]. cbv zeta. rewrite exec_send_data. cbn [globals sends].
  destruct (send_data_on_untouched (ob n) s)
    as (_ & Hr & _ & _ & Hh & _ & _ & _ & _ & Ht & _).
  now repeat split.
Qed.

Lemma stop_recording_quiet (w : World) :
  let w' := exec stop_recording w in
  g_handlers (globals w') = g_handlers (globals w) /\
  g_recording (globals w') = false /\
  g_data_timer (globals w') = g_data_timer (globals w) /\
  (sends w' <= S (sends w))%nat.
Proof.
  cbv zeta. pose proof (stop_recording_off w) as Hoff. unfold state_after in Hoff.
  destruct w as [s ob n tr]. cbn [globals sends] in *.
  destruct (g_recording s) eqn:Hr.
  - rewrite (stop_recording_run s ob n tr Hr) in *. cbv zeta in *. cbn [globals sends] in *.
    set (s1 := Upd.msg_flags _ _) in *.
    destruct (send_data_on_untouched (ob n) s1)
      as (_ & _ & _ & _ & Hh & _ & _ & _ & _ & Ht & _).
    simpl_state. repeat split; try assumption. lia.
  - assert (E : exec stop_recording (mkWorld s ob n tr) = mkWorld s ob n tr).
    { unfold stop_recording. rewrite exec_bind. cbv beta. rewrite fst_gets, Hr.
      now rewrite exec_when. }
    rewrite E. cbn [globals sends]. repeat split; try assumption. lia.
Qed.

Lemma shutdown_flush_quiet (fuel : nat) (w : World) :
  let w' := exec (shutdown_flush fuel) w in
  g_handlers (globals w') = g_handlers (globals w) /\
  g_recording (globals w') = g_recording (globals w) /\
  g_data_timer (globals w') = g_data_timer (globals w) /\
  (sends w' <= sends w + fuel)%nat.
Proof.
  revert w. induction fuel as [|fuel IH]; intros w; cbv zeta; cbn [shutdown_flush].
  - rewrite exec_ret. repeat split; lia.
  - rewrite exec_bind. cbv beta. rewrite exec_gets, exec_when.
    destruct (negb _); [|repeat split; lia].
    rewrite exec_bind. cbv beta. rewrite exec_bind. cbv beta.
    destruct w as [s ob n tr]. rewrite exec_emit.
    specialize (IH (exec send_data (mkWorld s ob n (tr ++ [Psleep 50])))).
    pose proof (send_data_quiet (mkWorld s ob n (tr ++ [Psleep 50]))) as Hs.
    cbv zeta in *. cbn [globals sends] in *.
    destruct IH as (I1 & I2 & I3 & I4). destruct Hs as (S1 & S2 & S3 & S4).
    repeat split; try congruence. lia.
Qed.

(** X24. Shutting down an engine that was started up leaves it not inited
    and not recording, with an empty resend buffer and no timer; the client's
    handlers are cleared, except the outbox-failed handler, which stays as it
    was set.  The last announcements are flushed in a bounded way: the call
    runs at most seven send cycles. *)
Theorem shutdown_effect (w : World) :
  g_inited (globals w) = true ->
  let w' := exec focusmotion_shutdown w in
  g_inited (globals w') = false /\ g_recording (globals w') = false /\
  g_resend_buf (globals w') = [] /\ g_data_timer (globals w') = false /\
  g_handlers (globals w')
  = mkHandlers false (g_outbox_failed_handler (g_handlers (globals w)))
      false false false false /\
  (sends w' <= sends w + 7)%nat.
Proof.
  intros Hi. cbv zeta. destruct w as [s ob n tr]. cbn [globals sends] in *.
  unfold focusmotion_shutdown.
  rewrite exec_bind. cbv beta. rewrite fst_gets, Hi, exec_gets.
  rewrite exec_bind. cbv beta. rewrite exec_when.
  rewrite exec_bind. cbv beta. rewrite exec_modify.
  rewrite exec_bind. cbv beta. rewrite exec_set_msg_flag.
  rewrite exec_bind. cbv beta.
  match goal with |- context [exec stop_recording ?w0] =>
    pose proof (stop_recording_quiet w0) as H1; set (w1 := exec stop_recording w0) in *
  end.
  rewrite exec_bind. cbv beta.
  pose proof (send_data_quiet w1) as H2. set (w2 := exec send_data w1) in *.
  rewrite exec_bind. cbv beta.
  pose proof (shutdown_flush_quiet 5 w2) as H3. set (w3 := exec (shutdown_flush 5) w2) in *.
  cbv zeta in *. cbn [globals sends] in *. simpl_state.
  destruct H1 as (A1 & A2 & A3 & A4). destruct H2 as (B1 & B2 & B3 & B4).
  destruct H3 as (C1 & C2 & C3 & C4).
  destruct w3 as [s3 ob3 n3 tr3]. cbn [globals sends] in *.
  unfold cancel_data_timer, clear_resend_buf.
  rewrite exec_bind. cbv beta. rewrite exec_bind. cbv beta. rewrite fst_gets, exec_gets.
  rewrite exec_bind. cbv beta.
  assert (E : exists tr4, exec (when (g_data_timer s3) (emit TimerCancel))
                            (mkWorld s3 ob3 n3 tr3) = mkWorld s3 ob3 n3 tr4).
  { rewrite exec_when. destruct (g_data_timer s3); [rewrite exec_emit|]; eauto. }
  destruct E as (tr4 & ->). rewrite !exec_modify. cbn [globals sends]. simpl_state.
  repeat split; try reflexivity; try congruence. lia.
Qed.

Lemma shutdown_effect_witness :
  let w' := exec focusmotion_shutdown scen_busy in
  g_inited (globals w') = false /\ g_recording (globals w') = false /\
  g_resend_buf (globals w') = [] /\ g_data_timer (globals w') = false /\
  g_handlers (globals w')
  = mkHandlers false (g_outbox_failed_handler (g_handlers (globals scen_busy)))
      false false false false /\
  (sends w' <= sends scen_busy + 7)%nat.
Proof.
  pose proof (shutdown_effect scen_busy) as H. feed H. exact H.
Defined.

(** ** The bluetooth link (lines 671-683) *)

Lemma set_connected_handlers (b : bool) (w : World) :
  g_handlers (globals (exec (set_connected b) w)) = g_handlers (globals w).
Proof.
  destruct (Bool.eqb (g_connected (globals w)) b) eqn:E.
  - unfold set_connected. rewrite exec_bind. cbv beta.
    destruct w as [s ob n tr]. rewrite fst_gets, exec_gets. cbn [globals] in E.
    rewrite E. reflexivity.
  - destruct b.
    + destruct w as [s ob n tr]. cbn [globals] in *.
      rewrite set_connected_true_run by (destruct (g_connected s); [discriminate | reflexivity]).
      reflexivity.
    + rewrite set_connected_false_run
        by (destruct (g_connected (globals w)); [reflexivity | discriminate]).
      cbv zeta. cbn [globals]. simpl_state. apply (stop_recording_quiet w).
Qed.

(** X16. The link.  Losing it ends the session; getting it back does not
    start one: the session is connected after the callback exactly when it was
    connected before and the link is reported up.  A report that the link is
    up changes no global; a report that it is lost does what ending the
    session does.  In both cases the client's handler, when there is one, is
    called with the reported state, once and after everything else. *)
Theorem link_change (up : bool) (w : World) :
  let w1 := if up then w else exec (set_connected false) w in
  g_connected (state_after (bluetooth_handler up) w) = g_connected (globals w) && up /\
  exec (bluetooth_handler up) w
  = mkWorld (globals w1) (outbox w1) (sends w1)
      (trace w1 ++ (if g_bluetooth_handler (g_handlers (globals w))
                    then [ClientBluetooth up] else [])).
Proof.
  cbv zeta.
  assert (Hrun : exec (bluetooth_handler up) w
    = mkWorld (globals (if up then w else exec (set_connected false) w))
        (outbox (if up then w else exec (set_connected false) w))
        (sends (if up then w else exec (set_connected false) w))
        (trace (if up then w else exec (set_connected false) w)
         ++ (if g_bluetooth_handler (g_handlers (globals w))
             then [ClientBluetooth up] else []))).
  { unfold bluetooth_handler. rewrite exec_bind. cbv beta. rewrite exec_when.
    rewrite exec_bind. cbv beta. rewrite exec_gets, exec_when.
    assert (Hh : forall w1, g_handlers (globals w1) = g_handlers (globals w) ->
      (if fst (gets (fun s => g_bluetooth_handler (g_handlers s)) w1)
       then exec (emit (ClientBluetooth up)) w1 else w1)
      = mkWorld (globals w1) (outbox w1) (sends w1)
          (trace w1 ++ (if g_bluetooth_handler (g_handlers (globals w))
                        then [ClientBluetooth up] else []))).
    { intros [s1 ob1 n1 tr1] E. rewrite fst_gets. cbn [globals outbox sends trace] in *.
      rewrite E. destruct (g_bluetooth_handler _);
        [now rewrite exec_emit | now rewrite app_nil_r]. }
    destruct up; cbn [negb]; apply Hh; [reflexivity | apply set_connected_handlers]. }
  split; [|exact Hrun].
  unfold state_after. rewrite Hrun. cbn [globals].
  destruct up; [now rewrite andb_true_r|].
  rewrite andb_false_r. apply (set_connected_sets false w).
Qed.

Lemma link_change_witness :
  g_connected (globals scen_watched) = true /\
  g_connected (state_after (bluetooth_handler false) scen_watched) = false /\
  trace (exec (bluetooth_handler false) scen_watched)
  = trace (exec (set_connected false) scen_watched) ++ [ClientBluetooth false] /\
  exec (bluetooth_handler true) scen_watched
  = mkWorld (globals scen_watched) (outbox scen_watched) (sends scen_watched)
      (trace scen_watched ++ [ClientBluetooth true]).
Proof.
  destruct (link_change false scen_watched) as [H1 H2].
  destruct (link_change true scen_watched) as [_ H3].
  cbv zeta in *.
  split; [by_vm|]. split; [exact H1|]. split.
  - rewrite H2. reflexivity.
  - exact H3.
Defined.

(** ** Accounting for samples, exactly *)

Lemma send_fresh_balanced (B : Z) (ob : Outbox) (s : State) :
  B < 2147483648 ->
  holds (balanced B) s -> holds (balanced B) (fst (send_fresh ob s)).
Proof.
  intros HB H. unfold send_fresh.
  destruct (_ || _); [|exact H].
  destruct (is_OK (fresh_begin ob)); [|exact H].
  destruct (is_OK (fresh_send ob)); [|exact H].
  pose proof (samples_to_send_bounds (fresh_space ob) s) as Hn.
  destruct (0 <? samples_to_send (fresh_space ob) s); [|exact H].
  unfold holds, balanced, g_accel_buf_count in *. cbn.
  rewrite length_skipn. rewrite int32_small by lia. lia.
Qed.

Lemma send_data_on_balanced (B : Z) (ob : Outbox) (s : State) :
  B < 2147483648 ->
  holds (balanced B) s -> holds (balanced B) (fst (send_data_on ob s)).
Proof.
  intros HB H. unfold send_data_on.
  destruct (0 <? g_resend_buf_count s); [|now apply send_fresh_balanced].
  destruct (is_OK (resend_begin ob)); [|exact H].
  destruct (is_OK (resend_send ob)).
  - pose proof (send_fresh_balanced B ob (Upd.resend_buf (removelast (g_resend_buf s)) s) HB H) as H'.
    now destruct (send_fresh ob (Upd.resend_buf _ s)).
  - pose proof (send_fresh_balanced B ob s HB H) as H'. now destruct (send_fresh ob s).
Qed.

Lemma send_data_on_balanced_empty (B : Z) (ob : Outbox) (s : State) :
  holds (balanced_empty B) s -> holds (balanced_empty B) (fst (send_data_on ob s)).
Proof.
  unfold holds, balanced_empty, balanced. intros (He & H).
  destruct (send_data_on_empty ob s He) as [Hb Hs].
  destruct (send_data_on_untouched ob s) as (_ & _ & _ & _ & _ & Hm & _).
  rewrite Hb, Hs, Hm. rewrite He in H. now split.
Qed.

Lemma accel_handler_nothing (w : World) :
  globals (snd (accel_handler [] w)) = 
  (if g_recording (globals w)
   then Upd.samples_measured (int32 (g_samples_measured (globals w) + 0)) (globals w)
   else globals w).
Proof.
  unfold accel_handler. mred. cbn [length Z.of_nat].
  destruct (g_recording (globals w)); cbn [fst snd globals outbox sends trace].
  - replace (0 <? _) with false.
    + now destruct (g_accel_handler _).
    + symmetry. apply Z.ltb_ge. change (int32 0) with 0.
      destruct (_ <? 0) eqn:E; [apply Z.ltb_lt in E|]; lia.
  - now destruct (g_accel_handler _).
Qed.

(** With an empty buffer nothing can be lost: every event but a delivery
    of samples keeps the counters balanced and the buffer empty. *)
Lemma balanced_empty_step (B : Z) (e : Event) :
  0 <= B < 2147483648 -> samples_in e = 0 ->
  preserves (balanced_empty B) (step e).
Proof.
  intros HB He. apply preserves_step.
  - unfold balanced_empty, balanced. cbn. repeat split; lia.
  - intros ob s. apply send_data_on_balanced_empty.
  - intros k b s m f _ H. exact H.
  - intros k b s m f H. exact H.
  - intros b s m f H. unfold balanced_empty, balanced in *. cbn. repeat split; lia.
  - intros b s m f (-> & H). split; [reflexivity | exact H].
  - intros data -> w H. cbn in He.
    destruct data; [|cbn in He; lia].
    rewrite accel_handler_nothing.
    destruct (g_recording (globals w)); [|exact H].
    unfold holds, balanced_empty, balanced in *. cbn.
    rewrite Z.add_0_r, int32_small; [exact H|]. lia.
Qed.

Lemma balanced_of_empty (B : Z) (s : State) :
  holds (balanced_empty B) s -> holds (balanced B) s.
Proof. intros H. apply H. Qed.

Lemma set_connected_same (b : bool) (w : World) :
  g_connected (globals w) = b -> set_connected b w = (tt, w).
Proof.
  intros H. unfold set_connected, bind, gets, when. cbn [fst snd].
  rewrite H. now destruct b.
Qed.

(** What the handling of a received tuple leaves of the session. *)
Lemma start_recording_session (w : World) :
  g_connected (state_after start_recording w) = g_connected (globals w) /\
  g_app_version (state_after start_recording w) = g_app_version (globals w).
Proof.
  destruct w as [s ob n tr]. unfold state_after. cbn [globals].
  destruct (g_recording s) eqn:Hr.
  - unfold start_recording. rewrite exec_bind. cbv beta. rewrite fst_gets, Hr.
    cbn [negb]. rewrite exec_when. now split.
  - rewrite (start_recording_run s ob n tr Hr). cbv zeta. cbn [globals].
    set (s1 := Upd.msg_flags _ _).
    destruct (send_data_on_untouched (ob n) s1)
      as (_ & _ & Hc & _ & _ & _ & _ & _ & _ & _ & _ & Hv).
    simpl_state. split; [exact Hc | exact Hv].
Qed.

Lemma stop_recording_session (w : World) :
  g_connected (state_after stop_recording w) = g_connected (globals w) /\
  g_app_version (state_after stop_recording w) = g_app_version (globals w).
Proof.
  destruct w as [s ob n tr]. unfold state_after. cbn [globals].
  destruct (g_recording s) eqn:Hr.
  - rewrite (stop_recording_run s ob n tr Hr). cbv zeta. cbn [globals].
    set (s1 := Upd.msg_flags _ _).
    destruct (send_data_on_untouched (ob n) s1)
      as (_ & _ & Hc & _ & _ & _ & _ & _ & _ & _ & _ & Hv).
    simpl_state. split; [exact Hc | exact Hv].
  - unfold stop_recording. rewrite exec_bind. cbv beta. rewrite fst_gets, Hr.
    rewrite exec_when. now split.
Qed.

Lemma set_connected_true_session (P : list Sample -> Z -> Z -> Z -> Prop) (w : World) :
  let s' := state_after (set_connected true) w in
  g_connected s' = true /\ g_app_version s' = g_app_version (globals w) /\
  (holds P (globals w) -> holds P s').
Proof.
  cbv zeta. unfold state_after. destruct (g_connected (globals w)) eqn:Hc.
  - unfold exec. rewrite set_connected_same by exact Hc. cbn [snd]. auto.
  - destruct w as [s ob n tr]. cbn [globals] in *.
    rewrite (set_connected_true_run s ob n tr Hc). cbn [globals]. simpl_state. auto.
Qed.

(** A received message that does not end the session keeps the counters
    balanced. *)
Lemma balanced_inbox_loop (B : Z) (ts : list Tuple) (handled : bool) (w : World) :
  0 <= B < 2147483648 ->
  ends_session (g_connected (globals w)) (g_app_version (globals w)) ts = false ->
  holds (balanced B) (globals w) ->
  holds (balanced B) (globals (exec (inbox_loop ts handled) w)).
Proof.
  intros HB. revert handled w.
  assert (Psend : forall ob s, holds (balanced B) s -> holds (balanced B) (fst (send_data_on ob s)))
    by (intros ob s; apply send_data_on_balanced; lia).
  assert (Pset : forall k b s m f, armed_key k -> balanced B b s m f -> balanced B b s m (set_flag k f))
    by (intros k b s m f _ H; exact H).
  assert (Pclear : forall k b s m f, balanced B b s m f -> balanced B b s m (clear_flag k f))
    by (intros k b s m f H; exact H).
  assert (Preset : forall b s m f, balanced B b s m f -> balanced B [] 0 0 f)
    by (intros b s m f H; unfold balanced; cbn; lia).
  induction ts as [|t ts IH]; intros handled w Hends H; cbn [inbox_loop]; [exact H|].
  rewrite exec_bind. cbv beta.
  set (w' := exec (inbox_tuple t handled) w).
  assert (Ht : holds (balanced B) (globals w') /\
               ends_session (g_connected (globals w')) (g_app_version (globals w')) ts = false).
  { subst w'. cbn [ends_session] in Hends. unfold inbox_tuple.
    destruct (key t =? KEY_START).
    { rewrite exec_bind. cbv beta. rewrite exec_ret.
      destruct (start_recording_session w) as [Ec Ev]. unfold state_after in Ec, Ev.
      rewrite Ec, Ev. split; [|exact Hends].
      now apply (preserves_start_recording (balanced B)). }
    destruct (key t =? KEY_STOP).
    { rewrite exec_bind. cbv beta. rewrite exec_ret.
      destruct (stop_recording_session w) as [Ec Ev]. unfold state_after in Ec, Ev.
      rewrite Ec, Ev. split; [|exact Hends].
      now apply (preserves_stop_recording (balanced B)). }
    destruct (key t =? KEY_DISCONNECT).
    { apply orb_false_iff in Hends as [Hc Hends].
      rewrite exec_bind. cbv beta. rewrite exec_ret.
      assert (E : exec (set_connected false) w = w)
        by (unfold exec; now rewrite set_connected_same by exact Hc).
      rewrite E, Hc. now split. }
    destruct (key t =? KEY_CONNECT); [|rewrite exec_ret; now split].
    destruct (length (value t) <? 4)%nat; [discriminate|].
    rewrite exec_bind. cbv beta. rewrite exec_ret. unfold inbox_connect.
    destruct (0 <? value_uint32 t).
    - rewrite exec_bind. cbv beta. rewrite exec_gets.
      destruct w as [s ob n tr]. rewrite fst_gets. cbn [globals] in *.
      destruct (negb (protocol_version_of (value_uint32 t) =? PROTOCOL_VERSION)
                || negb (app_version_of (value_uint32 t) =? g_app_version s)).
      + apply orb_false_iff in Hends as [Hc Hends].
        rewrite exec_bind. cbv beta.
        assert (E : exec (set_connected false) (mkWorld s ob n tr) = mkWorld s ob n tr)
          by (unfold exec; now rewrite set_connected_same by exact Hc).
        rewrite E, exec_set_msg_flag. cbn [globals]. simpl_state.
        rewrite Hc. now split.
      + rewrite exec_bind. cbv beta.
        destruct (set_connected_true_session (balanced B) (mkWorld s ob n tr))
          as (Ec & Ev & Hp).
        unfold state_after in Ec, Ev, Hp. cbn [globals] in Ev, Hp.
        destruct (exec (set_connected true) (mkWorld s ob n tr)) as [s2 ob2 n2 tr2].
        rewrite exec_set_msg_flag. cbn [globals] in *. simpl_state.
        rewrite Ec, Ev. split; [exact (Hp H) | exact Hends].
    - destruct (set_connected_true_session (balanced B) w) as (Ec & Ev & Hp).
      unfold state_after in Ec, Ev, Hp. rewrite Ec, Ev. split; [exact (Hp H) | exact Hends]. }
  destruct Ht as [H' Hends']. now apply IH.
Qed.

(** An event that cannot lose samples keeps the counters balanced. *)
Lemma balanced_step (B : Z) (e : Event) (w : World) :
  0 <= B -> B + samples_in e < 2147483648 ->
  may_shed e (globals w) = false ->
  holds (balanced B) (globals w) ->
  holds (balanced (B + samples_in e)) (globals (exec (step e) w)).
Proof.
  intros HB Hfit Hshed H.
  assert (Psend : forall ob s, holds (balanced B) s -> holds (balanced B) (fst (send_data_on ob s)))
    by (intros ob s; apply send_data_on_balanced; destruct e; cbn in Hfit; lia).
  assert (Pset : forall k b s m f, armed_key k -> balanced B b s m f -> balanced B b s m (set_flag k f))
    by (intros k b s m f _ H0; exact H0).
  assert (Pclear : forall k b s m f, balanced B b s m f -> balanced B b s m (clear_flag k f))
    by (intros k b s m f H0; exact H0).
  assert (Preset : forall b s m f, balanced B b s m f -> balanced B [] 0 0 f)
    by (intros b s m f H0; unfold balanced; cbn; lia).
  assert (Pinit : balanced B [] 0 0 0) by (unfold balanced; cbn; lia).
  assert (Hempty : samples_in e = 0 -> g_accel_buf (globals w) = [] ->
                   holds (balanced B) (globals (exec (step e) w))).
  { intros He Hb. apply balanced_of_empty.
    apply (balanced_empty_step B e); [lia | exact He |]. split; [exact Hb | exact H]. }
  assert (Hcase : g_accel_buf (globals w) = [] \/ (0 <? g_accel_buf_count (globals w)) = true).
  { unfold g_accel_buf_count. destruct (g_accel_buf (globals w)); [now left | now right]. }
  destruct e; cbn [step samples_in may_shed] in *; rewrite ?Z.add_0_r.
  - now apply preserves_focusmotion_startup.
  - unfold focusmotion_start_recording. apply preserves_when; [|exact H].
    now apply preserves_start_recording.
  - now apply preserves_stop_recording.
  - destruct w as [s ob n tr]. rewrite set_sampling_rate_run. cbn [globals] in *.
    now destruct (g_recording s).
  - now apply preserves_focusmotion_shutdown.
  - (* the timer tick *)
    destruct Hcase as [Hb|Hpos]; [now apply Hempty|].
    rewrite Hpos in Hshed. cbn [andb] in Hshed.
    rewrite data_timer_callback_run. cbv zeta.
    set (w1 := exec send_data (exec (modify (Upd.data_timer false)) w)).
    assert (H1 : holds (balanced B) (globals w1)).
    { subst w1. apply (preserves_send_data (balanced B) Psend). exact H. }
    assert (Hc1 : g_connected (globals w1) = g_connected (globals w)).
    { subst w1. unfold exec at 1. rewrite send_data_run. cbn [snd globals].
      now rewrite (proj1 (send_data_on_frame _ _)). }
    assert (Hl1 : g_last_message_time (globals w1) = g_last_message_time (globals w)).
    { subst w1. unfold exec at 1. rewrite send_data_run. cbn [snd globals].
      match goal with |- context [send_data_on ?ob ?s0] =>
        destruct (send_data_on_frame ob s0) as (_ & _ & _ & E & _) end.
      now rewrite E. }
    rewrite Hl1, Hc1.
    replace ((0 <? g_last_message_time (globals w))
             && (g_connected (globals w)
                 && (8 <? int32 (now - g_last_message_time (globals w)))))
      with false
      by (destruct (g_connected (globals w)), (0 <? g_last_message_time (globals w));
          cbn in *; congruence).
    apply (preserves_register_data_timer (balanced B)). exact H1.
  - (* a received message *)
    destruct Hcase as [Hb|Hpos]; [now apply Hempty|].
    rewrite Hpos in Hshed. cbn [andb] in Hshed.
    unfold inbox_received_handler. rewrite exec_bind. cbv beta.
    destruct w as [s ob n tr]. rewrite exec_modify. cbn [globals] in *.
    rewrite exec_bind. cbv beta.
    pose proof (balanced_inbox_loop B msg false
                  (mkWorld (Upd.last_message_time now s) ob n tr)) as Hloop.
    cbn [globals] in Hloop. simpl_state.
    specialize (Hloop ltac:(lia) Hshed H).
    rewrite exec_bind. cbv beta. rewrite exec_gets, exec_when.
    destruct (negb _ && _); [|exact Hloop].
    destruct (exec (inbox_loop msg false) _) as [s2 ob2 n2 tr2].
    rewrite exec_emit. exact Hloop.
  - (* a delivery failure *)
    destruct Hcase as [Hb|Hpos]; [now apply Hempty|].
    rewrite Hpos in Hshed. cbn [andb] in Hshed.
    change (globals (exec (outbox_failed_handler msg reason) w))
      with (state_after (outbox_failed_handler msg reason) w).
    destruct (is_SEND_REJECTED reason) eqn:Hr;
      [rewrite outbox_failed_disconnected by (now left); exact H|].
    destruct (g_connected (globals w)) eqn:Hc;
      [|rewrite outbox_failed_disconnected by (now right); exact H].
    cbn [andb negb] in Hshed. apply orb_false_iff in Hshed as [Ht Hroom].
    apply negb_false_iff, Z.ltb_lt in Hroom.
    rewrite outbox_failed_requeues by assumption. exact H.
  - (* a delivery of samples *)
    apply andb_false_iff in Hshed.
    set (inCount := Z.of_nat (length data)) in *.
    unfold accel_handler, exec. mred. fold inCount.
    destruct (g_recording (globals w)) eqn:Hr; cbn [fst snd globals outbox sends trace].
    + destruct Hshed as [Hs|Hs]; [discriminate|]. apply Z.ltb_ge in Hs.
      unfold holds, balanced in H.
      change (g_accel_buf_count (Upd.samples_measured _ (globals w)))
        with (g_accel_buf_count (globals w)).
      rewrite (int32_small inCount) by (subst inCount; lia).
      replace (ACCEL_BUF_SIZE - g_accel_buf_count (globals w) <? inCount) with false
        by (symmetry; apply Z.ltb_ge; lia).
      destruct (Z.ltb_spec 0 inCount) as [Hp|Hz];
        cbn [fst snd globals outbox sends trace];
        destruct (g_accel_handler _); unfold holds, balanced; cbn;
        rewrite ?length_app, ?length_map, ?length_firstn;
        rewrite int32_small by lia; subst inCount; lia.
    + destruct (g_accel_handler _); unfold holds, balanced in *; cbn in *; lia.
  - (* the link *)
    destruct Hcase as [Hb|Hpos]; [now apply Hempty|].
    rewrite Hpos in Hshed. cbn [andb] in Hshed.
    assert (E : globals (exec (bluetooth_handler up) w) = globals w).
    { unfold bluetooth_handler. rewrite exec_bind. cbv beta. rewrite exec_when.
      rewrite exec_bind. cbv beta. rewrite exec_gets, exec_when.
      assert (E1 : (if negb up then exec (set_connected false) w else w) = w).
      { destruct up; [reflexivity|]. cbn [negb]. unfold exec.
        rewrite set_connected_same; [reflexivity|].
        destruct (g_connected (globals w)); [discriminate | reflexivity]. }
      rewrite E1. destruct w as [s ob n tr]. rewrite fst_gets.
      destruct (g_bluetooth_handler _); [rewrite exec_emit|]; reflexivity. }
    rewrite E. exact H.
Qed.

Lemma samples_in_nonneg (e : Event) : 0 <= samples_in e.
Proof. destruct e; cbn; lia. Qed.

Lemma samples_delivered_nonneg (es : list Event) : 0 <= samples_delivered es.
Proof.
  induction es as [|e es IH]; cbn; [lia|]. pose proof (samples_in_nonneg e). lia.
Qed.

Lemma samples_delivered_app (es1 es2 : list Event) :
  samples_delivered (es1 ++ es2) = samples_delivered es1 + samples_delivered es2.
Proof. induction es1 as [|e es1 IH]; cbn; [reflexivity|]. rewrite IH. lia. Qed.

Lemma balanced_run (es : list Event) (B : Z) (w : World) :
  0 <= B -> B + samples_delivered es < 2147483648 ->
  lossless es w = true ->
  holds (balanced B) (globals w) ->
  holds (balanced (B + samples_delivered es)) (globals (exec (run es) w)).
Proof.
  revert B w. induction es as [|e es IH]; intros B w HB Hfit Hless H.
  - cbn. now rewrite Z.add_0_r.
  - pose proof (samples_in_nonneg e) as He.
    pose proof (samples_delivered_nonneg es) as Hes.
    cbn [run samples_delivered lossless] in *.
    apply andb_true_iff in Hless as [Hshed Hless]. apply negb_true_iff in Hshed.
    rewrite exec_bind. cbv beta. rewrite Z.add_assoc.
    apply IH; [lia | lia | exact Hless |].
    apply balanced_step; (lia || assumption).
Qed.

(** The end of a session loses the samples it finds buffered: ten samples
    are measured and buffered while the outbox is busy, the phone disconnects,
    and the buffer is empty with nothing sent. *)
Lemma disconnect_discards_samples :
  let s := state_after (run scen_dropped) (boot (fun _ => scen_outbox_busy)) in
  lossless scen_dropped (boot (fun _ => scen_outbox_busy)) = false /\
  g_accel_buf_count s = 0 /\ g_samples_sent s = 0 /\ g_samples_measured s = 10.
Proof. vm_compute. repeat split; reflexivity. Qed.

(** C3, amended.  In every state reached by a run that delivered fewer
    than 2^31 samples (so that the [int] counters did not wrap), the sent
    counter is not negative and the measured counter is at least the sent
    counter plus the buffered count, hence at least the sent counter; it is at
    most the number of samples delivered.  The measured counter is the sent
    counter plus the buffered count, whether the buffer is full or not, as long
    as no sample was lost: from a point of the run where the two agree (the
    start of the run, or any start of a recording) they agree after every
    further event, provided none of these sheds samples of an overflowing
    delivery or ends the session with samples buffered. *)
Theorem samples_accounted (ob : nat -> Outbox) (es1 es2 : list Event) :
  samples_delivered (es1 ++ es2) < 2147483648 ->
  let w1 := exec (run es1) (boot ob) in
  let s := state_after (run es2) w1 in
  0 <= g_samples_sent s /\
  g_samples_sent s + g_accel_buf_count s <= g_samples_measured s /\
  g_samples_sent s <= g_samples_measured s /\
  g_samples_measured s <= samples_delivered (es1 ++ es2) /\
  (g_samples_measured (globals w1)
   = g_samples_sent (globals w1) + g_accel_buf_count (globals w1) ->
   lossless es2 w1 = true ->
   g_samples_measured s = g_samples_sent s + g_accel_buf_count s).
Proof.
  intros Hfit w1 s.
  pose proof (samples_delivered_nonneg es1) as H1.
  pose proof (samples_delivered_nonneg es2) as H2.
  rewrite samples_delivered_app in *.
  assert (Hs : s = state_after (run (es1 ++ es2)) (boot ob))
    by (subst s w1; unfold state_after; now rewrite run_app).
  assert (H : holds (accounted (0 + (samples_delivered es1 + samples_delivered es2))) s).
  { rewrite Hs, <- samples_delivered_app.
    apply accounted_run; [lia | rewrite samples_delivered_app; lia |].
    unfold holds, accounted. cbn. lia. }
  assert (Hw1 : holds (accounted (0 + samples_delivered es1)) (globals w1)).
  { apply accounted_run; [lia | lia |]. unfold holds, accounted. cbn. lia. }
  unfold holds, accounted in H, Hw1. unfold g_accel_buf_count in *.
  repeat split; try lia.
  intros Heq Hless.
  assert (Hb : holds (balanced (samples_delivered es1 + samples_delivered es2)) s).
  { apply balanced_run; [lia | lia | exact Hless |].
    unfold holds, balanced. lia. }
  unfold holds, balanced in Hb. lia.
Qed.

Lemma samples_accounted_witness :
  let w1 := exec (run scen_restart) (boot scen_congested_outbox) in
  let s := state_after (run scen_resumed) w1 in
  samples_delivered (scen_restart ++ scen_resumed) = 770 /\
  (0 <= g_samples_sent s /\
   g_samples_sent s + g_accel_buf_count s <= g_samples_measured s /\
   g_samples_sent s <= g_samples_measured s /\
   g_samples_measured s <= samples_delivered (scen_restart ++ scen_resumed)) /\
  g_samples_measured s = g_samples_sent s + g_accel_buf_count s /\
  g_samples_measured s = 70 /\ g_samples_sent s = 60 /\ g_accel_buf_count s = 10.
Proof.
  pose proof (samples_accounted scen_congested_outbox scen_restart scen_resumed) as H.
  feed H. cbv zeta in H. destruct H as (A & B & C & D & E).
  feed E. feed E.
  cbv zeta. split; [by_vm|].
  split; [split; [exact A|]; split; [exact B|]; split; [exact C | exact D]|].
  split; [exact E|]. split; [by_vm|]. split; by_vm.
Defined.
